(** * Vendor order system: order placement and status reconciliation

    A shallow embedding of [OrdersService] (orders.service.ts) and of
    [ProductsService] (products.service.ts) together with the Mongo
    collections they work on, and of the accounts behind them:
    [UsersService] (users.service.ts) and [AuthService]
    (auth.service.ts).

    Conventions of the embedding.
    - An [ObjectId] is a number; a collection is a finite map from the
      [_id] of a document to its other fields, and a document handed to
      the application is the pair of the two.  Timestamps are left out.
    - The [productId] of a cart line is a string, as the request carries
      it.  [create] compares it, as a string, with the keys of a [Map]
      that are ids printed by [toString()], and hands it to queries,
      which cast it to an [ObjectId]; the two are kept apart.  An id
      that a function only hands to a query (the [id] of [findOne],
      [update], [decrementStock], [updateOrderStatus]) is taken as the
      [ObjectId] the query casts it to, and a vendor id used as a key of
      a [Map] as the [ObjectId] it prints.
    - [price], [amount] and [totalAmount] are JavaScript numbers:
      binary64 floating point, with the additions and multiplications of
      the code in the order the code makes them.  A stored price is a
      number the DTOs admit (finite, not negative), so no total is NaN
      and the Number cast of Mongoose never fails in [create].  [stock]
      and [quantity] count whole units and are integers of [Z], which a
      double holds exactly below 2^53.
    - Asynchronous code is sequential: one request runs at a time.
    - Saving a new document is an insert, refused when the [_id] is
      taken.  The schema validation of the saves of [OrdersService] is
      left out: the documents the code builds carry every required field
      (for an array the [required] check of Mongoose asks for an array,
      empty or not).  Where a document takes its strings from a request
      ([ProductsService.create], [UsersService.create]) the [required]
      check is modelled: it refuses an empty string.  So is the enum
      check of [status] in [updateOrderStatus], whose controller hands
      over the string of the request body as it comes.
    - [save()] of a loaded document sends an update of the paths that
      were assigned a different value, and nothing when there is none.
    - A write that carries the [session] option goes to the working copy
      of the open transaction; a write without it goes to the committed
      data at once.  [commitTransaction] installs the working copy,
      [abortTransaction] drops it. *)

From Stdlib Require Import ZArith PrimFloat Ascii.
From Stdlib Require SpecFloat FloatOps HexString.
From stdpp Require Import gmap strings list fin_maps pretty.

Local Open Scope Z_scope.

#[local] Set Warnings "-inexact-float".

(** ** Documents *)

Definition ObjectId := N.

Inductive UserRole := CUSTOMER | VENDOR | ADMIN.

Inductive OrderStatus := PENDING | PROCESSING | SHIPPED | DELIVERED | CANCELLED.

#[global] Instance UserRole_eq_dec : EqDecision UserRole.
Proof. solve_decision. Defined.

#[global] Instance OrderStatus_eq_dec : EqDecision OrderStatus.
Proof. solve_decision. Defined.

(** The [status] of a request body.  The controller hands it to the
    service as it comes, so it is a value of the enum or some other
    string. *)
Inductive StatusInput :=
  | Declared (status : OrderStatus)
  | Undeclared (value : string).
Coercion Declared : OrderStatus >-> StatusInput.

(** The values of the enum (query-orders.dto.ts). *)
Definition status_of_string (value : string) : option OrderStatus :=
  if decide (value = "pending"%string) then Some PENDING
  else if decide (value = "processing"%string) then Some PROCESSING
  else if decide (value = "shipped"%string) then Some SHIPPED
  else if decide (value = "delivered"%string) then Some DELIVERED
  else if decide (value = "cancelled"%string) then Some CANCELLED
  else None.

(** ** Ids as strings

    [toString] is [ObjectId.prototype.toString()]: the 24 hexadecimal
    digits of the id, in lower case.  [cast] is the cast of Mongoose from
    a string to an [ObjectId], which reads the digits in either case.  A
    [productId] of a cart passed [IsMongoId] (order-item.dto.ts): it is a
    string of 24 hexadecimal digits, and on other strings [cast] has no
    counterpart in the code. *)
Definition hex_digits (id : ObjectId) : string :=
  match id with
  | N0 => EmptyString
  | Npos p => HexString.Raw.of_pos p EmptyString
  end.

Fixpoint zeros (n : nat) (s : string) : string :=
  match n with
  | O => s
  | S k => String "0"%char (zeros k s)
  end.

Definition toString (id : ObjectId) : string :=
  let digits := hex_digits id in
  zeros (24 - String.length digits) digits.

Definition cast (s : string) : ObjectId := HexString.Raw.to_N s 0%N.

Arguments toString : simpl never.
Arguments cast : simpl never.

(** ** Numbers

    A whole number as a JavaScript number: the nearest double. *)
Definition number (z : Z) : float :=
  FloatOps.SF2Prim (SpecFloat.binary_normalize FloatOps.prec FloatOps.emax z 0 false).

Arguments number : simpl never.

(** A document as the application sees it: its [_id] and its fields. *)
Definition Doc (A : Type) : Type := ObjectId * A.
Definition _id {A} (d : Doc A) : ObjectId := fst d.
Definition fields {A} (d : Doc A) : A := snd d.

Record User := {
  user_name : string;
  email : string;
  password : string;
  role : UserRole
}.

Record Product := {
  product_name : string;
  price : float;
  stock : Z;
  category : string;
  product_vendorId : ObjectId
}.

(** order-item.dto.ts *)
Record OrderItemDto := {
  dto_productId : string;
  dto_quantity : Z
}.

(** Modelled from the spec: create-order.dto.ts is not among the sources;
    the cart is the list of (productId, quantity) lines that [create]
    reads as [createOrderDto.items]. *)
Record CreateOrderDto := {
  dto_items : list OrderItemDto
}.

Record OrderItem := {
  productId : string;
  name : string;
  item_price : float;
  quantity : Z;
  vendorId : ObjectId
}.

Record StockUpdate := {
  su_productId : string;
  su_quantity : Z
}.

Record Order := {
  customerId : ObjectId;
  items : list OrderItem;
  totalAmount : float;
  status : OrderStatus;
  subOrders : list ObjectId
}.

Record SubOrder := {
  parentOrderId : ObjectId;
  so_vendorId : ObjectId;
  so_items : list OrderItem;
  amount : float;
  so_status : OrderStatus
}.

(** update-product.dto.ts: every field is optional. *)
Record UpdateProductDto := {
  upd_name : option string;
  upd_price : option float;
  upd_stock : option Z;
  upd_category : option string
}.

(** ** The store *)

Record Database := {
  products : gmap ObjectId Product;
  orders : gmap ObjectId Order;
  subOrderDocs : gmap ObjectId SubOrder
}.

Inductive Collection := Products | Orders | SubOrders.

(** One entry per statement sent to a collection. *)
Inductive Access := Read (c : Collection) | Write (c : Collection).

(** The handle of the one client session of a request. *)
Inductive ClientSession := Session.

Record World := {
  committed : Database;
  txn : option Database;
  accesses : list Access;
  oid_source : nat -> ObjectId;
  oid_issued : nat
}.

(** ** Exceptions *)

Inductive message :=
  | OnlyCustomersCanCreateOrders
  | ProductsNotFoundOrOutOfStock (missingProducts : list string)
  | ProductNotFoundOrOutOfStock (id : string)
  | NotEnoughStock (product : string) (available requested : Z)
  | ProductNotFoundOrInsufficientStock (id : ObjectId)
  | ProductNotFound (id : ObjectId)
  | NotEnoughStockFor (product : string)
  | OnlyOwnProducts
  | NoPermissionToUpdateProducts
  | OrderNotFound (id : ObjectId)
  | SubOrderNotFound (id : ObjectId)
  | ParentOrderNotFound (id : ObjectId)
  | VendorsOnlyOwnSubOrders
  | OnlyOwnSubOrders
  | DuplicateKey (c : Collection) (id : ObjectId)
  | DocumentNotFound (c : Collection) (id : ObjectId)
  | NotAValidEnumValue (value : string)
  | FailedToCreateOrder (cause : message)
  | FailedToUpdateOrderStatus (cause : message).

Inductive exception :=
  | BadRequestException (m : message)
  | ForbiddenException (m : message)
  | NotFoundException (m : message)
  | InternalServerErrorException (m : message)
  | MongoServerError (m : message)
  | ValidationError (m : message).

Definition error_message (e : exception) : message :=
  match e with
  | BadRequestException m | ForbiddenException m | NotFoundException m
  | InternalServerErrorException m | MongoServerError m | ValidationError m => m
  end.

(** ** Computations: state and exceptions *)

Inductive outcome (A : Type) :=
  | Return (a : A)
  | Throw (e : exception).
Arguments Return {A} a.
Arguments Throw {A} e.

Definition M (A : Type) : Type := World -> outcome A * World.

Definition ret {A} (a : A) : M A := fun w => (Return a, w).

Definition throw {A} (e : exception) : M A := fun w => (Throw e, w).

Definition bind {A B} (c : M A) (k : A -> M B) : M B :=
  fun w =>
    match c w with
    | (Return a, w1) => k a w1
    | (Throw e, w1) => (Throw e, w1)
    end.

Notation "'let*' x ':=' c 'in' k" := (bind c (fun x => k))
  (at level 10, x pattern, c at level 100, k at level 200).
Notation "c ';;' k" := (bind c (fun _ => k))
  (at level 100, k at level 200, right associativity).

(** [try c catch (error) h] *)
Definition try_catch {A} (c : M A) (h : exception -> M A) : M A :=
  fun w =>
    match c w with
    | (Return a, w1) => (Return a, w1)
    | (Throw e, w1) => h e w1
    end.

(** [... finally f]: [f] runs on both exits and the outcome is kept. *)
Definition finally {A} (c : M A) (f : M unit) : M A :=
  fun w =>
    match c w with
    | (r, w1) =>
        match f w1 with
        | (Return _, w2) => (r, w2)
        | (Throw e, w2) => (Throw e, w2)
        end
    end.

(** ** Sessions, transactions and the collections *)

Definition set_committed (d : Database) (w : World) : World :=
  {| committed := d; txn := txn w; accesses := accesses w;
     oid_source := oid_source w; oid_issued := oid_issued w |}.

Definition set_txn (t : option Database) (w : World) : World :=
  {| committed := committed w; txn := t; accesses := accesses w;
     oid_source := oid_source w; oid_issued := oid_issued w |}.

Definition record_access (a : Access) (w : World) : World :=
  {| committed := committed w; txn := txn w; accesses := accesses w ++ [a];
     oid_source := oid_source w; oid_issued := oid_issued w |}.

(** The world with more entries in its log. *)
Definition logged (log : list Access) (w : World) : World :=
  {| committed := committed w; txn := txn w; accesses := accesses w ++ log;
     oid_source := oid_source w; oid_issued := oid_issued w |}.

(** The data a statement sees: the working copy of the transaction when
    it carries the session and a transaction is open, the committed data
    otherwise. *)
Definition view (s : option ClientSession) (w : World) : Database :=
  match s, txn w with
  | Some Session, Some d => d
  | _, _ => committed w
  end.

Definition set_view (s : option ClientSession) (d : Database) (w : World) : World :=
  match s, txn w with
  | Some Session, Some _ => set_txn (Some d) w
  | _, _ => set_committed d w
  end.

Definition startSession : M ClientSession := ret Session.

Definition startTransaction (s : ClientSession) : M unit :=
  fun w => (Return tt, set_txn (Some (committed w)) w).

Definition commitTransaction (s : ClientSession) : M unit :=
  fun w =>
    match txn w with
    | Some d => (Return tt, set_txn None (set_committed d w))
    | None => (Return tt, w)
    end.

Definition abortTransaction (s : ClientSession) : M unit :=
  fun w => (Return tt, set_txn None w).

Definition endSession (s : ClientSession) : M unit :=
  fun w => (Return tt, set_txn None w).

(** [new Model(...)] draws a fresh [_id] from the driver. *)
Definition new_ObjectId : M ObjectId :=
  fun w =>
    (Return (oid_source w (oid_issued w)),
     {| committed := committed w; txn := txn w; accesses := accesses w;
        oid_source := oid_source w; oid_issued := S (oid_issued w) |}).

Definition with_products (f : gmap ObjectId Product -> gmap ObjectId Product)
    (d : Database) : Database :=
  {| products := f (products d); orders := orders d; subOrderDocs := subOrderDocs d |}.

Definition with_orders (f : gmap ObjectId Order -> gmap ObjectId Order)
    (d : Database) : Database :=
  {| products := products d; orders := f (orders d); subOrderDocs := subOrderDocs d |}.

Definition with_subOrders (f : gmap ObjectId SubOrder -> gmap ObjectId SubOrder)
    (d : Database) : Database :=
  {| products := products d; orders := orders d; subOrderDocs := f (subOrderDocs d) |}.

Definition set_stock (n : Z) (p : Product) : Product :=
  {| product_name := product_name p; price := price p; stock := n;
     category := category p; product_vendorId := product_vendorId p |}.

Definition set_status (st : OrderStatus) (o : Order) : Order :=
  {| customerId := customerId o; items := items o; totalAmount := totalAmount o;
     status := st; subOrders := subOrders o |}.

Definition set_subOrders (ids : list ObjectId) (o : Order) : Order :=
  {| customerId := customerId o; items := items o; totalAmount := totalAmount o;
     status := status o; subOrders := ids |}.

Definition set_so_status (st : OrderStatus) (s : SubOrder) : SubOrder :=
  {| parentOrderId := parentOrderId s; so_vendorId := so_vendorId s;
     so_items := so_items s; amount := amount s; so_status := st |}.

(** *** productModel *)

(** [productModel.findById(id)] *)
Definition product_findById (id : ObjectId) : M (option (Doc Product)) :=
  fun w => (Return (pair id <$> products (committed w) !! id),
            record_access (Read Products) w).

(** [productModel.find({ _id: { $in: ids }, stock: { $gt: 0 } })] *)
Definition product_find_in_stock (ids : list ObjectId) : M (list (Doc Product)) :=
  fun w =>
    (Return (filter (fun d : Doc Product => _id d ∈ ids ∧ 0 < stock (fields d))
                    (map_to_list (products (committed w)))),
     record_access (Read Products) w).

(** [productModel.findByIdAndUpdate(id, dto, { new: true })]: the fields
    present in the update are set, the others kept. *)
Definition apply_update (dto : UpdateProductDto) (p : Product) : Product :=
  {| product_name := default (product_name p) (upd_name dto);
     price := default (price p) (upd_price dto);
     stock := default (stock p) (upd_stock dto);
     category := default (category p) (upd_category dto);
     product_vendorId := product_vendorId p |}.

Definition product_findByIdAndUpdate (id : ObjectId) (dto : UpdateProductDto)
    : M (option (Doc Product)) :=
  fun w =>
    match products (committed w) !! id with
    | Some p =>
        (Return (Some (id, apply_update dto p)),
         record_access (Write Products)
           (set_committed (with_products <[id := apply_update dto p]> (committed w)) w))
    | None => (Return None, record_access (Write Products) w)
    end.

(** [product.save()] of a loaded document (outside any session): the
    update of the assigned paths when one of them got a different value,
    and no statement otherwise. *)
Definition product_save (d : Doc Product) (modified : bool) : M (Doc Product) :=
  if modified then
    fun w =>
      (Return d,
       record_access (Write Products)
         (set_committed (with_products <[_id d := fields d]> (committed w)) w))
  else ret d.

(** [productModel.findOneAndUpdate({ _id, stock: { $gte: quantity } },
    { $inc: { stock: -quantity } }, { new: true, session })]: one
    conditional statement; the updated document, or null when no document
    matches the filter. *)
Definition product_findOneAndUpdate_dec (id : ObjectId) (q : Z)
    (session : option ClientSession) : M (option (Doc Product)) :=
  fun w =>
    match products (view session w) !! id with
    | Some p =>
        if decide (q <= stock p) then
          let p' := set_stock (stock p + - q) p in
          (Return (Some (id, p')),
           record_access (Write Products)
             (set_view session (with_products <[id := p']> (view session w)) w))
        else (Return None, record_access (Write Products) w)
    | None => (Return None, record_access (Write Products) w)
    end.

(** ** ProductsService (products.service.ts) *)

Module ProductsService.

Definition findOne (id : ObjectId) : M (Doc Product) :=
  let* product := product_findById id in
  match product with
  | None => throw (NotFoundException (ProductNotFound id))
  | Some product => ret product
  end.

Definition update (id : ObjectId) (updateProductDto : UpdateProductDto)
    (user : Doc User) : M (Doc Product) :=
  let* product := findOne id in
  if decide (role (fields user) = VENDOR
             ∧ product_vendorId (fields product) ≠ _id user) then
    throw (ForbiddenException OnlyOwnProducts)
  else if decide (role (fields user) ≠ ADMIN ∧ role (fields user) ≠ VENDOR) then
    throw (ForbiddenException NoPermissionToUpdateProducts)
  else
    let* updatedProduct := product_findByIdAndUpdate id updateProductDto in
    match updatedProduct with
    | None => throw (NotFoundException (ProductNotFound id))
    | Some updatedProduct => ret updatedProduct
    end.

Definition getProductsInStock (ids : list ObjectId) : M (list (Doc Product)) :=
  product_find_in_stock ids.

Definition updateStock (productId : ObjectId) (quantity : Z) : M (Doc Product) :=
  let* product := product_findById productId in
  match product with
  | None => throw (NotFoundException (ProductNotFound productId))
  | Some product =>
      if decide (stock (fields product) < quantity) then
        throw (ForbiddenException (NotEnoughStockFor (product_name (fields product))))
      else
        let stock' := stock (fields product) - quantity in
        product_save (_id product, set_stock stock' (fields product))
                     (bool_decide (stock' ≠ stock (fields product)))
  end.

Definition decrementStock (productId : ObjectId) (quantity : Z)
    (session : option ClientSession) : M (Doc Product) :=
  let* product := product_findOneAndUpdate_dec productId quantity session in
  match product with
  | None => throw (BadRequestException (ProductNotFoundOrInsufficientStock productId))
  | Some product => ret product
  end.

(** [create] and [remove] throw exceptions whose messages are theirs
    alone; [Http] carries an exception of the common kind. *)
Inductive save_failure :=
  | ValidationFailed (paths : list string)
  | ServerError (cause : message).

Inductive catalog_exception :=
  | Http (e : exception)
  | OnlyVendorsCanCreateProducts
  | FailedToCreateProduct (cause : save_failure)
  | OnlyDeleteOwnProducts
  | NoPermissionToDeleteProducts.

Inductive catalog_outcome :=
  | Done (product : Doc Product)
  | Failed (e : catalog_exception).

(** Modelled from the spec: create-product.dto.ts is not among the
    sources; its fields are the fields of a product that [create] does
    not set itself. *)
Record CreateProductDto := {
  new_name : string;
  new_price : float;
  new_stock : Z;
  new_category : string
}.

(** The paths of a product whose [required] validator fails: a string
    path that holds the empty string. *)
Definition missing_paths (p : Product) : list string :=
  (if decide (product_name p = EmptyString) then ["name"%string] else [])
  ++ (if decide (category p = EmptyString) then ["category"%string] else []).

(** [newProduct.save()], once validated: an insert outside any session. *)
Definition product_insert (d : Doc Product) : M (Doc Product) :=
  fun w =>
    match products (committed w) !! _id d with
    | Some _ => (Throw (MongoServerError (DuplicateKey Products (_id d))),
                 record_access (Write Products) w)
    | None =>
        (Return d,
         record_access (Write Products)
           (set_committed (with_products <[_id d := fields d]> (committed w)) w))
    end.

(** [productModel.findByIdAndDelete(id)] *)
Definition product_findByIdAndDelete (id : ObjectId) : M (option (Doc Product)) :=
  fun w =>
    (Return (pair id <$> products (committed w) !! id),
     record_access (Write Products)
       (set_committed (with_products (delete id) (committed w)) w)).

Definition create (createProductDto : CreateProductDto) (user : Doc User)
    : World -> catalog_outcome * World :=
  fun w =>
    if decide (role (fields user) ≠ VENDOR) then
      (Failed OnlyVendorsCanCreateProducts, w)
    else
      match new_ObjectId w with
      | (Throw error, w1) =>
          (Failed (FailedToCreateProduct (ServerError (error_message error))), w1)
      | (Return id, w1) =>
          let newProduct :=
            {| product_name := new_name createProductDto;
               price := new_price createProductDto;
               stock := new_stock createProductDto;
               category := new_category createProductDto;
               product_vendorId := _id user |} in
          match missing_paths newProduct with
          | (_ :: _) as paths =>
              (Failed (FailedToCreateProduct (ValidationFailed paths)), w1)
          | [] =>
              match product_insert (id, newProduct) w1 with
              | (Return newProduct, w2) => (Done newProduct, w2)
              | (Throw error, w2) =>
                  match error with
                  | ForbiddenException _ => (Failed (Http error), w2)
                  | _ => (Failed (FailedToCreateProduct
                                    (ServerError (error_message error))), w2)
                  end
              end
          end
      end.

Definition remove (id : ObjectId) (user : Doc User)
    : World -> catalog_outcome * World :=
  fun w =>
    match findOne id w with
    | (Throw e, w1) => (Failed (Http e), w1)
    | (Return product, w1) =>
        if decide (role (fields user) = VENDOR
                   ∧ product_vendorId (fields product) ≠ _id user) then
          (Failed OnlyDeleteOwnProducts, w1)
        else if decide (role (fields user) ≠ ADMIN ∧ role (fields user) ≠ VENDOR) then
          (Failed NoPermissionToDeleteProducts, w1)
        else
          match product_findByIdAndDelete id w1 with
          | (Return (Some deletedProduct), w2) => (Done deletedProduct, w2)
          | (Return None, w2) =>
              (Failed (Http (NotFoundException (ProductNotFound id))), w2)
          | (Throw e, w2) => (Failed (Http e), w2)
          end
    end.

End ProductsService.

(** *** orderModel and subOrderModel *)

(** [doc.save({ session })] of a new document: an insert, refused by the
    unique index on [_id] when the key is taken. *)
Definition order_insert (session : option ClientSession) (d : Doc Order) : M unit :=
  fun w =>
    match orders (view session w) !! _id d with
    | Some _ => (Throw (MongoServerError (DuplicateKey Orders (_id d))),
                 record_access (Write Orders) w)
    | None =>
        (Return tt,
         record_access (Write Orders)
           (set_view session (with_orders <[_id d := fields d]> (view session w)) w))
    end.

Definition subOrder_insert (session : option ClientSession) (d : Doc SubOrder) : M unit :=
  fun w =>
    match subOrderDocs (view session w) !! _id d with
    | Some _ => (Throw (MongoServerError (DuplicateKey SubOrders (_id d))),
                 record_access (Write SubOrders) w)
    | None =>
        (Return tt,
         record_access (Write SubOrders)
           (set_view session (with_subOrders <[_id d := fields d]> (view session w)) w))
    end.

(** [doc.save({ session })] of a loaded document whose paths were
    assigned: an update of those paths on the stored document. *)
Definition order_update (session : option ClientSession) (id : ObjectId)
    (f : Order -> Order) : M unit :=
  fun w =>
    match orders (view session w) !! id with
    | Some o =>
        (Return tt,
         record_access (Write Orders)
           (set_view session (with_orders <[id := f o]> (view session w)) w))
    | None => (Throw (MongoServerError (DocumentNotFound Orders id)),
               record_access (Write Orders) w)
    end.

Definition subOrder_update (id : ObjectId) (f : SubOrder -> SubOrder) : M unit :=
  fun w =>
    match subOrderDocs (committed w) !! id with
    | Some s =>
        (Return tt,
         record_access (Write SubOrders)
           (set_committed (with_subOrders <[id := f s]> (committed w)) w))
    | None => (Throw (MongoServerError (DocumentNotFound SubOrders id)),
               record_access (Write SubOrders) w)
    end.

(** [doc.save(...)] of a loaded document: the update of the assigned
    paths when one of them got a different value, and no statement
    otherwise. *)
Definition order_save (session : option ClientSession) (id : ObjectId)
    (f : Order -> Order) (modified : bool) : M unit :=
  if modified then order_update session id f else ret tt.

Definition subOrder_save (id : ObjectId) (f : SubOrder -> SubOrder)
    (modified : bool) : M unit :=
  if modified then subOrder_update id f else ret tt.

Arguments order_save : simpl never.
Arguments subOrder_save : simpl never.

(** The assignment [doc.status = status] gives the path another value. *)
Definition status_modified (st : OrderStatus) (o : Order) : bool :=
  bool_decide (status o ≠ st).

Definition so_status_modified (st : OrderStatus) (s : SubOrder) : bool :=
  bool_decide (so_status s ≠ st).

(** The enum validator of the path [status], which [save()] runs on the
    assigned value before it sends anything. *)
Definition validated (status : StatusInput) : M OrderStatus :=
  match status with
  | Declared st => ret st
  | Undeclared value =>
      match status_of_string value with
      | Some st => ret st
      | None => throw (ValidationError (NotAValidEnumValue value))
      end
  end.

(** [orderModel.exists({ _id: id })] *)
Definition order_exists (id : ObjectId) : M bool :=
  fun w => (Return (bool_decide (is_Some (orders (committed w) !! id))),
            record_access (Read Orders) w).

(** [orderModel.findById(id)] *)
Definition order_findById (id : ObjectId) : M (option (Doc Order)) :=
  fun w => (Return (pair id <$> orders (committed w) !! id),
            record_access (Read Orders) w).

(** [.populate('subOrders')]: the referenced documents that exist, in the
    order of the references. *)
Definition populate_subOrders (ids : list ObjectId) : M (list (Doc SubOrder)) :=
  fun w =>
    (Return (omap (fun id => pair id <$> subOrderDocs (committed w) !! id) ids),
     record_access (Read SubOrders) w).

(** [subOrderModel.findById(id)] *)
Definition subOrder_findById (id : ObjectId) : M (option (Doc SubOrder)) :=
  fun w => (Return (pair id <$> subOrderDocs (committed w) !! id),
            record_access (Read SubOrders) w).

(** [subOrderModel.find({ parentOrderId })] *)
Definition subOrder_find_by_parent (parent : ObjectId) : M (list (Doc SubOrder)) :=
  fun w =>
    (Return (filter (fun d : Doc SubOrder => parentOrderId (fields d) = parent)
                    (map_to_list (subOrderDocs (committed w)))),
     record_access (Read SubOrders) w).

(** [subOrderModel.updateMany({ _id: { $in: ids } }, { $set: { status } })] *)
Definition subOrder_updateMany (ids : list ObjectId) (st : OrderStatus) : M unit :=
  fun w =>
    (Return tt,
     record_access (Write SubOrders)
       (set_committed
          (with_subOrders
             (map_imap (fun id s =>
                Some (if decide (id ∈ ids) then set_so_status st s else s)))
             (committed w)) w)).

(** ** A JavaScript [Map]: keys in insertion order *)

Fixpoint jsmap_get {V} (k : ObjectId) (m : list (ObjectId * V)) : option V :=
  match m with
  | [] => None
  | (k', v) :: m' => if decide (k = k') then Some v else jsmap_get k m'
  end.

Definition jsmap_has {V} (k : ObjectId) (m : list (ObjectId * V)) : bool :=
  match jsmap_get k m with Some _ => true | None => false end.

Fixpoint jsmap_set {V} (k : ObjectId) (v : V) (m : list (ObjectId * V))
    : list (ObjectId * V) :=
  match m with
  | [] => [(k, v)]
  | (k', v') :: m' =>
      if decide (k = k') then (k', v) :: m' else (k', v') :: jsmap_set k v m'
  end.

(** ** OrdersService (orders.service.ts) *)

Module OrdersService.

(** [products.forEach(product => productMap.set(product._id.toString(), product))] *)
Definition productMap_of (products : list (Doc Product)) : gmap string Product :=
  foldl (fun m product => <[toString (_id product) := fields product]> m) ∅ products.

(** The loop "Validate all products have enough stock". *)
Fixpoint validate_stock (productMap : gmap string Product)
    (items : list OrderItemDto) : M unit :=
  match items with
  | [] => ret tt
  | item :: rest =>
      match productMap !! dto_productId item with
      | None =>
          throw (BadRequestException (ProductNotFoundOrOutOfStock (dto_productId item)))
      | Some product =>
          if decide (stock product < dto_quantity item) then
            throw (BadRequestException
                     (NotEnoughStock (product_name product) (stock product)
                                     (dto_quantity item)))
          else validate_stock productMap rest
      end
  end.

(** The variables the grouping loop assigns. *)
Record Grouping := {
  vendorItems : list (ObjectId * list OrderItem);
  g_totalAmount : float;
  orderItems : list OrderItem;
  stockUpdates : list StockUpdate
}.

Definition grouping_start : Grouping :=
  {| vendorItems := []; g_totalAmount := 0%float; orderItems := [];
     stockUpdates := [] |}.

(** One turn of the loop "Process each item and group by vendor". *)
Definition group_step (productMap : gmap string Product) (g : Grouping)
    (item : OrderItemDto) : Grouping :=
  match productMap !! dto_productId item with
  | None => g
  | Some product =>
      let vendorId := product_vendorId product in
      let orderItem :=
        {| productId := dto_productId item;
           name := product_name product;
           item_price := price product;
           quantity := dto_quantity item;
           vendorId := product_vendorId product |} in
      let vendorItems1 :=
        if jsmap_has vendorId (vendorItems g) then vendorItems g
        else jsmap_set vendorId [] (vendorItems g) in
      let vendorItems2 :=
        match jsmap_get vendorId vendorItems1 with
        | Some vendorItemsArray =>
            jsmap_set vendorId (vendorItemsArray ++ [orderItem]) vendorItems1
        | None => vendorItems1
        end in
      {| vendorItems := vendorItems2;
         g_totalAmount :=
           (g_totalAmount g + price product * number (dto_quantity item))%float;
         orderItems := orderItems g ++ [orderItem];
         stockUpdates := stockUpdates g ++
           [{| su_productId := dto_productId item; su_quantity := dto_quantity item |}] |}
  end.

(** [items.reduce((sum, item) => sum + item.price * item.quantity, 0)] *)
Definition subOrderAmount_of (items : list OrderItem) : float :=
  foldl (fun sum item => (sum + item_price item * number (quantity item))%float)
        0%float items.

(** The loop "Create sub-orders for each vendor" over
    [vendorItems.entries()]. *)
Fixpoint create_subOrders (parent : ObjectId) (session : ClientSession)
    (entries : list (ObjectId * list OrderItem)) (subOrderIds : list ObjectId)
    : M (list ObjectId) :=
  match entries with
  | [] => ret subOrderIds
  | (vendorId, items) :: rest =>
      let subOrderAmount := subOrderAmount_of items in
      let* id := new_ObjectId in
      let subOrder :=
        {| parentOrderId := parent;
           so_vendorId := vendorId;
           so_items := items;
           amount := subOrderAmount;
           so_status := PENDING |} in
      subOrder_insert (Some session) (id, subOrder) ;;
      create_subOrders parent session rest (subOrderIds ++ [id])
  end.

(** The loop over [stockUpdates]. *)
Fixpoint apply_stockUpdates (session : ClientSession) (updates : list StockUpdate)
    : M unit :=
  match updates with
  | [] => ret tt
  | update :: rest =>
      ProductsService.decrementStock (cast (su_productId update))
                                     (su_quantity update) (Some session) ;;
      apply_stockUpdates session rest
  end.

(** The [try] block of [create] once the products are fetched. *)
Definition create_with (createOrderDto : CreateOrderDto) (user : Doc User)
    (session : ClientSession) (products : list (Doc Product)) : M (Doc Order) :=
  let productIds := map dto_productId (dto_items createOrderDto) in
  let productMap := productMap_of products in
  let missingProducts :=
    filter (fun id => productMap !! id = None) productIds in
  if decide (0 < length missingProducts)%nat then
    throw (BadRequestException (ProductsNotFoundOrOutOfStock missingProducts))
  else
    validate_stock productMap (dto_items createOrderDto) ;;
    let g := foldl (group_step productMap) grouping_start (dto_items createOrderDto) in
    let* oid := new_ObjectId in
    let order :=
      {| customerId := _id user;
         items := orderItems g;
         totalAmount := g_totalAmount g;
         status := PENDING;
         subOrders := [] |} in
    order_insert (Some session) (oid, order) ;;
    let* subOrderIds := create_subOrders oid session (vendorItems g) [] in
    order_save (Some session) oid (set_subOrders subOrderIds)
               (bool_decide (subOrderIds ≠ [])) ;;
    apply_stockUpdates session (stockUpdates g) ;;
    commitTransaction session ;;
    ret (oid, set_subOrders subOrderIds order).

(** The [try] block of [create]. *)
Definition create_try (createOrderDto : CreateOrderDto) (user : Doc User)
    (session : ClientSession) : M (Doc Order) :=
  let productIds := map dto_productId (dto_items createOrderDto) in
  let* products := ProductsService.getProductsInStock (map cast productIds) in
  create_with createOrderDto user session products.

(** The [catch] block of [create]. *)
Definition create_catch (session : ClientSession) (error : exception)
    : M (Doc Order) :=
  abortTransaction session ;;
  match error with
  | BadRequestException _ | ForbiddenException _ | NotFoundException _ =>
      throw error
  | _ =>
      throw (InternalServerErrorException (FailedToCreateOrder (error_message error)))
  end.

Definition create (createOrderDto : CreateOrderDto) (user : Doc User)
    : M (Doc Order) :=
  if decide (role (fields user) ≠ CUSTOMER) then
    throw (ForbiddenException OnlyCustomersCanCreateOrders)
  else
    let* session := startSession in
    startTransaction session ;;
    finally
      (try_catch (create_try createOrderDto user session) (create_catch session))
      (endSession session).

(** What [updateOrderStatus] returns: the parent order with its
    populated sub-orders, or the sub-order. *)
Inductive Updated :=
  | UpdatedOrder (order : Doc Order) (populated : list (Doc SubOrder))
  | UpdatedSubOrder (subOrder : Doc SubOrder).

(** The parent branch of [updateOrderStatus]. *)
Definition update_parent (id : ObjectId) (status : StatusInput) (user : Doc User)
    : M Updated :=
  let* found := order_findById id in
  match found with
  | None => throw (NotFoundException (OrderNotFound id))
  | Some order =>
      let* populated := populate_subOrders (subOrders (fields order)) in
      if decide (role (fields user) = VENDOR) then
        throw (ForbiddenException VendorsOnlyOwnSubOrders)
      else
        let* st := validated status in
        order_save None (_id order) (set_status st)
                   (status_modified st (fields order)) ;;
        (if decide (0 < length populated)%nat then
           subOrder_updateMany (map _id populated) st
         else ret tt) ;;
        ret (UpdatedOrder (_id order, set_status st (fields order)) populated)
  end.

(** The sub-order branch of [updateOrderStatus]. *)
Definition update_child (id : ObjectId) (status : StatusInput) (user : Doc User)
    : M Updated :=
  let* found := subOrder_findById id in
  match found with
  | None => throw (NotFoundException (SubOrderNotFound id))
  | Some subOrder =>
      if decide (role (fields user) = VENDOR
                 ∧ so_vendorId (fields subOrder) ≠ _id user) then
        throw (ForbiddenException OnlyOwnSubOrders)
      else
        let* st := validated status in
        subOrder_save (_id subOrder) (set_so_status st)
                      (so_status_modified st (fields subOrder)) ;;
        let* parentOrder := order_findById (parentOrderId (fields subOrder)) in
        match parentOrder with
        | None => throw (NotFoundException (ParentOrderNotFound id))
        | Some parentOrder =>
            let* allSubOrders := subOrder_find_by_parent (_id parentOrder) in
            (if decide (length allSubOrders = 1%nat) then
               order_save None (_id parentOrder) (set_status st)
                          (status_modified st (fields parentOrder))
             else if decide (1 < length allSubOrders)%nat then
               let allSameStatus :=
                 forallb (fun so : Doc SubOrder =>
                            bool_decide (so_status (fields so) = st))
                         allSubOrders in
               if allSameStatus then
                 order_save None (_id parentOrder) (set_status st)
                            (status_modified st (fields parentOrder))
               else ret tt
             else ret tt) ;;
            ret (UpdatedSubOrder (_id subOrder, set_so_status st (fields subOrder)))
        end
  end.

Definition updateOrderStatus_catch (error : exception) : M Updated :=
  match error with
  | NotFoundException _ | ForbiddenException _ => throw error
  | _ =>
      throw (InternalServerErrorException
               (FailedToUpdateOrderStatus (error_message error)))
  end.

Definition updateOrderStatus (id : ObjectId) (status : StatusInput) (user : Doc User)
    : M Updated :=
  try_catch
    (let* isParentOrder := order_exists id in
     if isParentOrder then update_parent id status user
     else update_child id status user)
    updateOrderStatus_catch.

(** What [populate] with [select: 'name email'] keeps of a user. *)
Record UserRef := {
  ref_name : string;
  ref_email : string
}.

Definition user_ref (users : gmap ObjectId User) (id : ObjectId)
    : option (Doc UserRef) :=
  (fun u => (id, {| ref_name := user_name u; ref_email := email u |})) <$> users !! id.

(** A sub-order with its [vendorId] populated (null for a missing
    user). *)
Record PopulatedSubOrder := {
  ps_subOrder : Doc SubOrder;
  ps_vendor : option (Doc UserRef)
}.

(** What [findOne] returns: an order with its sub-orders populated, and
    its customer when that was populated too; or a sub-order with its
    parent populated (null for a missing order). *)
Inductive Found :=
  | FoundOrder (order : Doc Order) (populated : list PopulatedSubOrder)
               (customer : option (option (Doc UserRef)))
  | FoundSubOrder (subOrder : Doc SubOrder) (parentOrder : option (Doc Order)).

(** [.populate({ path: 'subOrders', populate: { path: 'vendorId', ... } })] *)
Definition populate_with_vendors (users : gmap ObjectId User) (d : Database)
    (ids : list ObjectId) : list PopulatedSubOrder :=
  omap (fun id =>
          (fun s => {| ps_subOrder := (id, s);
                       ps_vendor := user_ref users (so_vendorId s) |})
            <$> subOrderDocs d !! id) ids.

(** [.populate('parentOrderId')] *)
Definition with_parent (d : Database) (so : Doc SubOrder) : Found :=
  FoundSubOrder so (pair (parentOrderId (fields so))
                      <$> orders d !! parentOrderId (fields so)).

(** [findOne(id, user)], a query of the committed data [d] and of the
    users collection; [None] stands for the [NotFound] "not found or not
    accessible" it throws.  [scan] is the order in which the storage goes
    through the sub-orders: a [findOne] by another key than [_id] returns
    the first match in that order. *)
Definition findOne (users : gmap ObjectId User)
    (scan : gmap ObjectId SubOrder -> list (Doc SubOrder))
    (id : ObjectId) (user : Doc User) (d : Database) : option Found :=
  match role (fields user) with
  | CUSTOMER =>
      match orders d !! id with
      | Some o =>
          if decide (customerId o = _id user) then
            Some (FoundOrder (id, o) (populate_with_vendors users d (subOrders o)) None)
          else None
      | None => None
      end
  | VENDOR =>
      let own :=
        match subOrderDocs d !! id with
        | Some s => if decide (so_vendorId s = _id user) then Some (id, s) else None
        | None => None
        end in
      match own with
      | Some so => Some (with_parent d so)
      | None =>
          with_parent d
            <$> head (filter (fun so : Doc SubOrder =>
                                parentOrderId (fields so) = id
                                ∧ so_vendorId (fields so) = _id user)
                             (scan (subOrderDocs d)))
      end
  | ADMIN =>
      match orders d !! id with
      | Some o =>
          Some (FoundOrder (id, o) (populate_with_vendors users d (subOrders o))
                           (Some (user_ref users (customerId o))))
      | None => with_parent d <$> (pair id <$> subOrderDocs d !! id)
      end
  end.

End OrdersService.

(** ** Vocabulary of the statements *)

Import OrdersService.

Definition stock_nonneg (m : gmap ObjectId Product) : Prop :=
  map_Forall (fun _ p => 0 <= stock p) m.

(** The sub-orders of a parent, as [subOrderModel.find({ parentOrderId })]
    selects them. *)
Definition siblings (parent : ObjectId) (m : gmap ObjectId SubOrder)
    : list (Doc SubOrder) :=
  filter (fun d : Doc SubOrder => parentOrderId (fields d) = parent) (map_to_list m).

(** The principal passes the ownership check of the sub-order branch:
    an admin, or the vendor the sub-order belongs to. *)
Definition may_update (user : Doc User) (so : SubOrder) : Prop :=
  role (fields user) = ADMIN
  \/ (role (fields user) = VENDOR /\ so_vendorId so = _id user).

(** All sub-orders of [parent] in the collection [m] have status [st]. *)
Definition all_have_status (parent : ObjectId) (st : OrderStatus)
    (m : gmap ObjectId SubOrder) : Prop :=
  forall k s, m !! k = Some s -> parentOrderId s = parent -> so_status s = st.

(** The sub-order [id] is the only sub-order of [parent] in [m]. *)
Definition only_child (parent id : ObjectId) (m : gmap ObjectId SubOrder) : Prop :=
  forall k s, m !! k = Some s -> parentOrderId s = parent -> k = id.

(** A computation that runs inside the open transaction: it leaves the
    committed data alone and the transaction open. *)
Definition in_txn {A} (c : M A) : Prop :=
  forall w r w', is_Some (txn w) -> c w = (r, w') ->
    committed w' = committed w /\ is_Some (txn w').

(** A computation that, started inside the open transaction, leaves the
    committed data alone whenever it throws. *)
Definition throw_safe {A} (c : M A) : Prop :=
  forall w e w', is_Some (txn w) -> c w = (Throw e, w') ->
    committed w' = committed w.

(** The string is an id as [toString()] prints it. *)
Definition printed (s : string) : Prop := toString (cast s) = s.

(** The product of id [id] is in the snapshot [getProductsInStock]
    takes: it exists and its stock is positive. *)
Definition in_stock (m : gmap ObjectId Product) (id : ObjectId) : Prop :=
  match m !! id with
  | Some p => 0 < stock p
  | None => False
  end.

#[global] Instance in_stock_dec m id : Decision (in_stock m id).
Proof. unfold in_stock. destruct (m !! id); apply _. Defined.

(** The string of a cart line is a key of the map [create] builds from
    the snapshot: it is the printed id of a product in stock. *)
Definition available (m : gmap ObjectId Product) (s : string) : Prop :=
  printed s /\ in_stock m (cast s).

#[global] Instance available_dec m s : Decision (available m s).
Proof. unfold available, printed. apply _. Defined.

Definition Zsum (l : list Z) : Z := foldr Z.add 0 l.

(** The sum of a list of JavaScript numbers, added one after the other
    to 0. *)
Definition float_sum (l : list float) : float := foldl PrimFloat.add 0%float l.

(** price × quantity of one line item *)
Definition line_total (it : OrderItem) : float :=
  (item_price it * number (quantity it))%float.

(** The distinct elements of a list, each at the place of its first
    occurrence. *)
Definition first_occurrences (l : list ObjectId) : list ObjectId :=
  foldl (fun acc v => if decide (v ∈ acc) then acc else acc ++ [v]) [] l.

(** The items of one vendor, in the order of the list. *)
Definition items_of_vendor (v : ObjectId) (l : list OrderItem) : list OrderItem :=
  filter (fun it => vendorId it = v) l.

(** The partition of a list of items by vendor: one group per vendor, the
    vendors in order of first occurrence. *)
Definition group_by_vendor (l : list OrderItem) : list (ObjectId * list OrderItem) :=
  map (fun v => (v, items_of_vendor v l)) (first_occurrences (map vendorId l)).

(** Appending an item to the group of its vendor, a new last group when
    the vendor has none. *)
Fixpoint push_item (v : ObjectId) (x : OrderItem)
    (m : list (ObjectId * list OrderItem)) : list (ObjectId * list OrderItem) :=
  match m with
  | [] => [(v, [x])]
  | (v', its) :: m' =>
      if decide (v = v') then (v', its ++ [x]) :: m'
      else (v', its) :: push_item v x m'
  end.

(** The line item a cart line becomes, from the product of the snapshot. *)
Definition order_item_of (productMap : gmap string Product) (line : OrderItemDto)
    : option OrderItem :=
  (fun product =>
     {| productId := dto_productId line;
        name := product_name product;
        item_price := price product;
        quantity := dto_quantity line;
        vendorId := product_vendorId product |}) <$> productMap !! dto_productId line.

(** The sub-order document [create] builds for one vendor group. *)
Definition subOrder_for (parent : ObjectId) (entry : ObjectId * list OrderItem)
    : SubOrder :=
  {| parentOrderId := parent;
     so_vendorId := fst entry;
     so_items := snd entry;
     amount := subOrderAmount_of (snd entry);
     so_status := PENDING |}.

(** The write a successful [decrementStock id q] makes. *)
Definition decremented (m : gmap ObjectId Product) (u : StockUpdate)
    : gmap ObjectId Product :=
  alter (fun p => set_stock (stock p - su_quantity u) p) (cast (su_productId u)) m.

Definition stock_update_of (line : OrderItemDto) : StockUpdate :=
  {| su_productId := dto_productId line; su_quantity := dto_quantity line |}.

(** The map [create] builds from the answer of [getProductsInStock]. *)
Definition snapshot_of (m : gmap ObjectId Product) (ids : list string)
    : gmap string Product :=
  productMap_of
    (filter (fun d : Doc Product => _id d ∈ map cast ids ∧ 0 < stock (fields d))
            (map_to_list m)).

(** Every run of the computation relates the world before to the world
    after by [R]. *)
Definition respects (R : relation World) {A} (c : M A) : Prop :=
  forall w r w', c w = (r, w') -> R w w'.

(** The committed products are the same. *)
Definition same_products : relation World :=
  fun w w' => products (committed w') = products (committed w).

(** The log of accesses has only grown. *)
Definition log_extends : relation World :=
  fun w w' => exists rest, accesses w' = accesses w ++ rest.

(** The stock of every product in the committed data is the same after
    any run of the computation. *)
Definition preserves_stock {A} (c : M A) : Prop :=
  forall w id,
    stock <$> products (committed (c w).2) !! id
    = stock <$> products (committed w) !! id.

(** A cart the specification calls malformed: empty, or with two lines
    for one product. *)
Definition malformed_cart (dto : CreateOrderDto) : Prop :=
  dto_items dto = [] \/ ~ NoDup (map dto_productId (dto_items dto)).

(** The call throws and no statement was sent to any collection. *)
Definition rejected_before_storage {A} (c : M A) (w : World) : Prop :=
  exists e w', c w = (Throw e, w') /\ accesses w' = accesses w.

(** ** A small shop, for the concrete runs *)

Definition mk_user (n : string) (r : UserRole) : User :=
  {| user_name := n; email := n; password := ""; role := r |}.

Definition customer : Doc User := (50%N, mk_user "customer" CUSTOMER).
Definition vendor1 : Doc User := (1%N, mk_user "v1" VENDOR).
Definition vendor2 : Doc User := (2%N, mk_user "v2" VENDOR).
Definition admin : Doc User := (99%N, mk_user "admin" ADMIN).

(** product A of vendor 1 (stock 5, price 10), product B of vendor 2
    (stock 1, price 20), product C of vendor 1 (stock 4, price 7) *)
Definition productA : Product :=
  {| product_name := "A"; price := 10%float; stock := 5; category := "tools";
     product_vendorId := 1%N |}.
Definition productB : Product :=
  {| product_name := "B"; price := 20%float; stock := 1; category := "tools";
     product_vendorId := 2%N |}.
Definition productC : Product :=
  {| product_name := "C"; price := 7%float; stock := 4; category := "tools";
     product_vendorId := 1%N |}.

Definition shop : Database :=
  {| products := <[12%N := productC]> (<[11%N := productB]> (<[10%N := productA]> ∅));
     orders := ∅;
     subOrderDocs := ∅ |}.

Definition world_of (d : Database) : World :=
  {| committed := d; txn := None; accesses := [];
     oid_source := fun k => (100 + N.of_nat k)%N; oid_issued := 0 |}.

(** A cart line whose [productId] is the id as [toString()] prints it. *)
Definition line (id : ObjectId) (q : Z) : OrderItemDto :=
  {| dto_productId := toString id; dto_quantity := q |}.
Arguments line id%_N q%_Z.

(** A, B, C: the two vendors interleaved. *)
Definition cart_abc : CreateOrderDto :=
  {| dto_items := [line 10 2; line 11 1; line 12 3] |}.

(** Two lines for product A: 2 + 3 units, the stock being 5. *)
Definition cart_twice_a : CreateOrderDto :=
  {| dto_items := [line 10 2; line 10 3] |}.

(** Two lines for product A that pass validation one by one and exceed
    the stock together. *)
Definition cart_too_much_a : CreateOrderDto :=
  {| dto_items := [line 11 1; line 10 3; line 10 3] |}.

(** Product 13 does not exist. *)
Definition cart_unknown : CreateOrderDto :=
  {| dto_items := [line 10 2; line 13 1] |}.

Definition item (id : ObjectId) (n : string) (p : float) (q : Z) (v : ObjectId)
    : OrderItem :=
  {| productId := toString id; name := n; item_price := p; quantity := q;
     vendorId := v |}.
Arguments item id%_N n%_string p%_float q%_Z v%_N.

(** What [create cart_abc] returns in the shop. *)
Definition order_abc : Doc Order :=
  (100%N,
   {| customerId := 50%N;
      items := [item 10 "A" 10 2 1; item 11 "B" 20 1 2; item 12 "C" 7 3 1];
      totalAmount := 61%float;
      status := PENDING;
      subOrders := [101%N; 102%N] |}).

(** A parent with three sub-orders, two shipped and one pending, and a
    sub-order whose parent does not exist. *)
Definition sub (parent vendor : ObjectId) (st : OrderStatus) : SubOrder :=
  {| parentOrderId := parent; so_vendorId := vendor; so_items := [];
     amount := 0%float; so_status := st |}.
Arguments sub parent%_N vendor%_N st.

Definition parent200 : Order :=
  {| customerId := 50%N; items := []; totalAmount := 0%float; status := PROCESSING;
     subOrders := [201%N; 202%N; 203%N] |}.

Definition warehouse : Database :=
  {| products := ∅;
     orders := <[200%N := parent200]> ∅;
     subOrderDocs :=
       <[301%N := sub 300 1 PENDING]>
         (<[203%N := sub 200 2 PENDING]>
            (<[202%N := sub 200 1 SHIPPED]>
               (<[201%N := sub 200 1 SHIPPED]> ∅))) |}.

Definition restock : UpdateProductDto :=
  {| upd_name := None; upd_price := None; upd_stock := Some 7; upd_category := None |}.

(** The world after [create cart_abc] in the shop. *)
Definition placed_abc : World := (create cart_abc customer (world_of shop)).2.

(** Every sub-order has its parent, and the parent refers to it: the
    relation [create] sets up between the two collections. *)
Definition linked (d : Database) : Prop :=
  forall sid s, subOrderDocs d !! sid = Some s ->
    exists o, orders d !! parentOrderId s = Some o /\ sid ∈ subOrders o.

(** The references between orders and sub-orders are the same. *)
Definition same_links : relation World :=
  fun w w' =>
    (forall k, subOrders <$> orders (committed w') !! k
               = subOrders <$> orders (committed w) !! k)
    /\ (forall k, parentOrderId <$> subOrderDocs (committed w') !! k
                  = parentOrderId <$> subOrderDocs (committed w) !! k).

(** ** Vocabulary of the further properties *)

(** A scan goes through the documents of the collection, each of them
    and nothing else. *)
Definition scans (scan : gmap ObjectId SubOrder -> list (Doc SubOrder)) : Prop :=
  forall m so, so ∈ scan m <-> m !! _id so = Some (fields so).

(** The quantity a cart asks of one product, over all its lines. *)
Definition requested (id : ObjectId) (lines : list OrderItemDto) : Z :=
  Zsum (map dto_quantity (filter (fun l => cast (dto_productId l) = id) lines)).

(** The price a stored product has, 0 for a product that is not stored. *)
Definition price_in (m : gmap ObjectId Product) (id : ObjectId) : float :=
  default 0%float (price <$> m !! id).

(** A line names, by its printed id, a stored product with positive
    stock, and asks for no more than that stock. *)
Definition line_fits (m : gmap ObjectId Product) (l : OrderItemDto) : Prop :=
  printed (dto_productId l)
  /\ exists p, m !! cast (dto_productId l) = Some p
              /\ 0 < stock p /\ dto_quantity l <= stock p.

(** Two stored orders (sub-orders) that differ in their status at most. *)
Definition order_but_status (o o' : Order) : Prop := o' = set_status (status o') o.
Definition subOrder_but_status (s s' : SubOrder) : Prop :=
  s' = set_so_status (so_status s') s.

(** The committed data is the same except for the status of orders and
    sub-orders: the same products, the same ids in both order
    collections, every other field as it was. *)
Definition same_but_status : relation World :=
  fun w w' =>
    products (committed w') = products (committed w)
    /\ (forall k, option_Forall2 order_but_status
                    (orders (committed w) !! k) (orders (committed w') !! k))
    /\ (forall k, option_Forall2 subOrder_but_status
                    (subOrderDocs (committed w) !! k) (subOrderDocs (committed w') !! k)).

(** The sub-orders with the status [st] written to those whose id is in
    [ids]. *)
Definition marked (ids : list ObjectId) (st : OrderStatus)
    (m : gmap ObjectId SubOrder) : gmap ObjectId SubOrder :=
  map_imap (fun id s => Some (if decide (id ∈ ids) then set_so_status st s else s)) m.

(** Whether the parent takes the status [st], as the sub-order branch
    decides it from the sub-orders of the parent. *)
Definition adopts (parent : ObjectId) (st : OrderStatus)
    (m : gmap ObjectId SubOrder) : bool :=
  let allSubOrders := siblings parent m in
  if decide (length allSubOrders = 1%nat) then true
  else if decide (1 < length allSubOrders)%nat then
    forallb (fun so : Doc SubOrder => bool_decide (so_status (fields so) = st))
            allSubOrders
  else false.

(** The committed data after [updateOrderStatus], case by case. *)
Definition reconciled (id : ObjectId) (st : OrderStatus) (user : Doc User)
    (d : Database) : Database :=
  match orders d !! id with
  | Some o =>
      if decide (role (fields user) = VENDOR) then d
      else {| products := products d;
              orders := <[id := set_status st o]> (orders d);
              subOrderDocs := marked (subOrders o) st (subOrderDocs d) |}
  | None =>
      match subOrderDocs d !! id with
      | None => d
      | Some s =>
          if decide (role (fields user) = VENDOR ∧ so_vendorId s ≠ _id user) then d
          else
            let subs := <[id := set_so_status st s]> (subOrderDocs d) in
            {| products := products d;
               orders :=
                 match orders d !! parentOrderId s with
                 | Some p =>
                     if adopts (parentOrderId s) st subs
                     then <[parentOrderId s := set_status st p]> (orders d)
                     else orders d
                 | None => orders d
                 end;
               subOrderDocs := subs |}
      end
  end.


(** ** UsersService (users.service.ts) and AuthService (auth.service.ts)

    The users collection is a finite map of its own.  Of [bcryptjs] the
    two functions used are taken as they come: [hash] is
    [bcrypt.hash(·, 10)] with the salt of the call, [compare] is
    [bcrypt.compare].  Of the JWT service, [sign] turns a payload into a
    token that also carries the time it was issued at ([iat]): it takes
    the reading of the clock, in seconds, as its first argument. *)

(** signup.dto.ts, which [AuthService.signup] hands to
    [UsersService.create]. *)
Record SignupDto := {
  signup_name : string;
  signup_email : string;
  signup_password : string;
  signup_role : UserRole
}.

(** login.dto.ts, as [login] reads it: [{ email, password }]. *)
Record LoginDto := {
  login_email : string;
  login_password : string
}.

Record JwtPayload := {
  jwt_id : ObjectId;
  jwt_email : string;
  jwt_role : UserRole
}.

Record UserResponse := {
  resp_id : ObjectId;
  resp_name : string;
  resp_email : string;
  resp_role : UserRole
}.

Module UsersService.

Inductive users_exception :=
  | EmailAlreadyInUse
  | UserValidationFailed (paths : list string)
  | DuplicateUserKey (id : ObjectId).

(** The paths of a user whose [required] validator fails: a string path
    that holds the empty string. *)
Definition missing_paths (u : User) : list string :=
  (if decide (user_name u = EmptyString) then ["name"%string] else [])
  ++ (if decide (email u = EmptyString) then ["email"%string] else [])
  ++ (if decide (password u = EmptyString) then ["password"%string] else []).

(** [userModel.findOne({ email })] *)
Definition findByEmail (users : gmap ObjectId User) (e : string) : option (Doc User) :=
  head (filter (fun d : Doc User => email (fields d) = e) (map_to_list users)).

(** [create(createUserDto)]; [id] is the id the driver draws for the new
    document. *)
Definition create (hash : string -> string) (id : ObjectId) (createUserDto : SignupDto)
    (users : gmap ObjectId User)
    : (users_exception + Doc User) * gmap ObjectId User :=
  match findByEmail users (signup_email createUserDto) with
  | Some existingUser => (inl EmailAlreadyInUse, users)
  | None =>
      let hashedPassword := hash (signup_password createUserDto) in
      let newUser :=
        {| user_name := signup_name createUserDto;
           email := signup_email createUserDto;
           password := hashedPassword;
           role := signup_role createUserDto |} in
      match missing_paths newUser with
      | (_ :: _) as paths => (inl (UserValidationFailed paths), users)
      | [] =>
          match users !! id with
          | Some _ => (inl (DuplicateUserKey id), users)
          | None => (inr (id, newUser), <[id := newUser]> users)
          end
      end
  end.

End UsersService.

Module AuthService.

Inductive auth_exception :=
  | BadRequest_EmailAlreadyInUse
  | BadRequest_FailedToCreateUser
  | Unauthorized_InvalidEmailOrPassword.

(** The payload [{ id, email, role }] that both [signup] and [login]
    sign. *)
Definition payload_of (user : Doc User) : JwtPayload :=
  {| jwt_id := _id user; jwt_email := email (fields user);
     jwt_role := role (fields user) |}.

Definition response_of (user : Doc User) : UserResponse :=
  {| resp_id := _id user; resp_name := user_name (fields user);
     resp_email := email (fields user); resp_role := role (fields user) |}.

Definition respond (sign : nat -> JwtPayload -> string) (now : nat)
    (user : Doc User) : string * UserResponse :=
  (sign now (payload_of user), response_of user).

Definition signup (hash : string -> string) (sign : nat -> JwtPayload -> string)
    (now : nat) (id : ObjectId) (signupDto : SignupDto)
    (users : gmap ObjectId User)
    : (auth_exception + string * UserResponse) * gmap ObjectId User :=
  match UsersService.create hash id signupDto users with
  | (inr user, users') => (inr (respond sign now user), users')
  | (inl UsersService.EmailAlreadyInUse, users') =>
      (inl BadRequest_EmailAlreadyInUse, users')
  | (inl _, users') => (inl BadRequest_FailedToCreateUser, users')
  end.

Definition login (compare : string -> string -> bool)
    (sign : nat -> JwtPayload -> string) (now : nat)
    (loginDto : LoginDto) (users : gmap ObjectId User)
    : auth_exception + string * UserResponse :=
  match UsersService.findByEmail users (login_email loginDto) with
  | None => inl Unauthorized_InvalidEmailOrPassword
  | Some user =>
      if compare (login_password loginDto) (password (fields user)) then
        inr (respond sign now user)
      else inl Unauthorized_InvalidEmailOrPassword
  end.

End AuthService.

(** No two stored users have the same email. *)
Definition emails_unique (users : gmap ObjectId User) : Prop :=
  forall i j u v, users !! i = Some u -> users !! j = Some v ->
    email u = email v -> i = j.

(** ** Further data for the concrete runs *)

(** Products with decimal prices: 0.1 and 9.99 of vendor 1, 0.2 of
    vendor 2. *)
Definition pantry : Database :=
  {| products :=
       <[22%N := {| product_name := "salt"; price := 9.99%float; stock := 5;
                    category := "food"; product_vendorId := 1%N |}]>
         (<[21%N := {| product_name := "rice"; price := 0.2%float; stock := 5;
                       category := "food"; product_vendorId := 2%N |}]>
            (<[20%N := {| product_name := "flour"; price := 0.1%float; stock := 5;
                          category := "food"; product_vendorId := 1%N |}]> ∅));
     orders := ∅;
     subOrderDocs := ∅ |}.

Definition cart_decimal : CreateOrderDto :=
  {| dto_items := [line 20 1; line 21 1; line 22 1] |}.

(** Product 13 does not exist; product A is asked for with its id in
    upper case. *)
Definition cart_upper_a : CreateOrderDto :=
  {| dto_items :=
       [line 13 1;
        {| dto_productId := "00000000000000000000000A"; dto_quantity := 2 |}] |}.

(** Product B has one unit in stock; the second line asks for three. *)
Definition cart_short_b : CreateOrderDto :=
  {| dto_items := [line 10 2; line 11 3; line 12 1] |}.

(** The users of the shop, by id. *)
Definition directory : gmap ObjectId User :=
  <[50%N := fields customer]>
    (<[2%N := fields vendor2]> (<[1%N := fields vendor1]> ∅)).

Definition hammer : ProductsService.CreateProductDto :=
  {| ProductsService.new_name := "hammer"; ProductsService.new_price := 15%float;
     ProductsService.new_stock := 3; ProductsService.new_category := "tools" |}.

Definition nameless : ProductsService.CreateProductDto :=
  {| ProductsService.new_name := EmptyString; ProductsService.new_price := 15%float;
     ProductsService.new_stock := 3; ProductsService.new_category := "tools" |}.

(** Stand-ins for bcrypt and for the JWT service in the concrete runs:
    the hash of a password is the password behind a mark. *)
Definition marked_hash (pw : string) : string := String.append "$" pw.
Definition marked_compare (pw h : string) : bool := bool_decide (h = marked_hash pw).
Definition token_of (now : nat) (p : JwtPayload) : string :=
  String.append (jwt_email p) (String.append "@" (pretty now)).

Definition accounts : gmap ObjectId User := <[50%N := fields customer]> ∅.

Definition signup_alice : SignupDto :=
  {| signup_name := "alice"; signup_email := "alice@shop";
     signup_password := "secret1"; signup_role := VENDOR |}.

Definition alice : User :=
  {| user_name := "alice"; email := "alice@shop";
     password := marked_hash "secret1"; role := VENDOR |}.

(** * Properties *)

(** ** The world under the primitive statements *)

Lemma view_set_view s d w : view s (set_view s d w) = d.
Proof.
  unfold view, set_view.
  destruct s as [[]|]; destruct (txn w) eqn:E; simpl; rewrite ?E; reflexivity.
Qed.

Lemma view_record_access s a w : view s (record_access a w) = view s w.
Proof. reflexivity. Qed.

Lemma committed_set_view_open s d d0 w :
  txn w = Some d0 -> committed (set_view (Some s) d w) = committed w.
Proof. unfold set_view. intros ->. destruct s. reflexivity. Qed.

Lemma txn_set_view_open s d d0 w :
  txn w = Some d0 -> txn (set_view (Some s) d w) = Some d.
Proof. unfold set_view. intros ->. destruct s. reflexivity. Qed.

Lemma view_open s d w : txn w = Some d -> view (Some s) w = d.
Proof. unfold view. intros ->. destruct s. reflexivity. Qed.

(** ** Ids as strings *)

Lemma cast_zeros (n : nat) (s : string) : cast (zeros n s) = cast s.
Proof. unfold cast. induction n as [|n IH]; [reflexivity | exact IH]. Qed.

(** Mongo reads back the id it printed. *)
Lemma cast_toString (id : ObjectId) : cast (toString id) = id.
Proof.
  unfold toString. rewrite cast_zeros. unfold cast, hex_digits.
  destruct id as [|p]; [reflexivity|].
  rewrite HexString.Raw.to_N_of_pos. reflexivity.
Qed.

Lemma toString_inj (a b : ObjectId) : toString a = toString b -> a = b.
Proof. intros H. rewrite <- (cast_toString a), <- (cast_toString b), H. reflexivity. Qed.

Lemma printed_toString (id : ObjectId) : printed (toString id).
Proof. unfold printed. rewrite cast_toString. reflexivity. Qed.

Lemma printed_inv (s : string) (id : ObjectId) : s = toString id -> cast s = id.
Proof. intros ->. apply cast_toString. Qed.

(** ** Saving a loaded document *)

Lemma set_status_same (st : OrderStatus) (o : Order) :
  status o = st -> set_status st o = o.
Proof. intros <-. destruct o. reflexivity. Qed.

Lemma set_so_status_same (st : OrderStatus) (s : SubOrder) :
  so_status s = st -> set_so_status st s = s.
Proof. intros <-. destruct s. reflexivity. Qed.

Lemma logged_nil (w : World) : logged [] w = w.
Proof. destruct w. unfold logged. simpl. rewrite app_nil_r. reflexivity. Qed.

Lemma set_committed_same (w : World) : set_committed (committed w) w = w.
Proof. destruct w. reflexivity. Qed.

Lemma with_orders_id (id : ObjectId) (o : Order) (d : Database) :
  orders d !! id = Some o -> with_orders <[id := o]> d = d.
Proof. intros H. destruct d. unfold with_orders. simpl in *. rewrite insert_id; done. Qed.

Lemma with_products_id (id : ObjectId) (p : Product) (d : Database) :
  products d !! id = Some p -> with_products <[id := p]> d = d.
Proof.
  intros H. destruct d. unfold with_products. simpl in *. rewrite insert_id; done.
Qed.

Lemma set_stock_same (n : Z) (p : Product) : n = stock p -> set_stock n p = p.
Proof. intros ->. destruct p. reflexivity. Qed.

Lemma with_subOrders_id (id : ObjectId) (s : SubOrder) (d : Database) :
  subOrderDocs d !! id = Some s -> with_subOrders <[id := s]> d = d.
Proof.
  intros H. destruct d. unfold with_subOrders. simpl in *. rewrite insert_id; done.
Qed.

(** [subOrder.status = st] and [subOrder.save()]: the sub-order is stored
    with the status [st], by one update when that is another status and
    without any statement when it is not. *)
Lemma subOrder_save_status (id : ObjectId) (st : OrderStatus) (so : SubOrder)
    (w : World) :
  subOrderDocs (committed w) !! id = Some so ->
  exists log,
    subOrder_save id (set_so_status st) (so_status_modified st so) w
    = (Return tt,
       logged log
         (set_committed
            (with_subOrders <[id := set_so_status st so]> (committed w)) w)).
Proof.
  intros Hso. unfold subOrder_save, so_status_modified.
  destruct (decide (so_status so = st)) as [Heq | Hne].
  - rewrite bool_decide_eq_false_2 by (intros H; apply H; exact Heq).
    exists []. unfold ret.
    rewrite (set_so_status_same st so Heq), (with_subOrders_id id so _ Hso),
      set_committed_same, logged_nil. reflexivity.
  - rewrite bool_decide_eq_true_2 by exact Hne.
    exists [Write SubOrders]. unfold subOrder_update. rewrite Hso. reflexivity.
Qed.

(** [order.status = st] and [order.save()], likewise. *)
Lemma order_save_status (id : ObjectId) (st : OrderStatus) (o : Order) (w : World) :
  orders (committed w) !! id = Some o ->
  exists log,
    order_save None id (set_status st) (status_modified st o) w
    = (Return tt,
       logged log
         (set_committed (with_orders <[id := set_status st o]> (committed w)) w)).
Proof.
  intros Ho. unfold order_save, status_modified.
  destruct (decide (status o = st)) as [Heq | Hne].
  - rewrite bool_decide_eq_false_2 by (intros H; apply H; exact Heq).
    exists []. unfold ret.
    rewrite (set_status_same st o Heq), (with_orders_id id o _ Ho),
      set_committed_same, logged_nil. reflexivity.
  - rewrite bool_decide_eq_true_2 by exact Hne.
    exists [Write Orders]. unfold order_update. simpl. rewrite Ho. reflexivity.
Qed.

(** The save lemma at the place of the goal where the save runs. *)
Ltac save_subOrder id st so H :=
  match goal with
  | |- context [subOrder_save ?i ?f ?b ?w0] =>
      let log := fresh "log" in
      let Hsave := fresh "Hsave" in
      change (subOrder_save i f b w0)
        with (subOrder_save id (set_so_status st) (so_status_modified st so) w0);
      destruct (subOrder_save_status id st so w0 H) as [log Hsave];
      rewrite Hsave; clear Hsave
  end.

Ltac save_order id st o H :=
  match goal with
  | |- context [order_save None ?i ?f ?b ?w0] =>
      let log := fresh "log" in
      let Hsave := fresh "Hsave" in
      change (order_save None i f b w0)
        with (order_save None id (set_status st) (status_modified st o) w0);
      destruct (order_save_status id st o w0 H) as [log Hsave];
      rewrite Hsave; clear Hsave
  end.

(** ** The Ledger: [decrementStock] *)

(** C9. [decrementStock productId q session] on a product with stock [s]:
    when [q <= s] it returns the product with stock [s - q] and its other
    fields as they were, which is what the collection then holds under
    that id, every other product being as before, and [s - q] is not
    negative; when the product is absent or [s < q] it throws and the
    data is unchanged; in both cases a collection whose stocks are all
    non-negative stays so. *)
Theorem decrementStock_conditional (productId : ObjectId) (q : Z)
    (session : option ClientSession) (w : World) :
  (forall p, products (view session w) !! productId = Some p -> q <= stock p ->
     exists w',
       ProductsService.decrementStock productId q session w
         = (Return (productId, set_stock (stock p - q) p), w')
       /\ products (view session w')
          = <[productId := set_stock (stock p - q) p]> (products (view session w))
       /\ 0 <= stock p - q
       /\ (exists p',
             products (view session w') !! productId = Some p'
             /\ (ProductsService.decrementStock productId q session w).1
                = Return (productId, p')
             /\ stock p' = stock p - q
             /\ product_name p' = product_name p
             /\ price p' = price p
             /\ category p' = category p
             /\ product_vendorId p' = product_vendorId p)
       /\ (forall k, k <> productId ->
             products (view session w') !! k = products (view session w) !! k))
  /\ ((products (view session w) !! productId = None
       \/ exists p, products (view session w) !! productId = Some p /\ stock p < q) ->
      exists w',
        ProductsService.decrementStock productId q session w
          = (Throw (BadRequestException (ProductNotFoundOrInsufficientStock productId)), w')
        /\ view session w' = view session w
        /\ committed w' = committed w /\ txn w' = txn w)
  /\ (stock_nonneg (products (view session w)) ->
      stock_nonneg
        (products (view session (ProductsService.decrementStock productId q session w).2))).
Proof.
  unfold ProductsService.decrementStock, bind, product_findOneAndUpdate_dec.
  split; [|split].
  - intros p Hp Hq. rewrite Hp. rewrite decide_True by done. simpl.
    eexists. split; [reflexivity|].
    rewrite view_record_access, view_set_view. simpl.
    split; [reflexivity|]. split; [lia|]. split.
    + exists (set_stock (stock p + - q) p). rewrite lookup_insert_eq. simpl.
      repeat split; lia.
    + intros k Hk. rewrite lookup_insert_ne by congruence. reflexivity.
  - intros [Hn | (p & Hp & Hlt)].
    + rewrite Hn. simpl. eexists. split; [reflexivity|]. done.
    + rewrite Hp. rewrite decide_False by lia. simpl.
      eexists. split; [reflexivity|]. done.
  - intros Hnn. destruct (products (view session w) !! productId) as [p|] eqn:Hp.
    + destruct (decide (q <= stock p)); simpl.
      * rewrite view_record_access, view_set_view. simpl.
        apply map_Forall_insert_2; [simpl; lia | exact Hnn].
      * exact Hnn.
    + simpl. exact Hnn.
Qed.

(** ** Status reconciliation: [updateOrderStatus] *)

Lemma elem_of_siblings parent (m : gmap ObjectId SubOrder) k s :
  (k, s) ∈ siblings parent m <-> m !! k = Some s /\ parentOrderId s = parent.
Proof.
  unfold siblings. rewrite list_elem_of_filter, elem_of_map_to_list. simpl. tauto.
Qed.

Lemma NoDup_siblings parent (m : gmap ObjectId SubOrder) : NoDup (siblings parent m).
Proof. apply NoDup_filter, NoDup_map_to_list. Qed.

(** The selection has one element exactly when the target is the only
    sub-order of its parent. *)
Lemma siblings_single parent (m : gmap ObjectId SubOrder) id so :
  m !! id = Some so -> parentOrderId so = parent ->
  length (siblings parent m) = 1%nat
  <-> (forall k s, m !! k = Some s -> parentOrderId s = parent -> k = id).
Proof.
  intros Hid Hpar.
  assert (Hin : (id, so) ∈ siblings parent m) by (apply elem_of_siblings; done).
  split.
  - intros Hlen k s Hk Hp.
    assert (Hin' : (k, s) ∈ siblings parent m) by (apply elem_of_siblings; done).
    destruct (siblings parent m) as [|x [|y l]]; simpl in Hlen; try discriminate.
    apply list_elem_of_singleton in Hin, Hin'. congruence.
  - intros Honly.
    pose proof (NoDup_siblings parent m) as Hnd.
    destruct (siblings parent m) as [|x [|y l]] eqn:E; [inversion Hin|reflexivity|].
    exfalso.
    assert (Hx : x = (id, so)).
    { destruct x as [k s].
      assert (Hxin : (k, s) ∈ siblings parent m) by (rewrite E; left).
      apply elem_of_siblings in Hxin as [Hk Hp].
      pose proof (Honly k s Hk Hp) as ->. congruence. }
    assert (Hy : y = (id, so)).
    { destruct y as [k s].
      assert (Hyin : (k, s) ∈ siblings parent m) by (rewrite E; right; left).
      apply elem_of_siblings in Hyin as [Hk Hp].
      pose proof (Honly k s Hk Hp) as ->. congruence. }
    subst x y. apply NoDup_cons in Hnd as [Hnotin _]. apply Hnotin. left.
Qed.

Lemma siblings_unanimous parent (m : gmap ObjectId SubOrder) st :
  forallb (fun so : Doc SubOrder => bool_decide (so_status (fields so) = st))
          (siblings parent m) = true
  <-> (forall k s, m !! k = Some s -> parentOrderId s = parent -> so_status s = st).
Proof.
  rewrite forallb_forall. split.
  - intros H k s Hk Hp.
    assert (Hin : (k, s) ∈ siblings parent m) by (apply elem_of_siblings; done).
    apply list_elem_of_In in Hin. apply H in Hin.
    apply bool_decide_eq_true in Hin. exact Hin.
  - intros H [k s] Hin. apply list_elem_of_In, elem_of_siblings in Hin as [Hk Hp].
    apply bool_decide_eq_true. simpl. eauto.
Qed.

(** C3. [updateOrderStatus] on a sub-order (the id names no parent order)
    by an admin or by the vendor owning it, the parent record being
    present: the call returns the sub-order with the new status, the
    stored sub-order has the new status, and the parent's status is set to
    the new value when the target is the parent's only sub-order; with
    more sub-orders it is set exactly when all of them now have the new
    value, and the orders collection is unchanged otherwise. *)
Theorem updateOrderStatus_subOrder (id : ObjectId) (st : OrderStatus)
    (user : Doc User) (w : World) (so : SubOrder) (parent : Order) :
  orders (committed w) !! id = None ->
  subOrderDocs (committed w) !! id = Some so ->
  may_update user so ->
  orders (committed w) !! parentOrderId so = Some parent ->
  exists w',
    updateOrderStatus id st user w
      = (Return (UpdatedSubOrder (id, set_so_status st so)), w')
    /\ subOrderDocs (committed w')
       = <[id := set_so_status st so]> (subOrderDocs (committed w))
    /\ products (committed w') = products (committed w)
    /\ (only_child (parentOrderId so) id (subOrderDocs (committed w')) ->
        orders (committed w')
        = <[parentOrderId so := set_status st parent]> (orders (committed w)))
    /\ (~ only_child (parentOrderId so) id (subOrderDocs (committed w')) ->
        (all_have_status (parentOrderId so) st (subOrderDocs (committed w')) ->
         orders (committed w')
         = <[parentOrderId so := set_status st parent]> (orders (committed w)))
        /\ (~ all_have_status (parentOrderId so) st (subOrderDocs (committed w')) ->
            orders (committed w') = orders (committed w))).
Proof.
  intros Hno Hso Hmay Hpar.
  set (m' := <[id := set_so_status st so]> (subOrderDocs (committed w))).
  assert (Hid' : m' !! id = Some (set_so_status st so)) by apply lookup_insert_eq.
  pose proof (siblings_single (parentOrderId so) m' id _ Hid' eq_refl) as Hsingle.
  pose proof (siblings_unanimous (parentOrderId so) m' st) as Hunan.
  unfold updateOrderStatus, try_catch, bind, order_exists.
  rewrite Hno. rewrite bool_decide_eq_false_2 by (intros [? ?]; done).
  unfold update_child, bind, subOrder_findById. simpl. rewrite Hso. simpl.
  rewrite decide_False; cycle 1.
  { intros [Hv Hne]. destruct Hmay as [Ha | [_ Heq]]; congruence. }
  save_subOrder id st so Hso. simpl.
  unfold order_findById. simpl. rewrite Hpar. simpl.
  unfold subOrder_find_by_parent. simpl.
  fold m'. fold (siblings (parentOrderId so) m').
  unfold _id, fields. simpl.
  destruct (decide (length (siblings (parentOrderId so) m') = 1%nat)) as [Hone | Hone].
  - save_order (parentOrderId so) st parent Hpar. simpl.
    eexists. split; [reflexivity|]. simpl.
    split; [reflexivity|]. split; [reflexivity|].
    split; [reflexivity|].
    intros Hnot. exfalso. apply Hnot. exact (proj1 Hsingle Hone).
  - assert (Hnotonly : ~ only_child (parentOrderId so) id m').
    { intros Ho. apply Hone. exact (proj2 Hsingle Ho). }
    destruct (decide (1 < length (siblings (parentOrderId so) m'))%nat) as [Hmany | Hfew].
    + destruct (forallb _ (siblings (parentOrderId so) m')) eqn:Hall.
      * save_order (parentOrderId so) st parent Hpar. simpl.
        eexists. split; [reflexivity|]. simpl.
        split; [reflexivity|]. split; [reflexivity|].
        split; [reflexivity|].
        intros _. split; [reflexivity|].
        intros Hnot. exfalso. apply Hnot. exact (proj1 Hunan eq_refl).
      * simpl. eexists. split; [reflexivity|]. simpl.
        split; [reflexivity|]. split; [reflexivity|].
        split; [intros Ho; contradiction|].
        intros _. split; [|reflexivity].
        intros Hyes. pose proof (proj2 Hunan Hyes). discriminate.
    + exfalso.
      assert (Hin : (id, set_so_status st so) ∈ siblings (parentOrderId so) m')
        by (apply elem_of_siblings; done).
      destruct (siblings (parentOrderId so) m') as [|x [|y l]];
        [inversion Hin | simpl in Hone; congruence | simpl in Hfew; lia].
Qed.

(** C10. A sub-order whose [parentOrderId] names no order: the call ends
    with [NotFound], and the stored sub-order carries the new status all
    the same, because it was saved before the parent was looked up and
    nothing undoes that write. *)
Theorem updateOrderStatus_missing_parent (id : ObjectId) (st : OrderStatus)
    (user : Doc User) (w : World) (so : SubOrder) :
  orders (committed w) !! id = None ->
  subOrderDocs (committed w) !! id = Some so ->
  (role (fields user) = VENDOR -> so_vendorId so = _id user) ->
  orders (committed w) !! parentOrderId so = None ->
  exists w',
    updateOrderStatus id st user w
      = (Throw (NotFoundException (ParentOrderNotFound id)), w')
    /\ subOrderDocs (committed w') !! id = Some (set_so_status st so)
    /\ subOrderDocs (committed w')
       = <[id := set_so_status st so]> (subOrderDocs (committed w))
    /\ orders (committed w') = orders (committed w).
Proof.
  intros Hno Hso Hown Hpar.
  unfold updateOrderStatus, try_catch, bind, order_exists.
  rewrite Hno. rewrite bool_decide_eq_false_2 by (intros [? ?]; done).
  unfold update_child, bind, subOrder_findById. simpl. rewrite Hso. simpl.
  rewrite decide_False by (intros [Hv Hne]; auto).
  save_subOrder id st so Hso. simpl.
  unfold order_findById. simpl. rewrite Hpar. simpl.
  eexists. split; [reflexivity|]. simpl.
  split; [apply lookup_insert_eq|]. split; reflexivity.
Qed.

Lemma elem_of_populated (m : gmap ObjectId SubOrder) (ids : list ObjectId) k :
  k ∈ map _id (omap (fun id => pair id <$> m !! id) ids)
  <-> k ∈ ids /\ is_Some (m !! k).
Proof.
  change (map _id) with (fmap (M := list) (@_id SubOrder)).
  rewrite list_elem_of_fmap. split.
  - intros ([k' s] & -> & Hin). apply list_elem_of_omap in Hin as (i & Hi & Hs).
    destruct (m !! i) as [s'|] eqn:E; simpl in Hs; [|discriminate].
    injection Hs as -> ->. simpl. split; [done|]. rewrite E. eauto.
  - intros [Hin [s Hs]]. exists (k, s). split; [done|].
    apply list_elem_of_omap. exists k. split; [done|]. rewrite Hs. done.
Qed.

(** C4. [updateOrderStatus] on the id of a parent order.  A vendor gets
    [Forbidden] and the data is unchanged.  For an admin the parent takes
    the new status and every stored sub-order the parent refers to takes
    it too, whatever its status was; no other sub-order changes.  When the
    parent's reference list holds every sub-order that names it as parent,
    all sub-orders of that parent have the new status afterwards. *)
Theorem updateOrderStatus_parent (id : ObjectId) (st : OrderStatus)
    (user : Doc User) (w : World) (order : Order) :
  orders (committed w) !! id = Some order ->
  (role (fields user) = VENDOR ->
   exists w',
     updateOrderStatus id st user w
       = (Throw (ForbiddenException VendorsOnlyOwnSubOrders), w')
     /\ committed w' = committed w)
  /\ (role (fields user) = ADMIN ->
      exists w' populated,
        updateOrderStatus id st user w
          = (Return (UpdatedOrder (id, set_status st order) populated), w')
        /\ orders (committed w') = <[id := set_status st order]> (orders (committed w))
        /\ products (committed w') = products (committed w)
        /\ (forall sid,
              subOrderDocs (committed w') !! sid
              = (fun s => if decide (sid ∈ subOrders order)
                          then set_so_status st s else s)
                  <$> subOrderDocs (committed w) !! sid)
        /\ ((forall sid s, subOrderDocs (committed w) !! sid = Some s ->
                           parentOrderId s = id -> sid ∈ subOrders order) ->
            all_have_status id st (subOrderDocs (committed w')))).
Proof.
  intros Hord.
  unfold updateOrderStatus, try_catch, bind, order_exists.
  rewrite Hord. rewrite bool_decide_eq_true_2 by eauto.
  unfold update_parent, bind, order_findById. simpl. rewrite Hord. simpl.
  unfold _id, fields. simpl.
  split.
  - intros Hv. rewrite decide_True by done. simpl.
    eexists. split; reflexivity.
  - intros Ha. rewrite decide_False by congruence.
    save_order id st order Hord. simpl.
    set (m := subOrderDocs (committed w)).
    set (populated := omap (fun id0 => pair id0 <$> m !! id0) (subOrders order)).
    assert (Hlookup : forall w0 w1 (r : outcome unit),
      committed w0 = with_orders <[id := set_status st order]> (committed w) ->
      (r, w1) =
      (if decide (0 < length populated)%nat
       then subOrder_updateMany (map fst populated) st
       else ret tt) w0 ->
      r = Return tt
      /\ orders (committed w1) = <[id := set_status st order]> (orders (committed w))
      /\ products (committed w1) = products (committed w)
      /\ forall sid,
           subOrderDocs (committed w1) !! sid
           = (fun s => if decide (sid ∈ subOrders order)
                       then set_so_status st s else s) <$> m !! sid).
    { intros w0 w1 r Hcw.
      destruct (decide (0 < length populated)%nat) as [Hpos | Hzero].
      - unfold subOrder_updateMany. simpl. intros [= -> ->]. simpl. rewrite Hcw. simpl.
        split; [done|]. split; [done|]. split; [done|].
        intros sid. rewrite map_lookup_imap. fold m.
        destruct (m !! sid) as [s|] eqn:E; simpl; [|done].
        f_equal. destruct (decide (sid ∈ subOrders order)) as [Hin | Hout].
        + rewrite decide_True; [done|].
          apply (elem_of_populated m). split; [done|]. rewrite E; eauto.
        + rewrite decide_False; [done|].
          intros Hc. apply (elem_of_populated m) in Hc as [Hc _]. done.
      - unfold ret. intros [= -> ->]. rewrite Hcw. simpl.
        split; [done|]. split; [done|]. split; [done|].
        intros sid. fold m.
        destruct (m !! sid) as [s|] eqn:E; simpl; [|done].
        f_equal. rewrite decide_False; [done|].
        intros Hin. assert (Hp : sid ∈ map _id populated).
        { apply (elem_of_populated m). split; [done|]. rewrite E; eauto. }
        destruct populated; [inversion Hp | simpl in Hzero; lia]. }
    match goal with
    | |- context [match ?c ?w0 with (_, _) => _ end] =>
        destruct (c w0) as [r w1] eqn:Hrun
    end.
    symmetry in Hrun. apply Hlookup in Hrun as (-> & Ho & Hp & Hs); [|reflexivity].
    exists w1, populated. split; [reflexivity|].
    split; [exact Ho|]. split; [exact Hp|]. split; [exact Hs|].
    intros Hrefs k s' Hk Hpar. rewrite Hs in Hk.
    destruct (m !! k) as [s|] eqn:E; simpl in Hk; [|discriminate].
    injection Hk as <-.
    destruct (decide (k ∈ subOrders order)) as [Hin | Hout]; [done|].
    exfalso. apply Hout. apply (Hrefs k s); done.
Qed.

(** ** Order placement: atomicity *)

Lemma in_txn_ret {A} (a : A) : in_txn (ret a).
Proof. intros w r w' Ht [= <- <-]. done. Qed.

Lemma in_txn_throw {A} (e : exception) : in_txn (throw (A := A) e).
Proof. intros w r w' Ht [= <- <-]. done. Qed.

Lemma in_txn_bind {A B} (c : M A) (k : A -> M B) :
  in_txn c -> (forall a, in_txn (k a)) -> in_txn (bind c k).
Proof.
  intros Hc Hk w r w' Ht. unfold bind.
  destruct (c w) as [[a|e] w1] eqn:E; intros Hrun.
  - destruct (Hc _ _ _ Ht E) as [Hc1 Ht1].
    destruct (Hk a _ _ _ Ht1 Hrun) as [Hc2 Ht2]. split; congruence.
  - injection Hrun as <- <-. exact (Hc _ _ _ Ht E).
Qed.

Lemma in_txn_new_ObjectId : in_txn new_ObjectId.
Proof. intros w r w' Ht [= <- <-]. done. Qed.

Lemma in_txn_getProductsInStock ids : in_txn (ProductsService.getProductsInStock ids).
Proof. intros w r w' Ht [= <- <-]. done. Qed.

(** A statement sent with the session: on both exits the committed data
    is untouched and the transaction stays open. *)
Ltac txn_goal Ht :=
  split;
  [ first [ reflexivity | exact (committed_set_view_open _ _ _ _ Ht) ]
  | first [ eexists; exact Ht | eexists; exact (txn_set_view_open _ _ _ _ Ht) ] ].

Lemma in_txn_order_insert s d : in_txn (order_insert (Some s) d).
Proof.
  intros w r w' [d0 Ht]. unfold order_insert.
  destruct (orders (view (Some s) w) !! _id d); intros [= <- <-]; txn_goal Ht.
Qed.

Lemma in_txn_subOrder_insert s d : in_txn (subOrder_insert (Some s) d).
Proof.
  intros w r w' [d0 Ht]. unfold subOrder_insert.
  destruct (subOrderDocs (view (Some s) w) !! _id d); intros [= <- <-]; txn_goal Ht.
Qed.

Lemma in_txn_order_update s id f : in_txn (order_update (Some s) id f).
Proof.
  intros w r w' [d0 Ht]. unfold order_update.
  destruct (orders (view (Some s) w) !! id); intros [= <- <-]; txn_goal Ht.
Qed.

Lemma in_txn_order_save s id f b : in_txn (order_save (Some s) id f b).
Proof. unfold order_save. destruct b; [apply in_txn_order_update | apply in_txn_ret]. Qed.

Lemma in_txn_decrementStock s id q :
  in_txn (ProductsService.decrementStock id q (Some s)).
Proof.
  intros w r w' [d0 Ht].
  unfold ProductsService.decrementStock, bind, product_findOneAndUpdate_dec.
  destruct (products (view (Some s) w) !! id) as [p|].
  - destruct (decide (q <= stock p)); intros [= <- <-]; txn_goal Ht.
  - intros [= <- <-]; txn_goal Ht.
Qed.

Lemma in_txn_validate_stock productMap items :
  in_txn (validate_stock productMap items).
Proof.
  induction items as [|item rest IH]; simpl; [apply in_txn_ret|].
  destruct (productMap !! dto_productId item) as [p|]; [|apply in_txn_throw].
  destruct (decide (stock p < dto_quantity item)); [apply in_txn_throw|exact IH].
Qed.

Lemma in_txn_create_subOrders parent s entries acc :
  in_txn (create_subOrders parent s entries acc).
Proof.
  revert acc. induction entries as [|[v its] rest IH]; intros acc; simpl;
    [apply in_txn_ret|].
  apply in_txn_bind; [apply in_txn_new_ObjectId|]. intros id.
  apply in_txn_bind; [apply in_txn_subOrder_insert|]. intros _. apply IH.
Qed.

Lemma in_txn_apply_stockUpdates s updates : in_txn (apply_stockUpdates s updates).
Proof.
  induction updates as [|u rest IH]; simpl; [apply in_txn_ret|].
  apply in_txn_bind; [apply in_txn_decrementStock|]. intros _. exact IH.
Qed.

Lemma throw_safe_in_txn {A} (c : M A) : in_txn c -> throw_safe c.
Proof. intros Hc w e w' Ht Hrun. exact (proj1 (Hc _ _ _ Ht Hrun)). Qed.

Lemma throw_safe_bind {A B} (c : M A) (k : A -> M B) :
  in_txn c -> (forall a, throw_safe (k a)) -> throw_safe (bind c k).
Proof.
  intros Hc Hk w e w' Ht. unfold bind.
  destruct (c w) as [[a|e1] w1] eqn:E; intros Hrun.
  - destruct (Hc _ _ _ Ht E) as [Hc1 Ht1].
    rewrite (Hk a _ _ _ Ht1 Hrun). exact Hc1.
  - injection Hrun as <- <-. exact (proj1 (Hc _ _ _ Ht E)).
Qed.

Lemma throw_safe_commit {A} s (a : A) : throw_safe (commitTransaction s ;; ret a).
Proof.
  intros w e w' Ht. unfold bind, commitTransaction, ret.
  destruct (txn w); discriminate.
Qed.

(** The [try] block of [create] writes nothing outside the transaction
    on any path that throws. *)
Lemma throw_safe_create_try dto user s : throw_safe (create_try dto user s).
Proof.
  unfold create_try.
  apply throw_safe_bind; [apply in_txn_getProductsInStock|]. intros found.
  unfold create_with.
  destruct (decide _); [apply throw_safe_in_txn, in_txn_throw|].
  apply throw_safe_bind; [apply in_txn_validate_stock|]. intros _.
  apply throw_safe_bind; [apply in_txn_new_ObjectId|]. intros oid.
  apply throw_safe_bind; [apply in_txn_order_insert|]. intros _.
  apply throw_safe_bind; [apply in_txn_create_subOrders|]. intros ids.
  apply throw_safe_bind; [apply in_txn_order_save|]. intros _.
  apply throw_safe_bind; [apply in_txn_apply_stockUpdates|]. intros _.
  apply throw_safe_commit.
Qed.

(** The guarded part of [create], run inside the open transaction: when
    it throws, the committed data is untouched and the transaction is
    gone. *)
Lemma create_guarded_throw (dto : CreateOrderDto) (user : Doc User)
    (s : ClientSession) (w0 w' : World) (e : exception) :
  is_Some (txn w0) ->
  finally (try_catch (create_try dto user s) (create_catch s)) (endSession s) w0
    = (Throw e, w') ->
  committed w' = committed w0 /\ txn w' = None.
Proof.
  intros Ht0. unfold finally, try_catch, endSession.
  destruct (create_try dto user s w0) as [[order|err] w1] eqn:Htry.
  - intros [=].
  - pose proof (throw_safe_create_try dto user s w0 err w1 Ht0 Htry) as Hsafe.
    unfold create_catch, bind, abortTransaction.
    destruct err; unfold throw; intros [= <- <-]; simpl; rewrite Hsafe; done.
Qed.

(** C1. Whenever [create] throws, whether before the transaction is
    opened or from any statement of the [try] block, the committed data
    (products with their stock, orders, sub-orders) is what it was before
    the call, and no transaction is left open. *)
Theorem create_atomic (dto : CreateOrderDto) (user : Doc User) (w w' : World)
    (e : exception) :
  create dto user w = (Throw e, w') ->
  committed w' = committed w /\ (txn w = None -> txn w' = None).
Proof.
  unfold create.
  destruct (decide (role (fields user) ≠ CUSTOMER)).
  - (* refused before the session is started *)
    intros [= <- <-]. done.
  - (* the session is started and the transaction opened on the committed data *)
    unfold bind at 1. unfold startSession, ret.
    unfold bind at 1. unfold startTransaction.
    intros Hrun.
    apply create_guarded_throw in Hrun as [Hc Ht]; [|simpl; eauto].
    split; [exact Hc | intros _; exact Ht].
Qed.

(** ** Order placement: the snapshot of products in stock *)

Lemma productMap_of_snoc (l : list (Doc Product)) (d : Doc Product) :
  productMap_of (l ++ [d]) = <[toString (_id d) := fields d]> (productMap_of l).
Proof. unfold productMap_of. rewrite foldl_snoc. reflexivity. Qed.

(** The keys of the map are the printed ids of the products. *)
Lemma productMap_of_lookup (l : list (Doc Product)) (s : string) p :
  NoDup (l.*1) ->
  productMap_of l !! s = Some p <-> exists k, s = toString k /\ (k, p) ∈ l.
Proof.
  induction l as [|[k' p'] l IH] using rev_ind; intros Hnd.
  - unfold productMap_of. simpl. rewrite lookup_empty.
    split; [discriminate | intros (k & _ & H); inversion H].
  - rewrite fmap_app in Hnd. apply NoDup_app in Hnd as (Hnd & Hfresh & _).
    rewrite productMap_of_snoc, lookup_insert_Some, (IH Hnd). unfold _id, fields. simpl.
    split.
    + intros [[<- <-] | [_ (k & -> & Hin)]].
      * exists k'. split; [reflexivity|]. apply elem_of_app. right. left.
      * exists k. split; [reflexivity|]. apply elem_of_app. left. exact Hin.
    + intros (k & -> & Hin).
      apply elem_of_app in Hin as [Hin | Hin%list_elem_of_singleton].
      * right. split; [|exists k; done].
        intros Heq%toString_inj. subst k'. apply (Hfresh k); [|simpl; left].
        apply list_elem_of_fmap. exists (k, p). done.
      * injection Hin as -> ->. left. done.
Qed.

(** What the snapshot map holds: under the printed id of each requested
    product with positive stock, the product as stored. *)
Lemma snapshot_lookup (m : gmap ObjectId Product) (ids : list ObjectId)
    (s : string) p :
  productMap_of
    (filter (fun d : Doc Product => _id d ∈ ids ∧ 0 < stock (fields d))
            (map_to_list m)) !! s = Some p
  <-> printed s /\ m !! cast s = Some p /\ cast s ∈ ids /\ 0 < stock p.
Proof.
  rewrite productMap_of_lookup.
  - split.
    + intros (k & -> & Hin). rewrite cast_toString.
      apply list_elem_of_filter in Hin as [[Hk Hpos] Hin].
      apply elem_of_map_to_list in Hin. split; [apply printed_toString | done].
    + intros (Hpr & Hm & Hin & Hpos). exists (cast s).
      split; [symmetry; exact Hpr|].
      apply list_elem_of_filter. split; [done|]. apply elem_of_map_to_list. done.
  - apply (sublist_NoDup _ ((map_to_list m).*1));
      [apply NoDup_fst_map_to_list | apply fmap_sublist, sublist_filter].
Qed.

Lemma snapshot_lookup_None (m : gmap ObjectId Product) (ids : list string)
    (s : string) :
  s ∈ ids ->
  snapshot_of m ids !! s = None <-> ~ available m s.
Proof.
  intros Hin. unfold snapshot_of. rewrite eq_None_not_Some. unfold is_Some.
  split.
  - intros Hno [Hpr Hav]. unfold in_stock in Hav.
    destruct (m !! cast s) as [p|] eqn:E; [|done].
    apply Hno. exists p. apply snapshot_lookup.
    split; [done|]. split; [done|]. split; [|done].
    apply list_elem_of_fmap. exists s. done.
  - intros Hno [p Hp]. apply snapshot_lookup in Hp as (Hpr & Hp & _ & Hpos).
    apply Hno. split; [done|]. unfold in_stock. rewrite Hp. exact Hpos.
Qed.

Lemma filter_ext_elem_of {A} (P Q : A -> Prop) `{!forall x, Decision (P x)}
    `{!forall x, Decision (Q x)} (l : list A) :
  (forall x, x ∈ l -> P x <-> Q x) -> filter P l = filter Q l.
Proof.
  induction l as [|x l IH]; intros Hext; [reflexivity|].
  rewrite !filter_cons.
  rewrite IH by (intros y Hy; apply Hext; right; exact Hy).
  destruct (decide (P x)) as [HP | HP], (decide (Q x)) as [HQ | HQ];
    try reflexivity; exfalso.
  - apply HQ, (Hext x); [left | exact HP].
  - apply HP, (Hext x); [left | exact HQ].
Qed.

(** The strings reported missing are the requested strings that are not
    the printed id of a product in stock. *)
Lemma missingProducts_eq (m : gmap ObjectId Product) (ids : list string) :
  filter (fun id => snapshot_of m ids !! id = None) ids
  = filter (fun id => ~ available m id) ids.
Proof. apply filter_ext_elem_of. intros k Hk. apply snapshot_lookup_None. exact Hk. Qed.

(** X26. A customer's cart with a line whose [productId] is not the
    printed id of a product that is stored with positive stock (the
    product does not exist, it has no stock, or the id is not written the
    way [toString()] prints it): [create] throws the "not found or out of
    stock" bad request, which names the [productId] strings of the cart
    that are in this case, all of them and no other, in cart order; only
    the products were read, nothing was written, no id was drawn and the
    committed data, the stock of every product with it, is unchanged. *)
Theorem create_product_unavailable (dto : CreateOrderDto) (user : Doc User)
    (w : World) :
  role (fields user) = CUSTOMER ->
  (exists item, item ∈ dto_items dto
     /\ ~ available (products (committed w)) (dto_productId item)) ->
  exists w',
    create dto user w
      = (Throw (BadRequestException
                  (ProductsNotFoundOrOutOfStock
                     (filter (fun id => ~ available (products (committed w)) id)
                             (map dto_productId (dto_items dto))))), w')
    /\ committed w' = committed w
    /\ txn w' = None
    /\ accesses w' = accesses w ++ [Read Products]
    /\ oid_issued w' = oid_issued w.
Proof.
  intros Hrole (item & Hitem & Hbad).
  unfold create. rewrite decide_False by (intros H; apply H; exact Hrole).
  unfold bind at 1. unfold startSession, ret.
  unfold bind at 1. unfold startTransaction.
  unfold finally, try_catch, create_try.
  unfold bind at 1. unfold ProductsService.getProductsInStock, product_find_in_stock.
  unfold create_with.
  cbn [committed set_txn].
  fold (snapshot_of (products (committed w)) (map dto_productId (dto_items dto))).
  rewrite missingProducts_eq.
  set (missing := filter _ (map dto_productId (dto_items dto))).
  assert (Hin : dto_productId item ∈ missing).
  { apply list_elem_of_filter. split; [exact Hbad|].
    apply list_elem_of_fmap. exists item. done. }
  rewrite decide_True by (destruct missing; [inversion Hin | simpl; lia]).
  unfold throw, create_catch, bind, abortTransaction, endSession. simpl.
  eexists. split; [reflexivity|]. simpl. done.
Qed.

(** ** Order placement: grouping by vendor *)

Lemma first_occurrences_snoc l v :
  first_occurrences (l ++ [v])
  = if decide (v ∈ first_occurrences l) then first_occurrences l
    else first_occurrences l ++ [v].
Proof. unfold first_occurrences. rewrite foldl_snoc. reflexivity. Qed.

Lemma elem_of_first_occurrences l v : v ∈ first_occurrences l <-> v ∈ l.
Proof.
  induction l as [|x l IH] using rev_ind.
  - reflexivity.
  - rewrite first_occurrences_snoc, elem_of_app, list_elem_of_singleton, <- IH.
    destruct (decide (x ∈ first_occurrences l)) as [Hin | Hout].
    + split; [tauto|]. intros [H | ->]; done.
    + rewrite elem_of_app, list_elem_of_singleton. tauto.
Qed.

Lemma NoDup_first_occurrences l : NoDup (first_occurrences l).
Proof.
  induction l as [|x l IH] using rev_ind.
  - constructor.
  - rewrite first_occurrences_snoc.
    destruct (decide (x ∈ first_occurrences l)) as [Hin | Hout]; [exact IH|].
    apply NoDup_app. split; [exact IH|]. split; [|apply NoDup_singleton].
    intros y Hy ->%list_elem_of_singleton. done.
Qed.

Lemma items_of_vendor_snoc v l x :
  items_of_vendor v (l ++ [x])
  = if decide (vendorId x = v) then items_of_vendor v l ++ [x]
    else items_of_vendor v l.
Proof.
  unfold items_of_vendor. rewrite filter_app, filter_cons, filter_nil.
  destruct (decide (vendorId x = v)); [reflexivity | apply app_nil_r].
Qed.

Lemma items_of_vendor_absent v l :
  v ∉ map vendorId l -> items_of_vendor v l = [].
Proof.
  intros Hout. unfold items_of_vendor.
  induction l as [|y l IH]; [reflexivity|].
  rewrite filter_cons. destruct (decide (vendorId y = v)) as [<- | Hne].
  - exfalso. apply Hout. simpl. left.
  - apply IH. intros Hin. apply Hout. simpl. right. exact Hin.
Qed.

Lemma groups_snoc_other (ks : list ObjectId) (l : list OrderItem) (x : OrderItem) :
  vendorId x ∉ ks ->
  map (fun k => (k, items_of_vendor k (l ++ [x]))) ks
  = map (fun k => (k, items_of_vendor k l)) ks.
Proof.
  intros Hout. apply map_ext_in. intros k Hk%list_elem_of_In.
  rewrite items_of_vendor_snoc. rewrite decide_False; [reflexivity|].
  intros <-. done.
Qed.

(** Pushing an item whose vendor has a group: the groups of the list
    with the item appended, the keys being distinct. *)
Lemma push_item_present (ks : list ObjectId) (l : list OrderItem) (x : OrderItem) :
  NoDup ks -> vendorId x ∈ ks ->
  push_item (vendorId x) x (map (fun k => (k, items_of_vendor k l)) ks)
  = map (fun k => (k, items_of_vendor k (l ++ [x]))) ks.
Proof.
  induction ks as [|k ks IH]; intros Hnd Hin; [inversion Hin|].
  apply NoDup_cons in Hnd as [Hk Hnd]. simpl.
  destruct (decide (vendorId x = k)) as [<- | Hne].
  - rewrite (groups_snoc_other ks l x Hk), items_of_vendor_snoc.
    rewrite decide_True by reflexivity. reflexivity.
  - rewrite IH; [|exact Hnd|].
    + rewrite (items_of_vendor_snoc k). rewrite decide_False by exact Hne. reflexivity.
    + apply elem_of_cons in Hin as [Heq | Hin]; [congruence | exact Hin].
Qed.

(** Pushing an item whose vendor has no group yet: a new last group. *)
Lemma push_item_absent (ks : list ObjectId) (l : list OrderItem) (x : OrderItem) :
  vendorId x ∉ ks ->
  push_item (vendorId x) x (map (fun k => (k, items_of_vendor k l)) ks)
  = map (fun k => (k, items_of_vendor k l)) ks ++ [(vendorId x, [x])].
Proof.
  induction ks as [|k ks IH]; intros Hout; [reflexivity|].
  apply not_elem_of_cons in Hout as [Hne Hout]. simpl.
  rewrite decide_False by exact Hne. rewrite IH by exact Hout. reflexivity.
Qed.

Lemma group_by_vendor_snoc (l : list OrderItem) (x : OrderItem) :
  group_by_vendor (l ++ [x]) = push_item (vendorId x) x (group_by_vendor l).
Proof.
  unfold group_by_vendor. rewrite map_app. simpl.
  rewrite first_occurrences_snoc.
  set (ks := first_occurrences (map vendorId l)).
  destruct (decide (vendorId x ∈ ks)) as [Hin | Hout].
  - rewrite push_item_present; [reflexivity | apply NoDup_first_occurrences | exact Hin].
  - rewrite push_item_absent by exact Hout.
    rewrite map_app. simpl. rewrite (groups_snoc_other ks l x Hout).
    rewrite items_of_vendor_snoc, decide_True by reflexivity.
    rewrite items_of_vendor_absent; [reflexivity|].
    intros Hc. apply Hout. apply elem_of_first_occurrences. exact Hc.
Qed.

(** The statements of the loop body on [vendorItems] ([has], [set],
    [get], [push]) amount to [push_item]. *)
Lemma jsmap_push_item (v : ObjectId) (x : OrderItem)
    (m : list (ObjectId * list OrderItem)) :
  (let vendorItems1 := if jsmap_has v m then m else jsmap_set v [] m in
   match jsmap_get v vendorItems1 with
   | Some vendorItemsArray => jsmap_set v (vendorItemsArray ++ [x]) vendorItems1
   | None => vendorItems1
   end) = push_item v x m.
Proof.
  induction m as [|[k its] m IH]; simpl.
  - unfold jsmap_has. simpl. rewrite !decide_True by reflexivity. reflexivity.
  - unfold jsmap_has in *. simpl.
    destruct (decide (v = k)) as [-> | Hne]; simpl.
    + rewrite !decide_True by reflexivity. reflexivity.
    + destruct (jsmap_get v m) as [its'|] eqn:E; simpl.
      * rewrite decide_False by exact Hne. simpl in IH. rewrite E.
        rewrite decide_False by exact Hne. rewrite E in IH. rewrite IH. reflexivity.
      * rewrite !decide_False by exact Hne. simpl in IH.
        destruct (jsmap_get v (jsmap_set v [] m)) as [a|] eqn:E2.
        -- rewrite decide_False by exact Hne. rewrite IH. reflexivity.
        -- rewrite IH. reflexivity.
Qed.

Lemma group_step_vendorItems productMap g line product :
  productMap !! dto_productId line = Some product ->
  exists it, order_item_of productMap line = Some it
    /\ vendorId it = product_vendorId product
    /\ orderItems (group_step productMap g line) = orderItems g ++ [it]
    /\ vendorItems (group_step productMap g line)
       = push_item (vendorId it) it (vendorItems g)
    /\ g_totalAmount (group_step productMap g line)
       = (g_totalAmount g + line_total it)%float
    /\ stockUpdates (group_step productMap g line)
       = stockUpdates g ++ [stock_update_of line].
Proof.
  intros Hp. unfold group_step, order_item_of. rewrite Hp. simpl.
  eexists. split; [reflexivity|]. simpl. split; [reflexivity|].
  split; [reflexivity|]. split; [|split; reflexivity].
  apply jsmap_push_item.
Qed.

Lemma group_step_skip productMap g line :
  productMap !! dto_productId line = None ->
  order_item_of productMap line = None /\ group_step productMap g line = g.
Proof. intros Hp. unfold group_step, order_item_of. rewrite Hp. done. Qed.

Lemma Zsum_app l k : Zsum (l ++ k) = Zsum l + Zsum k.
Proof. unfold Zsum. induction l as [|x l IH]; simpl; lia. Qed.

Lemma float_sum_snoc (l : list float) (x : float) :
  float_sum (l ++ [x]) = (float_sum l + x)%float.
Proof. unfold float_sum. rewrite foldl_snoc. reflexivity. Qed.


Lemma push_item_concat v x m :
  concat (map snd (push_item v x m)) ≡ₚ concat (map snd m) ++ [x].
Proof.
  induction m as [|[k its] m IH]; simpl; [reflexivity|].
  destruct (decide (v = k)); simpl.
  - rewrite <- !app_assoc. apply Permutation_app_head, Permutation_app_comm.
  - rewrite IH. rewrite app_assoc. reflexivity.
Qed.

Lemma group_by_vendor_concat l : concat (map snd (group_by_vendor l)) ≡ₚ l.
Proof.
  induction l as [|x l IH] using rev_ind; [reflexivity|].
  rewrite group_by_vendor_snoc, push_item_concat, IH. reflexivity.
Qed.

(** What the grouping loop computes, from any state that satisfies the
    same equations. *)
Lemma grouping_loop productMap (lines : list OrderItemDto) (g : Grouping) :
  vendorItems g = group_by_vendor (orderItems g) ->
  g_totalAmount g = float_sum (map line_total (orderItems g)) ->
  let g' := foldl (group_step productMap) g lines in
  orderItems g' = orderItems g ++ omap (order_item_of productMap) lines
  /\ vendorItems g' = group_by_vendor (orderItems g')
  /\ g_totalAmount g' = float_sum (map line_total (orderItems g')).
Proof.
  revert g. induction lines as [|line lines IH]; intros g Hv Ht; simpl.
  - rewrite app_nil_r. repeat split; [exact Hv | exact Ht].
  - destruct (productMap !! dto_productId line) as [product|] eqn:Hp.
    + destruct (group_step_vendorItems productMap g line product Hp)
        as (it & Hit & _ & Hitems & Hvend & Htot & _).
      specialize (IH (group_step productMap g line)).
      destruct IH as (IH1 & IH2 & IH3).
      * rewrite Hvend, Hitems, Hv. symmetry. apply group_by_vendor_snoc.
      * rewrite Htot, Hitems, Ht, map_app. simpl. rewrite float_sum_snoc. reflexivity.
      * rewrite Hit. simpl.
        split; [rewrite IH1, Hitems, <- app_assoc; reflexivity|].
        split; [exact IH2 | exact IH3].
    + destruct (group_step_skip productMap g line Hp) as [Hit Hg].
      rewrite Hit, Hg. apply IH; assumption.
Qed.

Lemma grouping_result productMap (lines : list OrderItemDto) :
  let g := foldl (group_step productMap) grouping_start lines in
  orderItems g = omap (order_item_of productMap) lines
  /\ vendorItems g = group_by_vendor (orderItems g)
  /\ g_totalAmount g = float_sum (map line_total (orderItems g)).
Proof.
  destruct (grouping_loop productMap lines grouping_start eq_refl eq_refl)
    as (H1 & H2 & H3).
  simpl in *. repeat split; [exact H1 | exact H2 | exact H3].
Qed.

Lemma grouping_stockUpdates productMap (lines : list OrderItemDto) (g : Grouping) :
  Forall (fun line => is_Some (productMap !! dto_productId line)) lines ->
  stockUpdates (foldl (group_step productMap) g lines)
  = stockUpdates g ++ map stock_update_of lines.
Proof.
  revert g. induction lines as [|line lines IH]; intros g Hall; simpl.
  - rewrite app_nil_r. reflexivity.
  - apply Forall_cons in Hall as [[product Hp] Hall].
    destruct (group_step_vendorItems productMap g line product Hp)
      as (it & _ & _ & _ & _ & _ & Hsu).
    rewrite IH by exact Hall. rewrite Hsu, <- app_assoc. reflexivity.
Qed.

(** ** Order placement: the statements of a successful run *)

Lemma bind_Return_inv {A B} (c : M A) (k : A -> M B) w b w' :
  bind c k w = (Return b, w') ->
  exists a w1, c w = (Return a, w1) /\ k a w1 = (Return b, w').
Proof.
  unfold bind. destruct (c w) as [[a|e] w1]; [eauto | discriminate].
Qed.

Lemma validate_stock_inv productMap lines w w' :
  validate_stock productMap lines w = (Return tt, w') ->
  w' = w
  /\ Forall (fun line => exists p, productMap !! dto_productId line = Some p
                                   /\ dto_quantity line <= stock p) lines.
Proof.
  induction lines as [|line lines IH]; simpl.
  - intros [= <-]. split; [reflexivity | constructor].
  - destruct (productMap !! dto_productId line) as [p|] eqn:Hp; [|discriminate].
    destruct (decide (stock p < dto_quantity line)); [discriminate|].
    intros Hrun. destruct (IH Hrun) as [-> Hall].
    split; [reflexivity|]. constructor; [|exact Hall]. exists p. split; [done | lia].
Qed.

Lemma new_ObjectId_inv w id w' :
  new_ObjectId w = (Return id, w') ->
  txn w' = txn w /\ committed w' = committed w.
Proof. intros [= <- <-]. done. Qed.

Lemma order_insert_inv s doc w w' d :
  txn w = Some d ->
  order_insert (Some s) doc w = (Return tt, w') ->
  orders d !! _id doc = None
  /\ txn w' = Some (with_orders <[_id doc := fields doc]> d)
  /\ committed w' = committed w.
Proof.
  intros Ht. unfold order_insert. rewrite (view_open s d w Ht).
  destruct (orders d !! _id doc); [discriminate|]. intros [= <-].
  split; [reflexivity|].
  split; [exact (txn_set_view_open _ _ _ _ Ht) | exact (committed_set_view_open _ _ _ _ Ht)].
Qed.

Lemma subOrder_insert_inv s doc w w' d :
  txn w = Some d ->
  subOrder_insert (Some s) doc w = (Return tt, w') ->
  subOrderDocs d !! _id doc = None
  /\ txn w' = Some (with_subOrders <[_id doc := fields doc]> d)
  /\ committed w' = committed w.
Proof.
  intros Ht. unfold subOrder_insert. rewrite (view_open s d w Ht).
  destruct (subOrderDocs d !! _id doc); [discriminate|]. intros [= <-].
  split; [reflexivity|].
  split; [exact (txn_set_view_open _ _ _ _ Ht) | exact (committed_set_view_open _ _ _ _ Ht)].
Qed.

Lemma order_update_inv s id f w w' d :
  txn w = Some d ->
  order_update (Some s) id f w = (Return tt, w') ->
  exists o, orders d !! id = Some o
    /\ txn w' = Some (with_orders <[id := f o]> d)
    /\ committed w' = committed w.
Proof.
  intros Ht. unfold order_update. rewrite (view_open s d w Ht).
  destruct (orders d !! id) as [o|]; [|discriminate]. intros [= <-].
  exists o. split; [reflexivity|].
  split; [exact (txn_set_view_open _ _ _ _ Ht) | exact (committed_set_view_open _ _ _ _ Ht)].
Qed.

(** The save of the order once the sub-orders are created: the list of
    their ids is stored, by an update when it is not empty. *)
Lemma order_save_inv s id ids w w' d o :
  txn w = Some d -> orders d !! id = Some o -> subOrders o = [] ->
  order_save (Some s) id (set_subOrders ids) (bool_decide (ids ≠ [])) w
    = (Return tt, w') ->
  txn w' = Some (with_orders <[id := set_subOrders ids o]> d)
  /\ committed w' = committed w.
Proof.
  intros Ht Ho Hnone. unfold order_save.
  destruct (decide (ids = [])) as [-> | Hne].
  - rewrite bool_decide_eq_false_2 by (intros H; apply H; reflexivity).
    intros [= <-]. split; [|reflexivity]. rewrite Ht. f_equal.
    assert (Hsame : set_subOrders [] o = o)
      by (destruct o; simpl in Hnone; subst; reflexivity).
    rewrite Hsame. symmetry. apply with_orders_id. exact Ho.
  - rewrite bool_decide_eq_true_2 by exact Hne. intros Hupd.
    apply (order_update_inv _ _ _ _ _ _ Ht) in Hupd as (o' & Ho' & Htf & Hcf).
    rewrite Ho in Ho'. injection Ho' as <-. done.
Qed.

Lemma insert_as_alter {A} (m : gmap ObjectId A) i x (f : A -> A) :
  m !! i = Some x -> <[i := f x]> m = alter f i m.
Proof.
  intros Hx. rewrite <- (insert_id m i x Hx) at 2. rewrite alter_insert_eq. reflexivity.
Qed.

Lemma decrementStock_inv s id q w doc w' d :
  txn w = Some d ->
  ProductsService.decrementStock id q (Some s) w = (Return doc, w') ->
  exists p, products d !! id = Some p /\ q <= stock p
    /\ txn w' = Some (with_products
                        (alter (fun p => set_stock (stock p - q) p) id) d)
    /\ committed w' = committed w.
Proof.
  intros Ht. unfold ProductsService.decrementStock, bind, product_findOneAndUpdate_dec.
  rewrite (view_open s d w Ht).
  destruct (products d !! id) as [p|] eqn:Hp; [|discriminate].
  destruct (decide (q <= stock p)); [|discriminate]. intros [= <- <-].
  exists p. split; [reflexivity|]. split; [assumption|].
  split; [|exact (committed_set_view_open _ _ _ _ Ht)].
  etrans; [exact (txn_set_view_open _ _ _ _ Ht)|].
  unfold with_products. simpl. do 2 f_equal.
  exact (insert_as_alter (products d) id p (fun p => set_stock (stock p - q) p) Hp).
Qed.

(** The sub-order loop: every vendor group is stored under the id
    collected for it; the rest of the working copy is as it was. *)
Lemma create_subOrders_inv parent s entries acc w ids w' d :
  txn w = Some d ->
  create_subOrders parent s entries acc w = (Return ids, w') ->
  exists d' new,
    txn w' = Some d' /\ committed w' = committed w
    /\ ids = acc ++ new
    /\ products d' = products d /\ orders d' = orders d
    /\ (forall k x, subOrderDocs d !! k = Some x -> subOrderDocs d' !! k = Some x)
    /\ Forall2 (fun id entry => subOrderDocs d' !! id = Some (subOrder_for parent entry))
               new entries
    /\ (forall k x, subOrderDocs d' !! k = Some x ->
          subOrderDocs d !! k = Some x \/ (k ∈ new /\ parentOrderId x = parent)).
Proof.
  revert acc w d. induction entries as [|[v its] rest IH]; intros acc w d Ht; simpl.
  - intros [= <- <-]. exists d, []. rewrite app_nil_r.
    repeat split; [exact Ht | auto | constructor | auto].
  - intros Hrun.
    apply bind_Return_inv in Hrun as (id & w1 & Hnew & Hrun).
    apply new_ObjectId_inv in Hnew as [Ht1 Hc1]. rewrite Ht in Ht1.
    apply bind_Return_inv in Hrun as ([] & w2 & Hins & Hrun).
    apply (subOrder_insert_inv _ _ _ _ _ Ht1) in Hins as (Hfree & Ht2 & Hc2).
    destruct (IH _ _ _ Ht2 Hrun)
      as (d' & new & Ht' & Hc' & -> & Hp & Ho & Hmono & Hall & Honly).
    exists d', (id :: new). rewrite <- app_assoc. simpl in *.
    split; [exact Ht'|]. split; [congruence|]. split; [reflexivity|].
    split; [exact Hp|]. split; [exact Ho|]. split; [|split].
    + intros k x Hk. apply Hmono. rewrite lookup_insert_ne; [exact Hk|].
      intros ->. unfold _id in Hfree. simpl in Hfree. congruence.
    + constructor; [|exact Hall]. apply Hmono. apply lookup_insert_eq.
    + intros k x Hk. destruct (Honly k x Hk) as [Hold | [Hin Hpar]].
      * unfold _id, fields in Hold. simpl in Hold.
        apply lookup_insert_Some in Hold as [[<- <-] | [_ Hold]].
        -- right. split; [left | reflexivity].
        -- left. exact Hold.
      * right. split; [right; exact Hin | exact Hpar].
Qed.

(** The reservation loop: the products of the working copy after all
    decrements succeeded. *)
Lemma apply_stockUpdates_inv s updates w w' d :
  txn w = Some d ->
  apply_stockUpdates s updates w = (Return tt, w') ->
  exists d',
    txn w' = Some d' /\ committed w' = committed w
    /\ products d' = foldl decremented (products d) updates
    /\ orders d' = orders d /\ subOrderDocs d' = subOrderDocs d
    /\ (stock_nonneg (products d) -> stock_nonneg (products d')).
Proof.
  revert w d. induction updates as [|[id q] rest IH]; intros w d Ht; simpl.
  - intros [= <-]. exists d. done.
  - intros Hrun.
    apply bind_Return_inv in Hrun as (doc & w1 & Hdec & Hrun).
    apply (decrementStock_inv _ _ _ _ _ _ _ Ht) in Hdec as (p & Hp & Hq & Ht1 & Hc1).
    destruct (IH _ _ Ht1 Hrun) as (d' & Ht' & Hc' & Hprod & Ho & Hs & Hnn).
    exists d'. split; [exact Ht'|]. split; [congruence|].
    split; [exact Hprod|]. split; [exact Ho|]. split; [exact Hs|].
    intros Hd. apply Hnn. simpl. unfold decremented. simpl.
    rewrite <- (insert_as_alter _ _ p _ Hp).
    apply map_Forall_insert_2; [simpl; lia | exact Hd].
Qed.

(** A successful [create], statement by statement: what is returned and
    what is committed. *)
Lemma create_success_inv (dto : CreateOrderDto) (user : Doc User) (w w' : World)
    (order : Doc Order) :
  create dto user w = (Return order, w') ->
  let productMap :=
    snapshot_of (products (committed w)) (map dto_productId (dto_items dto)) in
  let g := foldl (group_step productMap) grouping_start (dto_items dto) in
  role (fields user) = CUSTOMER
  /\ Forall (fun line => exists p, productMap !! dto_productId line = Some p
                                   /\ dto_quantity line <= stock p) (dto_items dto)
  /\ fields order
     = {| customerId := _id user; items := orderItems g;
          totalAmount := g_totalAmount g; status := PENDING;
          subOrders := subOrders (fields order) |}
  /\ orders (committed w) !! _id order = None
  /\ orders (committed w') = <[_id order := fields order]> (orders (committed w))
  /\ Forall2 (fun id entry =>
                subOrderDocs (committed w') !! id = Some (subOrder_for (_id order) entry))
             (subOrders (fields order)) (vendorItems g)
  /\ (forall k x, subOrderDocs (committed w) !! k = Some x ->
                  subOrderDocs (committed w') !! k = Some x)
  /\ products (committed w')
     = foldl decremented (products (committed w)) (map stock_update_of (dto_items dto))
  /\ txn w' = None
  /\ (forall k x, subOrderDocs (committed w') !! k = Some x ->
        subOrderDocs (committed w) !! k = Some x
        \/ (k ∈ subOrders (fields order) /\ parentOrderId x = _id order))
  /\ (stock_nonneg (products (committed w)) ->
      stock_nonneg (products (committed w'))).
Proof.
  unfold create.
  destruct (decide (role (fields user) ≠ CUSTOMER)) as [Hrole | Hrole]; [discriminate|].
  apply dec_stable in Hrole.
  unfold bind at 1. unfold startSession, ret.
  unfold bind at 1. unfold startTransaction.
  unfold finally, try_catch, endSession.
  set (w0 := set_txn (Some (committed w)) w).
  assert (Ht0 : txn w0 = Some (committed w)) by reflexivity.
  destruct (create_try dto user Session w0) as [[order0|err] w1] eqn:Htry; cycle 1.
  { unfold create_catch, bind, abortTransaction.
    destruct err; unfold throw; discriminate. }
  intros [= -> <-].
  set (productMap :=
         snapshot_of (products (committed w)) (map dto_productId (dto_items dto))).
  set (g := foldl (group_step productMap) grouping_start (dto_items dto)).
  unfold create_try in Htry.
  apply bind_Return_inv in Htry as (found & wa & Hfind & Htry).
  unfold ProductsService.getProductsInStock, product_find_in_stock in Hfind.
  injection Hfind as <- <-. unfold create_with in Htry.
  change (productMap_of _) with productMap in Htry.
  destruct (decide _) as [|Hnone] in Htry; [discriminate|].
  apply bind_Return_inv in Htry as ([] & wb & Hval & Htry).
  apply validate_stock_inv in Hval as [-> Hval].
  fold g in Htry.
  apply bind_Return_inv in Htry as (oid & wc & Hnew & Htry).
  apply new_ObjectId_inv in Hnew as [Htc Hcc]. simpl in Htc, Hcc.
  apply bind_Return_inv in Htry as ([] & wd & Hins & Htry).
  apply (order_insert_inv _ _ _ _ _ Htc) in Hins as (Hfree & Htd & Hcd).
  apply bind_Return_inv in Htry as (ids & we & Hsubs & Htry).
  apply (create_subOrders_inv _ _ _ _ _ _ _ _ Htd) in Hsubs
    as (de & new & Hte & Hce & -> & Hpe & Hoe & Hmono & Hall & Honly).
  apply bind_Return_inv in Htry as ([] & wf & Hupd & Htry).
  assert (Ho : orders de !! oid
               = Some {| customerId := _id user; items := orderItems g;
                         totalAmount := g_totalAmount g; status := PENDING;
                         subOrders := [] |})
    by (rewrite Hoe; apply lookup_insert_eq).
  apply (order_save_inv _ _ _ _ _ _ _ Hte Ho eq_refl) in Hupd as (Htf & Hcf).
  apply bind_Return_inv in Htry as ([] & wg & Hres & Htry).
  apply (apply_stockUpdates_inv _ _ _ _ _ Htf) in Hres
    as (dg & Htg & Hcg & Hpg & Hog & Hsg & Hnn).
  unfold bind, commitTransaction, ret in Htry. rewrite Htg in Htry.
  injection Htry as <- <-. simpl in *.
  split; [exact Hrole|]. split; [exact Hval|]. split; [reflexivity|].
  split; [exact Hfree|]. split.
  { rewrite Hog, Hoe. apply insert_insert_eq. }
  split.
  { rewrite Hsg. exact Hall. }
  split.
  { intros k x Hk. rewrite Hsg. apply Hmono. exact Hk. }
  split.
  { rewrite Hpg, Hpe. f_equal.
    apply (grouping_stockUpdates productMap (dto_items dto) grouping_start).
    eapply Forall_impl; [exact Hval|]. intros line (p & Hp & _). eauto. }
  split; [reflexivity|]. split.
  { intros k x Hk. rewrite Hsg in Hk. exact (Honly k x Hk). }
  intros Hd. apply Hnn. rewrite Hpe. exact Hd.
Qed.

(** ** Order placement: totals and partition *)

Lemma Forall2_subOrder_for (m : gmap ObjectId SubOrder) parent ids entries :
  Forall2 (fun id entry => m !! id = Some (subOrder_for parent entry)) ids entries ->
  Forall2 (fun id so => m !! id = Some so) ids (map (subOrder_for parent) entries).
Proof. induction 1; simpl; constructor; assumption. Qed.



(** Every cart line became one line item, built from the stored
    product. *)
Lemma order_items_of_lines (m : gmap ObjectId Product) (ids : list string)
    (lines : list OrderItemDto) :
  Forall (fun line => exists p, snapshot_of m ids !! dto_productId line = Some p
                                /\ dto_quantity line <= stock p) lines ->
  Forall2 (fun line it =>
             productId it = dto_productId line
             /\ quantity it = dto_quantity line
             /\ exists p, m !! cast (dto_productId line) = Some p
                  /\ vendorId it = product_vendorId p
                  /\ item_price it = price p
                  /\ name it = product_name p)
          lines (omap (order_item_of (snapshot_of m ids)) lines).
Proof.
  induction 1 as [|line lines (p & Hp & _) _ IH]; simpl; [constructor|].
  unfold order_item_of at 1. rewrite Hp. simpl. constructor; [|exact IH].
  simpl. split; [reflexivity|]. split; [reflexivity|].
  exists p. apply snapshot_lookup in Hp as (_ & Hp & _). done.
Qed.

(** C7. After a successful [create]: the order is stored as returned; it
    has one line item per cart line, in cart order, whose vendor is the
    vendor of the line's product; the sub-orders the order refers to are
    stored, their vendors are the vendors of the cart in order of first
    occurrence, without repetition; each sub-order holds exactly the items
    of its vendor, in cart order; so the items of the sub-orders together
    are the items of the order, each once. *)
Theorem create_partition (dto : CreateOrderDto) (user : Doc User) (w w' : World)
    (order : Doc Order) :
  create dto user w = (Return order, w') ->
  exists subs : list SubOrder,
    Forall2 (fun id so => subOrderDocs (committed w') !! id = Some so)
            (subOrders (fields order)) subs
    /\ Forall2 (fun line it =>
                  productId it = dto_productId line
                  /\ quantity it = dto_quantity line
                  /\ exists p, products (committed w) !! cast (dto_productId line)
                               = Some p
                       /\ vendorId it = product_vendorId p
                       /\ item_price it = price p
                       /\ name it = product_name p)
               (dto_items dto) (items (fields order))
    /\ map so_vendorId subs = first_occurrences (map vendorId (items (fields order)))
    /\ NoDup (map so_vendorId subs)
    /\ Forall (fun so =>
                 so_items so = items_of_vendor (so_vendorId so) (items (fields order)))
              subs
    /\ concat (map so_items subs) ≡ₚ items (fields order)
    /\ orders (committed w') !! _id order = Some (fields order)
    /\ Forall (fun so => parentOrderId so = _id order) subs
    /\ length (subOrders (fields order)) = length subs.
Proof.
  intros Hrun.
  destruct (create_success_inv dto user w w' order Hrun)
    as (_ & Hval & Hfields & _ & Hstored & Hsubs & _).
  set (productMap :=
         snapshot_of (products (committed w)) (map dto_productId (dto_items dto))) in *.
  set (g := foldl (group_step productMap) grouping_start (dto_items dto)) in *.
  destruct (grouping_result productMap (dto_items dto)) as (Hitems & Hgroups & _).
  fold g in Hitems, Hgroups.
  assert (Hoi : items (fields order) = orderItems g) by (rewrite Hfields; reflexivity).
  exists (map (subOrder_for (_id order)) (vendorItems g)).
  split; [apply Forall2_subOrder_for; exact Hsubs|].
  split.
  { rewrite Hoi, Hitems. apply order_items_of_lines. exact Hval. }
  assert (Hvendors : map so_vendorId (map (subOrder_for (_id order)) (vendorItems g))
                     = first_occurrences (map vendorId (items (fields order)))).
  { rewrite map_map. simpl. rewrite Hgroups, Hoi. unfold group_by_vendor.
    rewrite map_map. simpl. apply map_id. }
  split; [exact Hvendors|].
  split; [rewrite Hvendors; apply NoDup_first_occurrences|].
  split.
  - apply Forall_forall. intros so (e & -> & He)%list_elem_of_fmap. simpl.
    rewrite Hgroups in He. unfold group_by_vendor in He.
    apply list_elem_of_fmap in He as (v & -> & _). simpl. rewrite Hoi. reflexivity.
  - split.
    { rewrite map_map. simpl. rewrite Hoi.
      change (fun x : ObjectId * list OrderItem => x.2)
        with (@snd ObjectId (list OrderItem)).
      rewrite Hgroups. apply group_by_vendor_concat. }
    split; [rewrite Hstored; apply lookup_insert_eq|].
    split.
    { apply Forall_forall. intros so (e & -> & _)%list_elem_of_fmap. reflexivity. }
    rewrite length_map. exact (Forall2_length _ _ _ Hsubs).
Qed.

(** ** Relations every statement of a computation respects *)

Section Respects.
Context (R : relation World) `{!PreOrder R}.

Lemma respects_ret {A} (a : A) : respects R (ret a).
Proof. intros w r w' [= <- <-]. reflexivity. Qed.

Lemma respects_throw {A} (e : exception) : respects R (throw (A := A) e).
Proof. intros w r w' [= <- <-]. reflexivity. Qed.

Lemma respects_bind {A B} (c : M A) (k : A -> M B) :
  respects R c -> (forall a, respects R (k a)) -> respects R (bind c k).
Proof.
  intros Hc Hk w r w'. unfold bind.
  destruct (c w) as [[a|e] w1] eqn:E; intros Hrun.
  - etrans; [exact (Hc _ _ _ E) | exact (Hk _ _ _ _ Hrun)].
  - injection Hrun as <- <-. exact (Hc _ _ _ E).
Qed.

Lemma respects_try_catch {A} (c : M A) (h : exception -> M A) :
  respects R c -> (forall e, respects R (h e)) -> respects R (try_catch c h).
Proof.
  intros Hc Hh w r w'. unfold try_catch.
  destruct (c w) as [[a|e] w1] eqn:E; intros Hrun.
  - injection Hrun as <- <-. exact (Hc _ _ _ E).
  - etrans; [exact (Hc _ _ _ E) | exact (Hh _ _ _ _ Hrun)].
Qed.

Lemma respects_finally {A} (c : M A) (f : M unit) :
  respects R c -> respects R f -> respects R (finally c f).
Proof.
  intros Hc Hf w r w'. unfold finally.
  destruct (c w) as [r1 w1] eqn:E. destruct (f w1) as [[[]|e] w2] eqn:F;
    intros [= <- <-]; (etrans; [exact (Hc _ _ _ E) | exact (Hf _ _ _ F)]).
Qed.

Lemma respects_validated status : respects R (validated status).
Proof.
  destruct status as [st | value]; simpl; [apply respects_ret|].
  destruct (status_of_string value); [apply respects_ret | apply respects_throw].
Qed.

Lemma respects_order_save s id f b :
  respects R (order_update s id f) -> respects R (order_save s id f b).
Proof. intros H. unfold order_save. destruct b; [exact H | apply respects_ret]. Qed.

Lemma respects_subOrder_save id f b :
  respects R (subOrder_update id f) -> respects R (subOrder_save id f b).
Proof. intros H. unfold subOrder_save. destruct b; [exact H | apply respects_ret]. Qed.

End Respects.

#[global] Instance same_products_preorder : PreOrder same_products.
Proof.
  split; [intros w; reflexivity|].
  intros w1 w2 w3 H12 H23. unfold same_products in *. congruence.
Qed.

#[global] Instance log_extends_preorder : PreOrder log_extends.
Proof.
  split; [intros w; exists []; symmetry; apply app_nil_r|].
  intros w1 w2 w3 [r1 H12] [r2 H23]. exists (r1 ++ r2).
  rewrite H23, H12, app_assoc. reflexivity.
Qed.

Lemma accesses_set_view s d w : accesses (set_view s d w) = accesses w.
Proof. unfold set_view. destruct s as [[]|], (txn w); reflexivity. Qed.

(** A primitive statement: at most one entry is appended to the log. *)
Ltac log_step :=
  intros w r w'; intros [= <- <-];
  first [ exists []; symmetry; apply app_nil_r
        | eexists; cbn [accesses record_access]; rewrite ?accesses_set_view;
          reflexivity ].

Lemma log_new_ObjectId : respects log_extends new_ObjectId.
Proof. log_step. Qed.

Lemma log_getProductsInStock ids :
  respects log_extends (ProductsService.getProductsInStock ids).
Proof. log_step. Qed.

Lemma log_order_insert s d : respects log_extends (order_insert s d).
Proof.
  unfold order_insert. intros w.
  destruct (orders (view s w) !! _id d); revert w; log_step.
Qed.

Lemma log_subOrder_insert s d : respects log_extends (subOrder_insert s d).
Proof.
  unfold subOrder_insert. intros w.
  destruct (subOrderDocs (view s w) !! _id d); revert w; log_step.
Qed.

Lemma log_order_update s id f : respects log_extends (order_update s id f).
Proof.
  unfold order_update. intros w.
  destruct (orders (view s w) !! id); revert w; log_step.
Qed.

Lemma log_decrementStock id q s :
  respects log_extends (ProductsService.decrementStock id q s).
Proof.
  unfold ProductsService.decrementStock, bind, product_findOneAndUpdate_dec.
  intros w. destruct (products (view s w) !! id) as [p|];
    [destruct (decide (q <= stock p))|]; revert w; log_step.
Qed.

Lemma log_validate_stock productMap lines :
  respects log_extends (validate_stock productMap lines).
Proof.
  induction lines as [|line lines IH]; simpl; [apply respects_ret; apply _|].
  destruct (productMap !! dto_productId line) as [p|];
    [|apply respects_throw; apply _].
  destruct (decide (stock p < dto_quantity line));
    [apply respects_throw; apply _ | exact IH].
Qed.

Lemma log_create_subOrders parent s entries acc :
  respects log_extends (create_subOrders parent s entries acc).
Proof.
  revert acc. induction entries as [|[v its] rest IH]; intros acc; simpl;
    [apply respects_ret; apply _|].
  apply respects_bind; [apply _ | apply log_new_ObjectId|]. intros id.
  apply respects_bind; [apply _ | apply log_subOrder_insert|]. intros _. apply IH.
Qed.

Lemma log_apply_stockUpdates s updates :
  respects log_extends (apply_stockUpdates s updates).
Proof.
  induction updates as [|u rest IH]; simpl; [apply respects_ret; apply _|].
  apply respects_bind; [apply _ | apply log_decrementStock|]. intros _. exact IH.
Qed.

Lemma log_commitTransaction s : respects log_extends (commitTransaction s).
Proof. unfold commitTransaction. intros w. destruct (txn w); revert w; log_step. Qed.

Lemma log_abortTransaction s : respects log_extends (abortTransaction s).
Proof. log_step. Qed.

Lemma log_endSession s : respects log_extends (endSession s).
Proof. log_step. Qed.

Lemma log_create_catch s e : respects log_extends (create_catch s e).
Proof.
  unfold create_catch.
  apply respects_bind; [apply _ | apply log_abortTransaction|]. intros _.
  destruct e; apply respects_throw; apply _.
Qed.

Lemma log_create_with dto user s found :
  respects log_extends (create_with dto user s found).
Proof.
  unfold create_with.
  destruct (decide _); [apply respects_throw; apply _|].
  apply respects_bind; [apply _ | apply log_validate_stock|]. intros _.
  apply respects_bind; [apply _ | apply log_new_ObjectId|]. intros oid.
  apply respects_bind; [apply _ | apply log_order_insert|]. intros _.
  apply respects_bind; [apply _ | apply log_create_subOrders|]. intros ids.
  apply respects_bind;
    [apply _ | apply respects_order_save; [apply _ | apply log_order_update] |].
  intros _.
  apply respects_bind; [apply _ | apply log_apply_stockUpdates|]. intros _.
  apply respects_bind; [apply _ | apply log_commitTransaction|]. intros _.
  apply respects_ret; apply _.
Qed.

(** ** Order placement: what is checked before storage is touched *)

(** C5, as the code has it.  [create] refuses a call before any
    statement is sent to a collection only for a caller who is not a
    customer ([Forbidden], the world untouched).  For a customer the
    products are read first whatever the cart, and the shape of the cart
    is not examined: an empty cart, when the id drawn for the order is
    free, is committed as an order without items, of total 0 and without
    sub-orders. *)
Theorem create_checks_role_only (dto : CreateOrderDto) (user : Doc User) (w : World) :
  (role (fields user) <> CUSTOMER ->
   create dto user w = (Throw (ForbiddenException OnlyCustomersCanCreateOrders), w))
  /\ (role (fields user) = CUSTOMER ->
      exists rest,
        accesses (create dto user w).2 = accesses w ++ Read Products :: rest)
  /\ (role (fields user) = CUSTOMER -> dto_items dto = [] ->
      orders (committed w) !! oid_source w (oid_issued w) = None ->
      exists w',
        let order :=
          {| customerId := _id user; items := []; totalAmount := 0%float;
             status := PENDING; subOrders := [] |} in
        create dto user w = (Return (oid_source w (oid_issued w), order), w')
        /\ orders (committed w')
           = <[oid_source w (oid_issued w) := order]> (orders (committed w))
        /\ products (committed w') = products (committed w)
        /\ subOrderDocs (committed w') = subOrderDocs (committed w)).
Proof.
  split; [|split].
  - intros Hrole. unfold create. rewrite decide_True by exact Hrole. reflexivity.
  - intros Hrole. unfold create. rewrite decide_False by (intros H; apply H; exact Hrole).
    unfold bind at 1. unfold startSession, ret.
    unfold bind at 1. unfold startTransaction.
    set (w0 := set_txn (Some (committed w)) w).
    set (found := filter (fun d : Doc Product =>
                            _id d ∈ map cast (map dto_productId (dto_items dto))
                            ∧ 0 < stock (fields d))
                         (map_to_list (products (committed w0)))).
    set (w1 := record_access (Read Products) w0).
    assert (Hsame :
      finally (try_catch (create_try dto user Session) (create_catch Session))
              (endSession Session) w0
      = finally (try_catch (create_with dto user Session found) (create_catch Session))
                (endSession Session) w1) by reflexivity.
    rewrite Hsame.
    destruct (finally _ _ w1) as [r w'] eqn:Hrun.
    assert (Hlog : respects log_extends
              (finally (try_catch (create_with dto user Session found)
                                  (create_catch Session))
                       (endSession Session))).
    { apply respects_finally; [apply _ | | apply log_endSession].
      apply respects_try_catch; [apply _ | apply log_create_with|].
      intros e. apply log_create_catch. }
    destruct (Hlog _ _ _ Hrun) as [rest Hrest].
    exists rest. simpl. rewrite Hrest. unfold w1. simpl. rewrite <- app_assoc.
    reflexivity.
  - intros Hrole Hempty Hfree. destruct dto as [lines]. simpl in Hempty. subst lines.
    unfold create. rewrite decide_False by (intros H; apply H; exact Hrole).
    unfold bind at 1. unfold startSession, ret.
    unfold bind at 1. unfold startTransaction.
    unfold finally, try_catch, create_try, bind at 1.
    unfold ProductsService.getProductsInStock, product_find_in_stock.
    unfold create_with. simpl.
    unfold bind, new_ObjectId, order_insert. simpl. rewrite Hfree. simpl.
    unfold order_save. simpl.
    eexists. split; [reflexivity|]. simpl.
    split; [reflexivity|]. split; reflexivity.
Qed.

(** ** Who writes [stock] *)

Lemma products_set_view_orders s f w :
  products (committed (set_view s (with_orders f (view s w)) w)) = products (committed w).
Proof. unfold set_view, view. destruct s as [[]|], (txn w); reflexivity. Qed.

Ltac products_step :=
  intros w r w'; intros [= <- <-]; unfold same_products;
  first [ reflexivity | apply products_set_view_orders ].

Lemma products_order_exists id : respects same_products (order_exists id).
Proof. products_step. Qed.

Lemma products_order_findById id : respects same_products (order_findById id).
Proof. products_step. Qed.

Lemma products_populate ids : respects same_products (populate_subOrders ids).
Proof. products_step. Qed.

Lemma products_subOrder_findById id : respects same_products (subOrder_findById id).
Proof. products_step. Qed.

Lemma products_subOrder_find parent :
  respects same_products (subOrder_find_by_parent parent).
Proof. products_step. Qed.

Lemma products_subOrder_updateMany ids st :
  respects same_products (subOrder_updateMany ids st).
Proof. products_step. Qed.

Lemma products_order_update s id f : respects same_products (order_update s id f).
Proof.
  unfold order_update. intros w.
  destruct (orders (view s w) !! id); revert w; products_step.
Qed.

Lemma products_subOrder_update id f : respects same_products (subOrder_update id f).
Proof.
  unfold subOrder_update. intros w.
  destruct (subOrderDocs (committed w) !! id); revert w; products_step.
Qed.

(** [updateOrderStatus] respects whatever its statements respect. *)
Section UpdateOrderStatus.
Context (R : relation World) `{!PreOrder R}.
Hypothesis R_order_exists : forall id, respects R (order_exists id).
Hypothesis R_order_findById : forall id, respects R (order_findById id).
Hypothesis R_populate : forall ids, respects R (populate_subOrders ids).
Hypothesis R_subOrder_findById : forall id, respects R (subOrder_findById id).
Hypothesis R_subOrder_find : forall parent, respects R (subOrder_find_by_parent parent).
Hypothesis R_order_update :
  forall st id, respects R (order_update None id (set_status st)).
Hypothesis R_subOrder_update :
  forall st id, respects R (subOrder_update id (set_so_status st)).
Hypothesis R_subOrder_updateMany :
  forall st ids, respects R (subOrder_updateMany ids st).

Lemma respects_updateOrderStatus id (status : StatusInput) user :
  respects R (updateOrderStatus id status user).
Proof.
  unfold updateOrderStatus.
  apply respects_try_catch; [apply _ | |].
  - apply respects_bind; [apply _ | apply R_order_exists|].
    intros [|].
    + unfold update_parent.
      apply respects_bind; [apply _ | apply R_order_findById|].
      intros [order|]; [|apply respects_throw; apply _].
      apply respects_bind; [apply _ | apply R_populate|]. intros populated.
      destruct (decide _); [apply respects_throw; apply _|].
      apply respects_bind; [apply _ | apply respects_validated; apply _|]. intros st.
      apply respects_bind;
        [apply _ | apply respects_order_save; [apply _ | apply R_order_update] |].
      intros _.
      apply respects_bind; [apply _ | | intros _; apply respects_ret; apply _].
      destruct (decide _); [apply R_subOrder_updateMany|].
      apply respects_ret; apply _.
    + unfold update_child.
      apply respects_bind; [apply _ | apply R_subOrder_findById|].
      intros [subOrder|]; [|apply respects_throw; apply _].
      destruct (decide _); [apply respects_throw; apply _|].
      apply respects_bind; [apply _ | apply respects_validated; apply _|]. intros st.
      apply respects_bind;
        [apply _ | apply respects_subOrder_save; [apply _ | apply R_subOrder_update] |].
      intros _.
      apply respects_bind; [apply _ | apply R_order_findById|].
      intros [parentOrder|]; [|apply respects_throw; apply _].
      apply respects_bind; [apply _ | apply R_subOrder_find|]. intros all.
      apply respects_bind; [apply _ | | intros _; apply respects_ret; apply _].
      destruct (decide _);
        [apply respects_order_save; [apply _ | apply R_order_update]|].
      destruct (decide _); [|apply respects_ret; apply _].
      destruct (forallb _ _);
        [apply respects_order_save; [apply _ | apply R_order_update]|].
      apply respects_ret; apply _.
  - intros e. unfold updateOrderStatus_catch.
    destruct e; apply respects_throw; apply _.
Qed.

End UpdateOrderStatus.

Lemma products_updateOrderStatus id st user :
  respects same_products (updateOrderStatus id st user).
Proof.
  apply respects_updateOrderStatus; first [apply _ | intros].
  - apply products_order_exists.
  - apply products_order_findById.
  - apply products_populate.
  - apply products_subOrder_findById.
  - apply products_subOrder_find.
  - apply products_order_update.
  - apply products_subOrder_update.
  - apply products_subOrder_updateMany.
Qed.

(** C6, as the code has it.  Within [OrdersService] the stock is written
    through [decrementStock] only: [updateOrderStatus] never changes the
    products, a [create] that throws leaves them as they were and a
    [create] that returns leaves exactly the decrements of its cart lines.
    In [ProductsService] two more operations write it:
    [update], by the owning vendor or an admin, stores the [stock] of the
    update DTO as it is, and [updateStock] subtracts the quantity it is
    given after a separate read. *)
Theorem stock_writers :
  (forall id st user, respects same_products (updateOrderStatus id st user))
  /\ (forall dto user w e w',
        create dto user w = (Throw e, w') ->
        products (committed w') = products (committed w))
  /\ (forall dto user w order w',
        create dto user w = (Return order, w') ->
        products (committed w')
        = foldl decremented (products (committed w))
                (map stock_update_of (dto_items dto)))
  /\ (forall id dto (user : Doc User) w p,
        products (committed w) !! id = Some p ->
        role (fields user) = ADMIN
        \/ (role (fields user) = VENDOR /\ product_vendorId p = _id user) ->
        exists w',
          ProductsService.update id dto user w = (Return (id, apply_update dto p), w')
          /\ products (committed w') = <[id := apply_update dto p]> (products (committed w))
          /\ stock <$> products (committed w') !! id
             = Some (default (stock p) (upd_stock dto)))
  /\ (forall id q w p,
        products (committed w) !! id = Some p -> q <= stock p ->
        exists w',
          ProductsService.updateStock id q w
            = (Return (id, set_stock (stock p - q) p), w')
          /\ products (committed w')
             = <[id := set_stock (stock p - q) p]> (products (committed w))).
Proof.
  split; [exact products_updateOrderStatus|].
  split.
  { intros dto user w e w'. unfold create.
    destruct (decide (role (fields user) ≠ CUSTOMER)); [intros [= <- <-]; done|].
    unfold bind at 1. unfold startSession, ret.
    unfold bind at 1. unfold startTransaction.
    intros Hrun. apply create_guarded_throw in Hrun as [-> _]; [done | simpl; eauto]. }
  split.
  { intros dto user w order w' Hrun.
    destruct (create_success_inv dto user w w' order Hrun)
      as (_ & _ & _ & _ & _ & _ & _ & Hp & _). exact Hp. }
  split.
  - intros id dto user w p Hp Hmay.
    unfold ProductsService.update, ProductsService.findOne, bind, product_findById.
    rewrite Hp. simpl. unfold _id, fields in *. simpl in *.
    rewrite decide_False by (intros [Hv Hne]; destruct Hmay as [Ha | [_ Heq]]; congruence).
    rewrite decide_False by (intros [Hna Hnv]; destruct Hmay as [Ha | [Hv _]]; congruence).
    unfold product_findByIdAndUpdate. simpl. rewrite Hp. simpl.
    eexists. split; [reflexivity|]. simpl. split; [reflexivity|].
    rewrite lookup_insert_eq. reflexivity.
  - intros id q w p Hp Hq.
    unfold ProductsService.updateStock, bind, product_findById.
    rewrite Hp. simpl. unfold _id, fields. simpl.
    rewrite decide_False by lia.
    unfold product_save. destruct (decide (stock p - q = stock p)) as [Heq | Hne].
    + rewrite bool_decide_eq_false_2 by (intros H; apply H; exact Heq).
      eexists. split; [reflexivity|].
      rewrite (set_stock_same _ p Heq), insert_id by exact Hp. reflexivity.
    + rewrite bool_decide_eq_true_2 by exact Hne.
      eexists. split; reflexivity.
Qed.

(** ** States the operations can reach *)

#[global] Instance same_links_preorder : PreOrder same_links.
Proof.
  split.
  - intros w. split; reflexivity.
  - intros w1 w2 w3 [Ho12 Hs12] [Ho23 Hs23]. split; intros k.
    + rewrite Ho23. apply Ho12.
    + rewrite Hs23. apply Hs12.
Qed.

Ltac links_read := intros w r w'; intros [= <- <-]; split; reflexivity.

Lemma links_order_exists id : respects same_links (order_exists id).
Proof. links_read. Qed.

Lemma links_order_findById id : respects same_links (order_findById id).
Proof. links_read. Qed.

Lemma links_populate ids : respects same_links (populate_subOrders ids).
Proof. links_read. Qed.

Lemma links_subOrder_findById id : respects same_links (subOrder_findById id).
Proof. links_read. Qed.

Lemma links_subOrder_find parent : respects same_links (subOrder_find_by_parent parent).
Proof. links_read. Qed.

Lemma links_order_update id st : respects same_links (order_update None id (set_status st)).
Proof.
  intros w r w'. unfold order_update. simpl.
  destruct (orders (committed w) !! id) as [o|] eqn:Ho; intros [= <- <-];
    [|split; reflexivity].
  split; [|reflexivity]. intros k. simpl.
  destruct (decide (id = k)) as [<- | Hne].
  - rewrite lookup_insert_eq, Ho. reflexivity.
  - rewrite lookup_insert_ne by exact Hne. reflexivity.
Qed.

Lemma links_subOrder_update id st :
  respects same_links (subOrder_update id (set_so_status st)).
Proof.
  intros w r w'. unfold subOrder_update.
  destruct (subOrderDocs (committed w) !! id) as [s|] eqn:Hs; intros [= <- <-];
    [|split; reflexivity].
  split; [reflexivity|]. intros k. simpl.
  destruct (decide (id = k)) as [<- | Hne].
  - rewrite lookup_insert_eq, Hs. reflexivity.
  - rewrite lookup_insert_ne by exact Hne. reflexivity.
Qed.

Lemma links_subOrder_updateMany ids st :
  respects same_links (subOrder_updateMany ids st).
Proof.
  intros w r w'. intros [= <- <-]. split; [reflexivity|]. intros k. simpl.
  rewrite map_lookup_imap.
  destruct (subOrderDocs (committed w) !! k) as [s|]; [|reflexivity].
  simpl. destruct (decide (k ∈ ids)); reflexivity.
Qed.

Lemma links_updateOrderStatus id st user :
  respects same_links (updateOrderStatus id st user).
Proof.
  apply respects_updateOrderStatus; first [apply _ | intros].
  - apply links_order_exists.
  - apply links_order_findById.
  - apply links_populate.
  - apply links_subOrder_findById.
  - apply links_subOrder_find.
  - apply links_order_update.
  - apply links_subOrder_update.
  - apply links_subOrder_updateMany.
Qed.

Lemma linked_same_links w w' :
  same_links w w' -> linked (committed w) -> linked (committed w').
Proof.
  intros [Ho Hs] Hl sid s' Hsid.
  pose proof (Hs sid) as Hp. rewrite Hsid in Hp. simpl in Hp.
  destruct (subOrderDocs (committed w) !! sid) as [s|] eqn:E; [|discriminate].
  injection Hp as Hp.
  destruct (Hl sid s E) as (o & Hpar & Hin).
  pose proof (Ho (parentOrderId s')) as Hq. rewrite Hp, Hpar in Hq. simpl in Hq.
  destruct (orders (committed w') !! parentOrderId s) as [o'|] eqn:E';
    [|discriminate].
  injection Hq as Hq. exists o'. rewrite Hp. split; [exact E' | rewrite Hq; exact Hin].
Qed.

(** No store is linked more trivially than the empty one. *)
Lemma linked_empty : linked {| products := ∅; orders := ∅; subOrderDocs := ∅ |}.
Proof. intros sid s Hs. simpl in Hs. rewrite lookup_empty in Hs. discriminate. Qed.

(** X24. [updateOrderStatus] keeps the collections linked, whatever it
    returns: when every stored sub-order has its parent stored and is in
    the parent's [subOrders], the same holds afterwards. *)
Lemma updateOrderStatus_keeps_linked id st user w :
  linked (committed w) -> linked (committed (updateOrderStatus id st user w).2).
Proof.
  destruct (updateOrderStatus id st user w) as [r w'] eqn:Hrun.
  apply linked_same_links. exact (links_updateOrderStatus id st user w r w' Hrun).
Qed.

(** X23. [create] keeps the collections linked, whatever it returns:
    when every stored sub-order has its parent stored and is in the
    parent's [subOrders], the same holds afterwards. *)
Lemma create_keeps_linked dto user w :
  linked (committed w) -> linked (committed (create dto user w).2).
Proof.
  intros Hl. destruct (create dto user w) as [[order|e] w'] eqn:Hrun; simpl.
  - destruct (create_success_inv dto user w w' order Hrun)
      as (_ & _ & _ & Hfree & Ho & _ & _ & _ & _ & Honly & _).
    intros sid s Hs. rewrite Ho.
    destruct (Honly sid s Hs) as [Hold | [Hin Hpar]].
    + destruct (Hl sid s Hold) as (o & Hpo & Hsid).
      exists o. split; [|exact Hsid].
      rewrite lookup_insert_ne; [exact Hpo|]. intros Heq. rewrite <- Heq in Hpo.
      congruence.
    + exists (fields order). rewrite Hpar, lookup_insert_eq. done.
  - unfold create in Hrun.
    destruct (decide (role (fields user) ≠ CUSTOMER)).
    + injection Hrun as <- <-. exact Hl.
    + unfold bind at 1 in Hrun. unfold startSession, ret in Hrun.
      unfold bind at 1 in Hrun. unfold startTransaction in Hrun.
      apply create_guarded_throw in Hrun as [-> _]; [exact Hl | simpl; eauto].
Qed.

(** X25. [create] keeps all stocks non-negative, whatever it returns. *)
Lemma create_keeps_stock_nonneg dto user w :
  stock_nonneg (products (committed w)) ->
  stock_nonneg (products (committed (create dto user w).2)).
Proof.
  intros Hnn. destruct (create dto user w) as [[order|e] w'] eqn:Hrun; simpl.
  - destruct (create_success_inv dto user w w' order Hrun)
      as (_ & _ & _ & _ & _ & _ & _ & _ & _ & _ & Hkeep).
    exact (Hkeep Hnn).
  - unfold create in Hrun.
    destruct (decide (role (fields user) ≠ CUSTOMER)).
    + injection Hrun as <- <-. exact Hnn.
    + unfold bind at 1 in Hrun. unfold startSession, ret in Hrun.
      unfold bind at 1 in Hrun. unfold startTransaction in Hrun.
      apply create_guarded_throw in Hrun as [-> _]; [exact Hnn | simpl; eauto].
Qed.

(** In linked collections a sub-order has its parent record, and the
    reference list of an order holds all the sub-orders that name it. *)
Lemma linked_parent_present d sid s :
  linked d -> subOrderDocs d !! sid = Some s ->
  exists parent, orders d !! parentOrderId s = Some parent.
Proof. intros Hl Hs. destruct (Hl sid s Hs) as (o & Ho & _). eauto. Qed.

Lemma linked_references_complete d id order :
  linked d -> orders d !! id = Some order ->
  forall sid s, subOrderDocs d !! sid = Some s -> parentOrderId s = id ->
    sid ∈ subOrders order.
Proof.
  intros Hl Ho sid s Hs Hp. destruct (Hl sid s Hs) as (o & Ho' & Hin).
  rewrite Hp, Ho in Ho'. injection Ho' as <-. exact Hin.
Qed.

(** * Concrete runs *)

(** The scenario of the specification, with a third product: total
    2·10 + 1·20 + 3·7, sub-orders of 41 for vendor 1 and 20 for vendor 2,
    stocks 3, 0 and 1. *)
Example create_cart_abc :
  create cart_abc customer (world_of shop) = (Return order_abc, placed_abc)
  /\ subOrderDocs (committed placed_abc) !! 101%N
     = Some {| parentOrderId := 100%N; so_vendorId := 1%N;
               so_items := [item 10 "A" 10 2 1; item 12 "C" 7 3 1];
               amount := 41%float; so_status := PENDING |}
  /\ subOrderDocs (committed placed_abc) !! 102%N
     = Some {| parentOrderId := 100%N; so_vendorId := 2%N;
               so_items := [item 11 "B" 20 1 2];
               amount := 20%float; so_status := PENDING |}
  /\ stock <$> products (committed placed_abc) !! 10%N = Some 3
  /\ stock <$> products (committed placed_abc) !! 11%N = Some 0
  /\ stock <$> products (committed placed_abc) !! 12%N = Some 1.
Proof. vm_compute. repeat split; reflexivity. Qed.

(** The reservation of the third line fails after an order, two
    sub-orders and two decrements were written in the transaction. *)
Example create_cart_too_much_a :
  (create cart_too_much_a customer (world_of shop)).1
  = Throw (BadRequestException (ProductNotFoundOrInsufficientStock 10%N))
  /\ accesses (create cart_too_much_a customer (world_of shop)).2
     = [Read Products; Write Orders; Write SubOrders; Write SubOrders; Write Orders;
        Write Products; Write Products; Write Products].
Proof. vm_compute. split; reflexivity. Qed.

Lemma create_atomic_witness :
  committed (create cart_too_much_a customer (world_of shop)).2 = shop
  /\ (txn (world_of shop) = None ->
      txn (create cart_too_much_a customer (world_of shop)).2 = None).
Proof.
  apply (create_atomic cart_too_much_a customer (world_of shop) _
           (BadRequestException (ProductNotFoundOrInsufficientStock 10%N))).
  vm_compute. reflexivity.
Defined.



Lemma create_partition_witness :
  exists subs : list SubOrder,
    Forall2 (fun id so => subOrderDocs (committed placed_abc) !! id = Some so)
            (subOrders (fields order_abc)) subs
    /\ Forall2 (fun line it =>
                  productId it = dto_productId line
                  /\ quantity it = dto_quantity line
                  /\ exists p, products shop !! cast (dto_productId line) = Some p
                       /\ vendorId it = product_vendorId p
                       /\ item_price it = price p
                       /\ name it = product_name p)
               (dto_items cart_abc) (items (fields order_abc))
    /\ map so_vendorId subs = first_occurrences (map vendorId (items (fields order_abc)))
    /\ NoDup (map so_vendorId subs)
    /\ Forall (fun so =>
                 so_items so = items_of_vendor (so_vendorId so) (items (fields order_abc)))
              subs
    /\ concat (map so_items subs) ≡ₚ items (fields order_abc)
    /\ orders (committed placed_abc) !! 100%N = Some (fields order_abc)
    /\ Forall (fun so => parentOrderId so = 100%N) subs
    /\ length [101%N; 102%N] = length subs.
Proof.
  apply (create_partition cart_abc customer (world_of shop) placed_abc order_abc).
  vm_compute. reflexivity.
Defined.

(** C8. A cart for which [create] names a product that is stored and in
    stock.  Product A is stored with 5 units in stock and product 13 does
    not exist; the cart asks for product 13 and for A, the id of A written
    in upper case.  The query finds A, the [Map] has it under its id in
    lower case, and [create] names both strings as not found or out of
    stock; the committed data is unchanged. *)
Lemma create_reports_stocked_product_missing :
  stock <$> products shop !! cast "00000000000000000000000A" = Some 5
  /\ products shop !! cast "00000000000000000000000d" = None
  /\ (create cart_upper_a customer (world_of shop)).1
     = Throw (BadRequestException
                (ProductsNotFoundOrOutOfStock
                   ["00000000000000000000000d"%string;
                    "00000000000000000000000A"%string]))
  /\ committed (create cart_upper_a customer (world_of shop)).2 = shop.
Proof. vm_compute. repeat split; reflexivity. Qed.

Lemma decrementStock_conditional_witness :
  (exists w',
     ProductsService.decrementStock 10%N 2 None (world_of shop)
       = (Return (10%N, {| product_name := "A"; price := 10%float; stock := 3;
                           category := "tools"; product_vendorId := 1%N |}), w')
     /\ products (committed w') !! 10%N
        = Some {| product_name := "A"; price := 10%float; stock := 3;
                  category := "tools"; product_vendorId := 1%N |}
     /\ products (committed w') !! 11%N = Some productB
     /\ 0 <= 3)
  /\ (exists w',
        ProductsService.decrementStock 10%N 6 None (world_of shop)
          = (Throw (BadRequestException (ProductNotFoundOrInsufficientStock 10%N)), w')
        /\ committed w' = shop).
Proof.
  split.
  - destruct (decrementStock_conditional 10%N 2 None (world_of shop)) as (Hok & _ & _).
    destruct (Hok productA) as (w' & Hrun & Hp & Hnn & _ & Hother);
      [vm_compute; reflexivity | vm_compute; discriminate |].
    change (view None w') with (committed w') in Hp, Hother.
    exists w'. split; [exact Hrun|]. split; [rewrite Hp; reflexivity|].
    split; [rewrite Hother by discriminate; reflexivity | exact Hnn].
  - destruct (decrementStock_conditional 10%N 6 None (world_of shop)) as (_ & Hfail & _).
    destruct Hfail as (w' & Hrun & _ & Hc & _).
    + right. exists productA. split; [vm_compute; reflexivity | vm_compute; reflexivity].
    + exists w'. split; [exact Hrun | exact Hc].
Defined.

(** Sub-orders shipped, shipped, pending: the vendor of the third ships
    it and the parent becomes shipped. *)
Lemma updateOrderStatus_subOrder_witness :
  exists w',
    updateOrderStatus 203%N SHIPPED vendor2 (world_of warehouse)
      = (Return (UpdatedSubOrder (203%N, sub 200 2 SHIPPED)), w')
    /\ subOrderDocs (committed w') !! 203%N = Some (sub 200 2 SHIPPED)
    /\ status <$> orders (committed w') !! 200%N = Some SHIPPED.
Proof.
  destruct (updateOrderStatus_subOrder 203%N SHIPPED vendor2 (world_of warehouse)
              (sub 200 2 PENDING) parent200)
    as (w' & Hrun & Hsub & _ & _ & Hmany).
  - vm_compute. reflexivity.
  - vm_compute. reflexivity.
  - right. split; reflexivity.
  - vm_compute. reflexivity.
  - exists w'. split; [exact Hrun|]. split; [rewrite Hsub; apply lookup_insert_eq|].
    assert (Hw : w' = (updateOrderStatus 203%N SHIPPED vendor2 (world_of warehouse)).2)
      by (rewrite Hrun; reflexivity).
    rewrite Hw. vm_compute. reflexivity.
Defined.

(** The same sub-order cancelled instead: the parent keeps its status. *)
Example updateOrderStatus_not_unanimous :
  status <$> orders (committed
                       (updateOrderStatus 203%N CANCELLED vendor2
                          (world_of warehouse)).2) !! 200%N
  = Some PROCESSING.
Proof. vm_compute. reflexivity. Qed.

Lemma updateOrderStatus_parent_witness :
  (exists w',
     updateOrderStatus 200%N CANCELLED vendor1 (world_of warehouse)
       = (Throw (ForbiddenException VendorsOnlyOwnSubOrders), w')
     /\ committed w' = warehouse)
  /\ (exists w',
        (updateOrderStatus 200%N CANCELLED admin (world_of warehouse)).2 = w'
        /\ status <$> orders (committed w') !! 200%N = Some CANCELLED
        /\ all_have_status 200%N CANCELLED (subOrderDocs (committed w'))).
Proof.
  split.
  - destruct (updateOrderStatus_parent 200%N CANCELLED vendor1 (world_of warehouse)
                parent200) as [Hvendor _]; [vm_compute; reflexivity|].
    apply Hvendor. reflexivity.
  - destruct (updateOrderStatus_parent 200%N CANCELLED admin (world_of warehouse)
                parent200) as [_ Hadmin]; [vm_compute; reflexivity|].
    destruct Hadmin as (w' & populated & Hrun & Ho & _ & _ & Hall); [reflexivity|].
    exists w'. split; [rewrite Hrun; reflexivity|].
    split; [rewrite Ho; rewrite lookup_insert_eq; reflexivity|].
    apply Hall.
    change (map_Forall (fun sid s => parentOrderId s = 200%N ->
                                     sid ∈ subOrders parent200)
                       (subOrderDocs (committed (world_of warehouse)))).
    apply (bool_decide_unpack _). vm_compute. exact I.
Defined.

Lemma updateOrderStatus_missing_parent_witness :
  exists w',
    updateOrderStatus 301%N SHIPPED vendor1 (world_of warehouse)
      = (Throw (NotFoundException (ParentOrderNotFound 301%N)), w')
    /\ subOrderDocs (committed w') !! 301%N = Some (sub 300 1 SHIPPED).
Proof.
  destruct (updateOrderStatus_missing_parent 301%N SHIPPED vendor1 (world_of warehouse)
              (sub 300 1 PENDING)) as (w' & Hrun & Hsub & _).
  - vm_compute. reflexivity.
  - vm_compute. reflexivity.
  - intros _. reflexivity.
  - vm_compute. reflexivity.
  - exists w'. split; [exact Hrun | exact Hsub].
Defined.

(** C5 as stated fails: the cart with two lines for product A is
    malformed in the sense of the specification, and [create] does not
    reject it (it returns an order, after reading and writing). *)
Lemma create_accepts_duplicate_lines :
  malformed_cart cart_twice_a
  /\ ~ rejected_before_storage (create cart_twice_a customer) (world_of shop)
  /\ (exists order,
        (create cart_twice_a customer (world_of shop)).1 = Return order
        /\ length (items (fields order)) = 2%nat)
  /\ stock <$> products (committed (create cart_twice_a customer (world_of shop)).2)
               !! 10%N = Some 0.
Proof.
  split.
  { right. simpl. intros Hnd. apply NoDup_cons in Hnd as [Hin _]. apply Hin. left. }
  split.
  { intros (e & w' & Hrun & _). vm_compute in Hrun. discriminate. }
  split; [eexists; split; vm_compute; reflexivity|].
  vm_compute. reflexivity.
Qed.

Lemma create_checks_role_only_witness :
  create {| dto_items := [] |} admin (world_of shop)
    = (Throw (ForbiddenException OnlyCustomersCanCreateOrders), world_of shop)
  /\ (exists rest,
        accesses (create cart_twice_a customer (world_of shop)).2
        = Read Products :: rest)
  /\ (exists w',
        create {| dto_items := [] |} customer (world_of shop)
          = (Return (100%N, {| customerId := 50%N; items := []; totalAmount := 0;
                               status := PENDING; subOrders := [] |}), w')
        /\ products (committed w') = products shop).
Proof.
  split; [|split].
  - destruct (create_checks_role_only {| dto_items := [] |} admin (world_of shop))
      as (Hrole & _ & _).
    apply Hrole. discriminate.
  - destruct (create_checks_role_only cart_twice_a customer (world_of shop))
      as (_ & Hread & _).
    apply Hread. reflexivity.
  - destruct (create_checks_role_only {| dto_items := [] |} customer (world_of shop))
      as (_ & _ & Hempty).
    destruct Hempty as (w' & Hrun & _ & Hp & _);
      [reflexivity | reflexivity | vm_compute; reflexivity |].
    exists w'. split; [exact Hrun | exact Hp].
Defined.

(** C6 as stated fails: the vendor of product A sets its stock from 5 to
    7 through [ProductsService.update]. *)
Lemma update_writes_stock :
  ~ preserves_stock (ProductsService.update 10%N restock vendor1)
  /\ stock <$> products (committed
                           (ProductsService.update 10%N restock vendor1
                              (world_of shop)).2) !! 10%N = Some 7
  /\ stock <$> products (committed (world_of shop)) !! 10%N = Some 5.
Proof.
  split; [|split; vm_compute; reflexivity].
  intros H. specialize (H (world_of shop) 10%N). vm_compute in H. discriminate.
Qed.

Lemma stock_writers_witness :
  (exists w',
     ProductsService.update 10%N restock vendor1 (world_of shop)
       = (Return (10%N, set_stock 7 productA), w')
     /\ stock <$> products (committed w') !! 10%N = Some 7)
  /\ products (committed placed_abc)
     = foldl decremented (products shop)
             [stock_update_of (line 10 2); stock_update_of (line 11 1);
              stock_update_of (line 12 3)].
Proof.
  destruct stock_writers as (_ & _ & Hcreate & Hupdate & _).
  split.
  - destruct (Hupdate 10%N restock vendor1 (world_of shop) productA)
      as (w' & Hrun & _ & Hstock).
    + vm_compute. reflexivity.
    + right. split; reflexivity.
    + exists w'. split; [exact Hrun | exact Hstock].
  - apply (Hcreate cart_abc customer (world_of shop) order_abc placed_abc).
    vm_compute. reflexivity.
Defined.

(** * Further properties *)

(** ** Order placement *)

Lemma missing_none (m : gmap ObjectId Product) (ids : list string) :
  Forall (available m) ids ->
  filter (fun id => snapshot_of m ids !! id = None) ids = [].
Proof.
  intros Hall. rewrite missingProducts_eq.
  induction Hall as [|id l Hid _ IH]; [reflexivity|].
  rewrite filter_cons. rewrite decide_False by tauto. exact IH.
Qed.

Lemma available_lines (m : gmap ObjectId Product) (lines : list OrderItemDto) :
  Forall (fun l => available m (dto_productId l)) lines ->
  Forall (available m) (map dto_productId lines).
Proof. intros H. apply Forall_fmap. exact H. Qed.

Lemma snapshot_of_available (m : gmap ObjectId Product) (ids : list string)
    (s : string) :
  s ∈ ids -> available m s -> snapshot_of m ids !! s = m !! cast s.
Proof.
  intros Hin [Hpr Hav]. unfold in_stock in Hav.
  destruct (m !! cast s) as [p|] eqn:E; [|done].
  apply snapshot_lookup. split; [done|]. split; [done|]. split; [|done].
  apply list_elem_of_fmap. exists s. done.
Qed.

(** The validation loop stops at the first line that asks for more than
    the stock, and changes nothing. *)
Lemma validate_stock_first_short productMap (before after : list OrderItemDto)
    (l : OrderItemDto) (p : Product) (w : World) :
  Forall (fun l' => exists p', productMap !! dto_productId l' = Some p'
                               /\ dto_quantity l' <= stock p') before ->
  productMap !! dto_productId l = Some p ->
  stock p < dto_quantity l ->
  validate_stock productMap (before ++ l :: after) w
  = (Throw (BadRequestException
              (NotEnoughStock (product_name p) (stock p) (dto_quantity l))), w).
Proof.
  intros Hbefore Hp Hshort.
  induction Hbefore as [|l' before (p' & Hp' & Hq') _ IH]; simpl.
  - rewrite Hp. rewrite decide_True by exact Hshort. reflexivity.
  - rewrite Hp'. rewrite decide_False by lia. exact IH.
Qed.

(** X1. A customer's cart whose lines all name, by its printed id, a
    product in stock, with a line that asks for more than the stock of its
    product: [create] throws the "not enough stock" bad request of the
    first such line, naming the product, the stock and the quantity asked;
    only the products were read, nothing was written and no id was
    drawn. *)
Theorem create_not_enough_stock (dto : CreateOrderDto) (user : Doc User) (w : World)
    (before after : list OrderItemDto) (l : OrderItemDto) (p : Product) :
  role (fields user) = CUSTOMER ->
  dto_items dto = before ++ l :: after ->
  Forall (fun l' => available (products (committed w)) (dto_productId l'))
         (dto_items dto) ->
  Forall (line_fits (products (committed w))) before ->
  products (committed w) !! cast (dto_productId l) = Some p ->
  stock p < dto_quantity l ->
  exists w',
    create dto user w
      = (Throw (BadRequestException
                  (NotEnoughStock (product_name p) (stock p) (dto_quantity l))), w')
    /\ committed w' = committed w
    /\ txn w' = None
    /\ accesses w' = accesses w ++ [Read Products]
    /\ oid_issued w' = oid_issued w.
Proof.
  intros Hrole Hitems Hav Hfits Hp Hshort.
  set (m := products (committed w)) in *.
  set (ids := map dto_productId (dto_items dto)).
  assert (Hsnap : forall l', l' ∈ dto_items dto ->
                    snapshot_of m ids !! dto_productId l'
                    = m !! cast (dto_productId l')).
  { intros l' Hl'. apply snapshot_of_available.
    - apply list_elem_of_fmap. exists l'. done.
    - rewrite Forall_forall in Hav. apply Hav. exact Hl'. }
  unfold create. rewrite decide_False by (intros H; apply H; exact Hrole).
  unfold bind at 1. unfold startSession, ret.
  unfold bind at 1. unfold startTransaction.
  unfold finally, try_catch, create_try.
  unfold bind at 1. unfold ProductsService.getProductsInStock, product_find_in_stock.
  unfold create_with. cbn [committed set_txn].
  fold m. fold ids. fold (snapshot_of m ids).
  rewrite (missing_none m ids) by (apply available_lines; exact Hav).
  rewrite decide_False by (simpl; lia).
  unfold bind at 1. rewrite Hitems.
  rewrite (validate_stock_first_short _ before after l p).
  - unfold create_catch, bind, abortTransaction, throw, endSession. simpl.
    eexists. split; [reflexivity|]. simpl. done.
  - apply Forall_forall. intros l' Hl'.
    rewrite Forall_forall in Hfits.
    destruct (Hfits l' Hl') as (_ & p' & Hp' & _ & Hq').
    exists p'. split; [|exact Hq'].
    rewrite Hsnap; [exact Hp'|]. rewrite Hitems. apply elem_of_app. left. exact Hl'.
  - rewrite Hsnap; [exact Hp|]. rewrite Hitems. apply elem_of_app. right. left.
  - exact Hshort.
Qed.

Lemma set_stock_set_stock a b p : set_stock b (set_stock a p) = set_stock b p.
Proof. reflexivity. Qed.



(** X3. What a successful [create] leaves in the two order collections:
    the returned order is stored as returned under an id that was free, is
    pending and belongs to the caller; the sub-orders it refers to are
    stored, pending, and name it as parent; every order and sub-order
    that was stored before is stored unchanged, and nothing else was
    added. *)
Theorem create_stores_pending (dto : CreateOrderDto) (user : Doc User)
    (w w' : World) (order : Doc Order) :
  create dto user w = (Return order, w') ->
  orders (committed w) !! _id order = None
  /\ orders (committed w') = <[_id order := fields order]> (orders (committed w))
  /\ status (fields order) = PENDING
  /\ customerId (fields order) = _id user
  /\ Forall (fun sid => exists s,
               subOrderDocs (committed w') !! sid = Some s
               /\ so_status s = PENDING /\ parentOrderId s = _id order)
            (subOrders (fields order))
  /\ (forall k x, subOrderDocs (committed w) !! k = Some x ->
                  subOrderDocs (committed w') !! k = Some x)
  /\ (forall k x, subOrderDocs (committed w') !! k = Some x ->
                  subOrderDocs (committed w) !! k = Some x
                  \/ k ∈ subOrders (fields order)).
Proof.
  intros Hrun.
  destruct (create_success_inv dto user w w' order Hrun)
    as (_ & _ & Hfields & Hfree & Ho & Hsubs & Hold & _ & _ & Honly & _).
  split; [exact Hfree|]. split; [exact Ho|].
  split; [rewrite Hfields; reflexivity|]. split; [rewrite Hfields; reflexivity|].
  split; [|split; [exact Hold|]].
  - apply Forall_forall. intros sid Hsid.
    apply list_elem_of_lookup in Hsid as [i Hi].
    destruct (Forall2_lookup_l _ _ _ _ _ Hsubs Hi) as (entry & _ & Hs).
    eexists. split; [exact Hs|]. split; reflexivity.
  - intros k x Hk. destruct (Honly k x Hk) as [H | [H _]]; [left | right]; exact H.
Qed.

Lemma line_totals_of_lines (m : gmap ObjectId Product) (ids : list string)
    (lines : list OrderItemDto) :
  Forall (fun line => exists p, snapshot_of m ids !! dto_productId line = Some p
                                /\ dto_quantity line <= stock p) lines ->
  map line_total (omap (order_item_of (snapshot_of m ids)) lines)
  = map (fun line => (price_in m (cast (dto_productId line))
                      * number (dto_quantity line))%float) lines.
Proof.
  induction 1 as [|line lines (p & Hp & _) _ IH]; simpl; [reflexivity|].
  unfold order_item_of at 1. rewrite Hp. simpl. f_equal; [|exact IH].
  unfold line_total, price_in. simpl.
  apply snapshot_lookup in Hp as (_ & -> & _). reflexivity.
Qed.

(** X4. The [totalAmount] of the order a successful [create] returns is
    what the double-precision additions of the code give: the prices the
    products had when the order was placed, each times the quantity of its
    line, added to 0 one after the other in the order of the cart.  It is
    also the sum, made the same way, of price × quantity over the line
    items the order keeps. *)
Theorem create_total_over_lines (dto : CreateOrderDto) (user : Doc User)
    (w w' : World) (order : Doc Order) :
  create dto user w = (Return order, w') ->
  totalAmount (fields order)
  = foldl (fun sum line =>
             (sum + price_in (products (committed w)) (cast (dto_productId line))
                    * number (dto_quantity line))%float)
          0%float (dto_items dto)
  /\ totalAmount (fields order) = float_sum (map line_total (items (fields order))).
Proof.
  intros Hrun.
  destruct (create_success_inv dto user w w' order Hrun)
    as (_ & Hval & Hfields & _).
  set (productMap :=
         snapshot_of (products (committed w)) (map dto_productId (dto_items dto))) in *.
  destruct (grouping_result productMap (dto_items dto)) as (Hitems & _ & Htotal).
  rewrite Hfields. simpl. split; [|exact Htotal].
  rewrite Htotal, Hitems. unfold productMap.
  rewrite (line_totals_of_lines _ _ _ Hval).
  clear. unfold float_sum. generalize 0%float. generalize (dto_items dto) as lines.
  induction lines as [|line lines IH]; intros acc; simpl; [reflexivity|].
  apply IH.
Qed.

Lemma bind_Throw_inv {A B} (c : M A) (k : A -> M B) w e w' :
  bind c k w = (Throw e, w') ->
  c w = (Throw e, w')
  \/ exists a w1, c w = (Return a, w1) /\ k a w1 = (Throw e, w').
Proof.
  unfold bind. destruct (c w) as [[a|e1] w1]; [eauto|].
  intros [= <- <-]. left. reflexivity.
Qed.

Lemma validate_stock_throws productMap lines w e w' :
  Forall (fun l => is_Some (productMap !! dto_productId l)) lines ->
  validate_stock productMap lines w = (Throw e, w') ->
  exists n a r, e = BadRequestException (NotEnoughStock n a r).
Proof.
  induction 1 as [|l lines [p Hp] _ IH]; simpl; [discriminate|].
  rewrite Hp. destruct (decide (stock p < dto_quantity l)); [|exact IH].
  intros [= <- <-]. eauto.
Qed.

Lemma order_insert_throws s d w e w' :
  order_insert s d w = (Throw e, w') ->
  e = MongoServerError (DuplicateKey Orders (_id d)).
Proof.
  unfold order_insert. destruct (orders (view s w) !! _id d); [|discriminate].
  intros [= <- <-]. reflexivity.
Qed.

Lemma create_subOrders_throws parent s entries acc w e w' :
  create_subOrders parent s entries acc w = (Throw e, w') ->
  exists id, e = MongoServerError (DuplicateKey SubOrders id).
Proof.
  revert acc w. induction entries as [|[v its] rest IH]; intros acc w; simpl;
    [discriminate|].
  intros Hrun. apply bind_Throw_inv in Hrun as [Hrun | (id & w1 & _ & Hrun)];
    [discriminate|].
  apply bind_Throw_inv in Hrun as [Hrun | ([] & w2 & _ & Hrun)]; [|eauto].
  unfold subOrder_insert in Hrun.
  destruct (subOrderDocs (view (Some s) w1) !! _id (id, _)); [|discriminate].
  injection Hrun as <- <-. eauto.
Qed.

Lemma apply_stockUpdates_throws s updates w e w' :
  apply_stockUpdates s updates w = (Throw e, w') ->
  exists id, e = BadRequestException (ProductNotFoundOrInsufficientStock id).
Proof.
  revert w. induction updates as [|u rest IH]; intros w; simpl; [discriminate|].
  intros Hrun. apply bind_Throw_inv in Hrun as [Hrun | (doc & w1 & _ & Hrun)];
    [|eauto].
  unfold ProductsService.decrementStock, bind, product_findOneAndUpdate_dec in Hrun.
  destruct (products (view (Some s) w) !! cast (su_productId u)) as [p|];
    [destruct (decide (su_quantity u <= stock p))|];
    try discriminate; injection Hrun as <- <-; eauto.
Qed.

(** The errors the [try] block of [create] can end with. *)
Lemma create_try_throws dto user s w e w' d :
  txn w = Some d ->
  create_try dto user s w = (Throw e, w') ->
  (exists ids, e = BadRequestException (ProductsNotFoundOrOutOfStock ids))
  \/ (exists n a r, e = BadRequestException (NotEnoughStock n a r))
  \/ (exists id, e = BadRequestException (ProductNotFoundOrInsufficientStock id))
  \/ (exists c id, e = MongoServerError (DuplicateKey c id)).
Proof.
  intros Ht Hrun. unfold create_try in Hrun.
  apply bind_Throw_inv in Hrun as [Hrun | (found & wa & Hfind & Hrun)];
    [discriminate|].
  injection Hfind as <- <-. unfold create_with in Hrun.
  set (productMap := productMap_of _) in Hrun.
  destruct (decide _) as [|Hnone] in Hrun.
  { injection Hrun as <- <-. left. eauto. }
  assert (Hall : Forall (fun l => is_Some (productMap !! dto_productId l))
                        (dto_items dto)).
  { apply Forall_forall. intros l Hl. apply not_eq_None_Some. intros Hmiss.
    destruct (filter _ (map dto_productId (dto_items dto))) as [|x xs] eqn:E;
      [|simpl in Hnone; lia].
    apply (filter_nil_not_elem_of _ _ (dto_productId l) E Hmiss).
    apply list_elem_of_fmap. exists l. done. }
  apply bind_Throw_inv in Hrun as [Hrun | ([] & wb & Hval & Hrun)].
  { right. left. exact (validate_stock_throws _ _ _ _ _ Hall Hrun). }
  apply validate_stock_inv in Hval as [-> _].
  apply bind_Throw_inv in Hrun as [Hrun | (oid & wc & Hnew & Hrun)]; [discriminate|].
  apply new_ObjectId_inv in Hnew as [Htc _]. simpl in Htc. rewrite Ht in Htc.
  apply bind_Throw_inv in Hrun as [Hrun | ([] & wd & Hins & Hrun)].
  { apply order_insert_throws in Hrun as ->. right. right. right. eauto. }
  apply (order_insert_inv _ _ _ _ _ Htc) in Hins as (_ & Htd & _).
  apply bind_Throw_inv in Hrun as [Hrun | (ids & we & Hsubs & Hrun)].
  { apply create_subOrders_throws in Hrun as [id ->]. right. right. right. eauto. }
  apply (create_subOrders_inv _ _ _ _ _ _ _ _ Htd) in Hsubs
    as (de & new & Hte & _ & _ & _ & Hoe & _).
  apply bind_Throw_inv in Hrun as [Hrun | ([] & wf & _ & Hrun)].
  { exfalso. unfold order_save in Hrun.
    destruct (bool_decide (ids ≠ [])); [|discriminate].
    unfold order_update in Hrun. rewrite (view_open _ _ _ Hte) in Hrun.
    rewrite Hoe in Hrun. simpl in Hrun. rewrite lookup_insert_eq in Hrun.
    discriminate. }
  apply bind_Throw_inv in Hrun as [Hrun | ([] & wg & _ & Hrun)].
  { right. right. left. exact (apply_stockUpdates_throws _ _ _ _ _ Hrun). }
  exfalso. unfold bind, commitTransaction, ret in Hrun.
  destruct (txn wg); discriminate.
Qed.

(** X5. The errors [create] can end with: [Forbidden] for a caller who
    is not a customer; a bad request that lists the products not found or
    out of stock, or names a product short of stock at validation, or
    names the product whose reservation failed; an internal server error
    that wraps the duplicate key of an insert.  It never ends with
    [NotFound] nor with an error of the driver as such. *)
Theorem create_errors (dto : CreateOrderDto) (user : Doc User) (w w' : World)
    (e : exception) :
  create dto user w = (Throw e, w') ->
  e = ForbiddenException OnlyCustomersCanCreateOrders
  \/ (exists ids, e = BadRequestException (ProductsNotFoundOrOutOfStock ids))
  \/ (exists n a r, e = BadRequestException (NotEnoughStock n a r))
  \/ (exists id, e = BadRequestException (ProductNotFoundOrInsufficientStock id))
  \/ (exists c id,
        e = InternalServerErrorException (FailedToCreateOrder (DuplicateKey c id))).
Proof.
  unfold create.
  destruct (decide (role (fields user) ≠ CUSTOMER)).
  { intros [= <- <-]. left. reflexivity. }
  unfold bind at 1. unfold startSession, ret.
  unfold bind at 1. unfold startTransaction.
  unfold finally, try_catch, endSession.
  set (w0 := set_txn (Some (committed w)) w).
  destruct (create_try dto user Session w0) as [[order|err] w1] eqn:Htry;
    [discriminate|].
  apply (create_try_throws dto user Session w0 err w1 (committed w) eq_refl) in Htry.
  unfold create_catch, bind, abortTransaction, throw.
  destruct Htry as [[ids ->] | [(nm & a & r & ->) | [[id ->] | (c & id & ->)]]];
    intros [= <- <-]; eauto 10.
Qed.

Lemma bind_Return {A B} (c : M A) (k : A -> M B) w a w1 :
  c w = (Return a, w1) -> bind c k w = k a w1.
Proof. intros H. unfold bind. rewrite H. reflexivity. Qed.

Lemma oid_source_set_view s d w : oid_source (set_view s d w) = oid_source w.
Proof. unfold set_view. destruct s as [[]|], (txn w); reflexivity. Qed.

Lemma oid_issued_set_view s d w : oid_issued (set_view s d w) = oid_issued w.
Proof. unfold set_view. destruct s as [[]|], (txn w); reflexivity. Qed.

Lemma validate_stock_passes productMap lines w :
  Forall (fun l => exists p, productMap !! dto_productId l = Some p
                             /\ dto_quantity l <= stock p) lines ->
  validate_stock productMap lines w = (Return tt, w).
Proof.
  induction 1 as [|l lines (p & Hp & Hq) _ IH]; simpl; [reflexivity|].
  rewrite Hp. rewrite decide_False by lia. exact IH.
Qed.

(** The sub-order loop succeeds when the ids the driver hands out next
    are free and differ from one another. *)
Lemma create_subOrders_succeeds parent s entries acc w d :
  txn w = Some d ->
  (forall k, (k < length entries)%nat ->
             subOrderDocs d !! oid_source w (oid_issued w + k) = None) ->
  (forall i j, (i < j < length entries)%nat ->
               oid_source w (oid_issued w + i) ≠ oid_source w (oid_issued w + j)) ->
  exists ids w' d',
    create_subOrders parent s entries acc w = (Return ids, w')
    /\ txn w' = Some d'.
Proof.
  revert acc w d. induction entries as [|[v its] rest IH]; intros acc w d Ht Hfree Hinj.
  - simpl. exists acc, w, d. done.
  - simpl. unfold bind at 1. unfold new_ObjectId.
    set (id := oid_source w (oid_issued w)).
    set (w1 := {| committed := committed w; txn := txn w; accesses := accesses w;
                  oid_source := oid_source w; oid_issued := S (oid_issued w) |}).
    assert (Ht1 : txn w1 = Some d) by exact Ht.
    assert (Hid : subOrderDocs d !! id = None).
    { unfold id. rewrite <- (Nat.add_0_r (oid_issued w)). apply Hfree. simpl. lia. }
    unfold bind at 1. unfold subOrder_insert. rewrite (view_open s d w1 Ht1).
    unfold _id, fields. simpl fst. simpl snd. rewrite Hid.
    set (so := {| parentOrderId := parent; so_vendorId := v; so_items := its;
                  amount := subOrderAmount_of its; so_status := PENDING |}).
    set (w2 := record_access (Write SubOrders)
                 (set_view (Some s) (with_subOrders <[id := so]> d) w1)).
    assert (Ht2 : txn w2 = Some (with_subOrders <[id := so]> d))
      by exact (txn_set_view_open _ _ _ _ Ht1).
    assert (Hsrc : oid_source w2 = oid_source w)
      by exact (oid_source_set_view (Some s) _ w1).
    assert (Hiss : oid_issued w2 = S (oid_issued w))
      by exact (oid_issued_set_view (Some s) _ w1).
    destruct (IH (acc ++ [id]) w2 _ Ht2) as (ids & w' & d' & Hrun & Ht').
    + intros k Hk. rewrite Hsrc, Hiss. simpl.
      replace (S (oid_issued w + k)) with (oid_issued w + S k)%nat by lia.
      rewrite lookup_insert_ne.
      * apply Hfree. simpl. lia.
      * unfold id. rewrite <- (Nat.add_0_r (oid_issued w)) at 1.
        apply Hinj. simpl. lia.
    + intros i j Hij. rewrite Hsrc, Hiss.
      replace (S (oid_issued w) + i)%nat with (oid_issued w + S i)%nat by lia.
      replace (S (oid_issued w) + j)%nat with (oid_issued w + S j)%nat by lia.
      apply Hinj. simpl. lia.
    + exists ids, w', d'. split; [exact Hrun | exact Ht'].
Qed.

(** The save of the order after the sub-order loop returns. *)
Lemma order_save_succeeds s id ids w d o :
  txn w = Some d -> orders d !! id = Some o -> subOrders o = [] ->
  exists w',
    order_save (Some s) id (set_subOrders ids) (bool_decide (ids ≠ [])) w
      = (Return tt, w')
    /\ txn w' = Some (with_orders <[id := set_subOrders ids o]> d).
Proof.
  intros Ht Ho Hnone.
  assert (Hrun : exists w',
            order_save (Some s) id (set_subOrders ids) (bool_decide (ids ≠ [])) w
            = (Return tt, w')).
  { unfold order_save. destruct (bool_decide (ids ≠ [])); [|eexists; reflexivity].
    unfold order_update. rewrite (view_open s d w Ht), Ho. eexists. reflexivity. }
  destruct Hrun as [w' Hrun]. exists w'. split; [exact Hrun|].
  exact (proj1 (order_save_inv _ _ _ _ _ _ _ Ht Ho Hnone Hrun)).
Qed.

(** Strings that are printed ids name different products when they
    differ. *)
Lemma NoDup_cast (ids : list string) :
  Forall printed ids -> NoDup ids -> NoDup (map cast ids).
Proof.
  intros Hpr Hnd. induction Hnd as [|s ids Hs Hnd IH]; simpl; [constructor|].
  apply Forall_cons in Hpr as [Hp Hpr]. constructor; [|exact (IH Hpr)].
  intros Hin. change (cast s ∈ cast <$> ids) in Hin.
  apply list_elem_of_fmap in Hin as (s' & Heq & Hs').
  rewrite Forall_forall in Hpr. pose proof (Hpr s' Hs') as Hp'.
  unfold printed in Hp, Hp'. apply Hs.
  rewrite <- Hp, Heq, Hp'. exact Hs'.
Qed.

(** The reservation loop succeeds when the updates are for different
    products, each stored with stock enough. *)
Lemma apply_stockUpdates_succeeds s (lines : list OrderItemDto) w d :
  txn w = Some d ->
  NoDup (map (fun l => cast (dto_productId l)) lines) ->
  Forall (fun l => exists p, products d !! cast (dto_productId l) = Some p
                             /\ dto_quantity l <= stock p) lines ->
  exists w' d',
    apply_stockUpdates s (map stock_update_of lines) w = (Return tt, w')
    /\ txn w' = Some d'.
Proof.
  revert w d. induction lines as [|l lines IH]; intros w d Ht Hnd Hfit.
  - simpl. exists w, d. done.
  - simpl in Hnd. apply NoDup_cons in Hnd as [Hl Hnd].
    apply Forall_cons in Hfit as [(p & Hp & Hq) Hfit].
    simpl. unfold bind at 1.
    unfold ProductsService.decrementStock, bind, product_findOneAndUpdate_dec.
    rewrite (view_open s d w Ht). simpl. rewrite Hp.
    rewrite decide_True by exact Hq.
    set (d1 := with_products _ d).
    set (w1 := record_access (Write Products) (set_view (Some s) d1 w)).
    assert (Ht1 : txn w1 = Some d1) by exact (txn_set_view_open _ _ _ _ Ht).
    destruct (IH w1 d1 Ht1 Hnd) as (w' & d' & Hrun & Ht').
    + apply Forall_forall. intros l' Hl'.
      rewrite Forall_forall in Hfit. destruct (Hfit l' Hl') as (p' & Hp' & Hq').
      exists p'. split; [|exact Hq']. unfold d1. simpl.
      rewrite lookup_insert_ne; [exact Hp'|].
      intros Heq. apply Hl. rewrite Heq.
      change (cast (dto_productId l')
              ∈ (fun l => cast (dto_productId l)) <$> lines).
      apply list_elem_of_fmap. exists l'. done.
    + exists w', d'. split; [exact Hrun | exact Ht'].
Qed.

(** X6. [create] returns an order when the caller is a customer, the
    lines of the cart are for different products, each named by its
    printed id, stored with positive stock and asked for no more than that
    stock, and the ids the driver hands out next are free (one for the
    order, then one for each sub-order) and differ from one another. *)
Theorem create_succeeds (dto : CreateOrderDto) (user : Doc User) (w : World) :
  role (fields user) = CUSTOMER ->
  NoDup (map dto_productId (dto_items dto)) ->
  Forall (line_fits (products (committed w))) (dto_items dto) ->
  orders (committed w) !! oid_source w (oid_issued w) = None ->
  (forall k, subOrderDocs (committed w) !! oid_source w (S (oid_issued w) + k) = None) ->
  (forall i j, i ≠ j ->
     oid_source w (S (oid_issued w) + i) ≠ oid_source w (S (oid_issued w) + j)) ->
  exists order w',
    create dto user w = (Return order, w')
    /\ _id order = oid_source w (oid_issued w).
Proof.
  intros Hrole Hnd Hfit Hfree Hsubfree Hinj.
  set (m := products (committed w)) in *.
  set (ids := map dto_productId (dto_items dto)) in *.
  assert (Hav : Forall (fun l => available m (dto_productId l)) (dto_items dto)).
  { eapply Forall_impl; [exact Hfit|]. intros l (Hpr & p & Hp & Hpos & _).
    split; [exact Hpr|]. unfold in_stock. rewrite Hp. exact Hpos. }
  assert (Hsnap : Forall (fun l => exists p, snapshot_of m ids !! dto_productId l = Some p
                                             /\ dto_quantity l <= stock p)
                         (dto_items dto)).
  { apply Forall_forall. intros l Hl. rewrite Forall_forall in Hfit.
    destruct (Hfit l Hl) as (Hpr & p & Hp & Hpos & Hq). exists p. split; [|exact Hq].
    apply snapshot_lookup. split; [exact Hpr|]. split; [exact Hp|].
    split; [|exact Hpos].
    apply list_elem_of_fmap. exists (dto_productId l). split; [reflexivity|].
    apply list_elem_of_fmap. exists l. done. }
  assert (Hndc : NoDup (map (fun l => cast (dto_productId l)) (dto_items dto))).
  { rewrite <- (map_map dto_productId cast). apply NoDup_cast; [|exact Hnd].
    apply Forall_fmap. eapply Forall_impl; [exact Hfit|]. intros l [Hpr _]. exact Hpr. }
  unfold create. rewrite decide_False by (intros H; apply H; exact Hrole).
  unfold bind at 1. unfold startSession, ret.
  unfold bind at 1. unfold startTransaction.
  unfold finally, try_catch, create_try.
  unfold bind at 1. unfold ProductsService.getProductsInStock, product_find_in_stock.
  unfold create_with. cbn [committed set_txn].
  fold m. fold ids. fold (snapshot_of m ids).
  rewrite (missing_none m ids) by (apply available_lines; exact Hav).
  rewrite decide_False by (simpl; lia).
  rewrite (bind_Return _ _ _ tt _ (validate_stock_passes _ _ _ Hsnap)).
  set (g := foldl (group_step (snapshot_of m ids)) grouping_start (dto_items dto)).
  unfold bind at 1. unfold new_ObjectId. cbn [oid_source oid_issued record_access set_txn].
  set (oid := oid_source w (oid_issued w)) in *.
  unfold bind at 1. unfold order_insert.
  cbn [view txn committed record_access set_txn _id fields fst snd].
  rewrite Hfree.
  set (order0 := {| customerId := _id user; items := orderItems g;
                    totalAmount := g_totalAmount g; status := PENDING;
                    subOrders := [] |}).
  set (d1 := with_orders <[oid := order0]> (committed w)).
  match goal with
  | |- context [bind (create_subOrders oid Session (vendorItems g) []) _ ?w1] =>
      set (wd := w1)
  end.
  assert (Htd : txn wd = Some d1) by reflexivity.
  destruct (create_subOrders_succeeds oid Session (vendorItems g) [] wd d1 Htd)
    as (sids & we & de & Hsubs & Hte).
  { intros k _. exact (Hsubfree k). }
  { intros i j Hij. apply Hinj. lia. }
  rewrite (bind_Return _ _ _ _ _ Hsubs).
  destruct (create_subOrders_inv _ _ _ _ _ _ _ _ Htd Hsubs)
    as (de' & new & Hte' & _ & _ & Hpe & Hoe & _).
  rewrite Hte in Hte'. injection Hte' as <-.
  assert (Ho : orders de !! oid = Some order0)
    by (rewrite Hoe; apply lookup_insert_eq).
  destruct (order_save_succeeds Session oid sids we de order0 Hte Ho eq_refl)
    as (wf & Hsave & Htf).
  rewrite (bind_Return _ _ _ _ _ Hsave).
  set (df := with_orders _ de) in Htf.
  assert (Hupd : stockUpdates g = map stock_update_of (dto_items dto)).
  { apply (grouping_stockUpdates (snapshot_of m ids) (dto_items dto) grouping_start).
    eapply Forall_impl; [exact Hsnap|]. intros l (p & Hp & _). eauto. }
  rewrite Hupd.
  destruct (apply_stockUpdates_succeeds Session (dto_items dto) wf df Htf Hndc)
    as (wg & dg & Hres & Htg).
  { apply Forall_forall. intros l Hl. rewrite Forall_forall in Hfit.
    destruct (Hfit l Hl) as (_ & p & Hp & _ & Hq). exists p. split; [|exact Hq].
    unfold df. simpl. rewrite Hpe. exact Hp. }
  rewrite (bind_Return _ _ _ _ _ Hres).
  unfold bind, commitTransaction, ret, endSession. rewrite Htg.
  eexists. eexists. split; reflexivity.
Qed.

(** ** Status reconciliation *)

(** X7. A vendor who asks to change a sub-order of another vendor gets
    [Forbidden], and the committed data is unchanged. *)
Theorem updateOrderStatus_foreign_subOrder (id : ObjectId) (st : OrderStatus)
    (user : Doc User) (w : World) (so : SubOrder) :
  orders (committed w) !! id = None ->
  subOrderDocs (committed w) !! id = Some so ->
  role (fields user) = VENDOR ->
  so_vendorId so <> _id user ->
  exists w',
    updateOrderStatus id st user w = (Throw (ForbiddenException OnlyOwnSubOrders), w')
    /\ committed w' = committed w.
Proof.
  intros Hno Hso Hrole Hother.
  unfold updateOrderStatus, try_catch, bind, order_exists.
  rewrite Hno. rewrite bool_decide_eq_false_2 by (intros [? ?]; done).
  unfold update_child, bind, subOrder_findById. simpl. rewrite Hso. simpl.
  rewrite decide_True by done. simpl.
  eexists. split; reflexivity.
Qed.

(** X8. An id that names neither an order nor a sub-order: [NotFound],
    and the committed data is unchanged. *)
Theorem updateOrderStatus_unknown_id (id : ObjectId) (st : OrderStatus)
    (user : Doc User) (w : World) :
  orders (committed w) !! id = None ->
  subOrderDocs (committed w) !! id = None ->
  exists w',
    updateOrderStatus id st user w
      = (Throw (NotFoundException (SubOrderNotFound id)), w')
    /\ committed w' = committed w.
Proof.
  intros Hno Hso.
  unfold updateOrderStatus, try_catch, bind, order_exists.
  rewrite Hno. rewrite bool_decide_eq_false_2 by (intros [? ?]; done).
  unfold update_child, bind, subOrder_findById. simpl. rewrite Hso. simpl.
  eexists. split; reflexivity.
Qed.

(** The enum validator passes a declared status on, and a string the
    enum declares as the status it spells; it throws for any other
    string. *)
Lemma validated_cases (status : StatusInput) :
  (exists st, validated status = ret st)
  \/ (exists value,
        status = Undeclared value /\ status_of_string value = None
        /\ validated status = throw (ValidationError (NotAValidEnumValue value))).
Proof.
  destruct status as [st | value]; simpl; [left; eauto|].
  destruct (status_of_string value) as [st|] eqn:E; [left; eauto|].
  right. exists value. done.
Qed.

(** X9. The errors [updateOrderStatus] can end with, and when, for a
    status of the enum or any other value handed in as the status: the
    [Forbidden] of the parent branch exactly for a vendor on the id of an
    order; the [NotFound] of a sub-order exactly for an id that names
    neither an order nor a sub-order; otherwise the [Forbidden] of a
    vendor on another vendor's sub-order, or the [NotFound] of a missing
    parent; and an internal server error, which carries the message of the
    enum validator, only for a value the enum does not declare, when the
    caller has passed the role checks and the document is about to be
    saved.  A status of the enum never ends with an internal server
    error. *)
Theorem updateOrderStatus_errors (id : ObjectId) (status : StatusInput)
    (user : Doc User) (w w' : World) (e : exception) :
  updateOrderStatus id status user w = (Throw e, w') ->
  (e = ForbiddenException VendorsOnlyOwnSubOrders
   /\ is_Some (orders (committed w) !! id) /\ role (fields user) = VENDOR)
  \/ (e = NotFoundException (SubOrderNotFound id)
      /\ orders (committed w) !! id = None
      /\ subOrderDocs (committed w) !! id = None)
  \/ (e = ForbiddenException OnlyOwnSubOrders
      /\ orders (committed w) !! id = None
      /\ exists so, subOrderDocs (committed w) !! id = Some so
                    /\ role (fields user) = VENDOR /\ so_vendorId so <> _id user)
  \/ (e = NotFoundException (ParentOrderNotFound id)
      /\ orders (committed w) !! id = None
      /\ (exists so, subOrderDocs (committed w) !! id = Some so
                     /\ orders (committed w) !! parentOrderId so = None)
      /\ exists st, validated status = ret st)
  \/ (exists value,
        e = InternalServerErrorException
              (FailedToUpdateOrderStatus (NotAValidEnumValue value))
        /\ status = Undeclared value /\ status_of_string value = None
        /\ ((is_Some (orders (committed w) !! id) /\ role (fields user) <> VENDOR)
            \/ (orders (committed w) !! id = None
                /\ exists so, subOrderDocs (committed w) !! id = Some so
                              /\ ~ (role (fields user) = VENDOR
                                    /\ so_vendorId so <> _id user)))).
Proof.
  unfold updateOrderStatus, try_catch, bind, order_exists.
  destruct (orders (committed w) !! id) as [order|] eqn:Ho.
  - rewrite bool_decide_eq_true_2 by eauto.
    unfold update_parent, bind, order_findById. simpl. rewrite Ho. simpl.
    destruct (decide (role (fields user) = VENDOR)) as [Hv | Hv]; simpl.
    + intros [= <- <-]. left. eauto.
    + destruct (validated_cases status)
        as [[st Hval] | (value & Hstatus & Hnone & Hval)]; rewrite Hval.
      * unfold ret at 1. simpl. save_order id st order Ho. simpl.
        destruct (decide _); simpl; discriminate.
      * unfold throw at 1. simpl. intros [= <- <-].
        do 4 right. exists value. eauto 10.
  - rewrite bool_decide_eq_false_2 by (intros [? ?]; done).
    unfold update_child, bind, subOrder_findById. simpl.
    destruct (subOrderDocs (committed w) !! id) as [so|] eqn:Hso; simpl.
    + destruct (decide _) as [[Hv Hne] | Hok]; simpl.
      * intros [= <- <-]. right. right. left. eauto 10.
      * destruct (validated_cases status)
          as [[st Hval] | (value & Hstatus & Hnone & Hval)]; rewrite Hval.
        -- unfold ret at 1. simpl. save_subOrder id st so Hso. simpl.
           unfold order_findById. simpl.
           destruct (orders (committed w) !! parentOrderId so) as [parent|] eqn:Hp;
             simpl.
           ++ unfold subOrder_find_by_parent. simpl.
              destruct (decide _); simpl.
              ** save_order (parentOrderId so) st parent Hp. simpl. discriminate.
              ** destruct (decide _); simpl; [|discriminate].
                 destruct (forallb _ _); simpl; [|discriminate].
                 save_order (parentOrderId so) st parent Hp. simpl. discriminate.
           ++ intros [= <- <-]. do 3 right. left. eauto 10.
        -- unfold throw at 1. simpl. intros [= <- <-].
           do 4 right. exists value. eauto 10.
    + intros [= <- <-]. right. left. done.
Qed.

(** X27. A value the enum does not declare, handed in as the status by
    an admin or a customer on the id of an order, or by a caller who may
    update the sub-order the id names: an internal server error with the
    message of the enum validator, and the committed data is unchanged. *)
Theorem updateOrderStatus_undeclared (id : ObjectId) (value : string)
    (user : Doc User) (w : World) :
  status_of_string value = None ->
  (is_Some (orders (committed w) !! id) /\ role (fields user) <> VENDOR)
  \/ (orders (committed w) !! id = None
      /\ exists so, subOrderDocs (committed w) !! id = Some so
                    /\ ~ (role (fields user) = VENDOR /\ so_vendorId so <> _id user)) ->
  exists w',
    updateOrderStatus id (Undeclared value) user w
      = (Throw (InternalServerErrorException
                  (FailedToUpdateOrderStatus (NotAValidEnumValue value))), w')
    /\ committed w' = committed w.
Proof.
  intros Hnone Hreach.
  unfold updateOrderStatus, try_catch, bind, order_exists.
  destruct Hreach as [[[order Ho] Hv] | (Ho & so & Hso & Hok)].
  - rewrite Ho. rewrite bool_decide_eq_true_2 by eauto.
    unfold update_parent, bind, order_findById. simpl. rewrite Ho. simpl.
    rewrite decide_False by exact Hv. simpl. rewrite Hnone. simpl.
    eexists. split; reflexivity.
  - rewrite Ho. rewrite bool_decide_eq_false_2 by (intros [? ?]; done).
    unfold update_child, bind, subOrder_findById. simpl. rewrite Hso. simpl.
    rewrite decide_False by exact Hok. simpl. rewrite Hnone. simpl.
    eexists. split; reflexivity.
Qed.

#[global] Instance order_but_status_preorder : PreOrder order_but_status.
Proof.
  split.
  - intros [c i t s l]. reflexivity.
  - intros o1 o2 o3 H12 H23. unfold order_but_status in *.
    rewrite H23, H12. reflexivity.
Qed.

#[global] Instance subOrder_but_status_preorder : PreOrder subOrder_but_status.
Proof.
  split.
  - intros [p v i a s]. reflexivity.
  - intros s1 s2 s3 H12 H23. unfold subOrder_but_status in *.
    rewrite H23, H12. reflexivity.
Qed.

#[global] Instance same_but_status_preorder : PreOrder same_but_status.
Proof.
  split.
  - intros w. split; [reflexivity|]. split; intros k; reflexivity.
  - intros w1 w2 w3 (Hp12 & Ho12 & Hs12) (Hp23 & Ho23 & Hs23).
    split; [congruence|]. split; intros k.
    + etrans; [apply Ho12 | apply Ho23].
    + etrans; [apply Hs12 | apply Hs23].
Qed.

Ltac status_read :=
  intros w r w'; intros [= <- <-];
  split; [reflexivity|]; split; intros k; reflexivity.

Lemma status_order_exists id : respects same_but_status (order_exists id).
Proof. status_read. Qed.

Lemma status_order_findById id : respects same_but_status (order_findById id).
Proof. status_read. Qed.

Lemma status_populate ids : respects same_but_status (populate_subOrders ids).
Proof. status_read. Qed.

Lemma status_subOrder_findById id : respects same_but_status (subOrder_findById id).
Proof. status_read. Qed.

Lemma status_subOrder_find parent :
  respects same_but_status (subOrder_find_by_parent parent).
Proof. status_read. Qed.

Lemma status_order_update id st :
  respects same_but_status (order_update None id (set_status st)).
Proof.
  intros w r w'. unfold order_update. simpl.
  destruct (orders (committed w) !! id) as [o|] eqn:Ho; intros [= <- <-];
    [|split; [reflexivity|]; split; intros k; reflexivity].
  split; [reflexivity|]. split; intros k; [|reflexivity]. simpl.
  destruct (decide (id = k)) as [<- | Hne].
  - rewrite lookup_insert_eq, Ho. constructor. reflexivity.
  - rewrite lookup_insert_ne by exact Hne. reflexivity.
Qed.

Lemma status_subOrder_update id st :
  respects same_but_status (subOrder_update id (set_so_status st)).
Proof.
  intros w r w'. unfold subOrder_update.
  destruct (subOrderDocs (committed w) !! id) as [s|] eqn:Hs; intros [= <- <-];
    [|split; [reflexivity|]; split; intros k; reflexivity].
  split; [reflexivity|]. split; intros k; [reflexivity|]. simpl.
  destruct (decide (id = k)) as [<- | Hne].
  - rewrite lookup_insert_eq, Hs. constructor. reflexivity.
  - rewrite lookup_insert_ne by exact Hne. reflexivity.
Qed.

Lemma status_subOrder_updateMany ids st :
  respects same_but_status (subOrder_updateMany ids st).
Proof.
  intros w r w'. intros [= <- <-].
  split; [reflexivity|]. split; intros k; [reflexivity|]. simpl.
  rewrite map_lookup_imap.
  destruct (subOrderDocs (committed w) !! k) as [s|]; simpl; [|constructor].
  constructor. destruct (decide (k ∈ ids)); reflexivity.
Qed.

(** X10. Whatever it returns, [updateOrderStatus] changes nothing but
    statuses: the products are the same, the same ids are stored in the
    orders and in the sub-orders, and each stored order and sub-order
    keeps every field other than its status (customer, items, amounts,
    vendor, parent and sub-order references). *)
Theorem updateOrderStatus_status_only (id : ObjectId) (st : OrderStatus)
    (user : Doc User) (w : World) :
  same_but_status w (updateOrderStatus id st user w).2.
Proof.
  destruct (updateOrderStatus id st user w) as [r w'] eqn:Hrun.
  revert Hrun. apply respects_updateOrderStatus; first [apply _ | intros].
  - apply status_order_exists.
  - apply status_order_findById.
  - apply status_populate.
  - apply status_subOrder_findById.
  - apply status_subOrder_find.
  - apply status_order_update.
  - apply status_subOrder_update.
  - apply status_subOrder_updateMany.
Qed.

Lemma marked_lookup ids st (m : gmap ObjectId SubOrder) k :
  marked ids st m !! k
  = (fun s => if decide (k ∈ ids) then set_so_status st s else s) <$> m !! k.
Proof. unfold marked. rewrite map_lookup_imap. destruct (m !! k); reflexivity. Qed.

(** Writing the status to the populated sub-orders is writing it to the
    stored sub-orders the reference list names. *)
Lemma marked_populated (m : gmap ObjectId SubOrder) (ids : list ObjectId) st :
  marked (map _id (omap (fun id => pair id <$> m !! id) ids)) st m = marked ids st m.
Proof.
  apply map_eq. intros k. rewrite !marked_lookup.
  destruct (m !! k) as [s|] eqn:E; simpl; [|reflexivity]. f_equal.
  destruct (decide (k ∈ ids)) as [Hin | Hout].
  - rewrite decide_True; [reflexivity|].
    apply (elem_of_populated m). split; [exact Hin|]. rewrite E. eauto.
  - rewrite decide_False; [reflexivity|].
    intros Hc. apply (elem_of_populated m) in Hc as [Hc _]. done.
Qed.

Lemma marked_nothing_populated (m : gmap ObjectId SubOrder) (ids : list ObjectId) st :
  omap (fun id => pair id <$> m !! id) ids = [] -> marked ids st m = m.
Proof.
  intros Hnil. apply map_eq. intros k. rewrite marked_lookup.
  destruct (m !! k) as [s|] eqn:E; simpl; [|reflexivity]. f_equal.
  rewrite decide_False; [reflexivity|]. intros Hin.
  pose proof (proj2 (elem_of_populated m ids k) (conj Hin (ex_intro _ s E))) as Hp.
  rewrite Hnil in Hp. inversion Hp.
Qed.

Lemma marked_marked ids st (m : gmap ObjectId SubOrder) :
  marked ids st (marked ids st m) = marked ids st m.
Proof.
  apply map_eq. intros k. rewrite !marked_lookup.
  destruct (m !! k) as [s|]; simpl; [|reflexivity]. f_equal.
  destruct (decide (k ∈ ids)); reflexivity.
Qed.

(** The committed data [updateOrderStatus] leaves, for every input. *)
Lemma updateOrderStatus_committed id (st : OrderStatus) user w :
  committed (updateOrderStatus id st user w).2 = reconciled id st user (committed w).
Proof.
  unfold reconciled, updateOrderStatus, try_catch, bind, order_exists.
  destruct (orders (committed w) !! id) as [order|] eqn:Ho.
  - rewrite bool_decide_eq_true_2 by eauto.
    unfold update_parent, bind, order_findById. simpl. rewrite Ho. simpl.
    destruct (decide (role (fields user) = VENDOR)) as [Hv | Hv]; simpl;
      [reflexivity|].
    save_order id st order Ho. simpl.
    destruct (decide _) as [Hpos | Hzero]; simpl.
    + unfold with_subOrders. simpl. f_equal.
      apply (marked_populated (subOrderDocs (committed w))).
    + unfold with_orders. simpl. f_equal. symmetry.
      apply marked_nothing_populated.
      destruct (omap _ (subOrders order)); [reflexivity | simpl in Hzero; lia].
  - rewrite bool_decide_eq_false_2 by (intros [? ?]; done).
    unfold update_child, bind, subOrder_findById. simpl.
    destruct (subOrderDocs (committed w) !! id) as [so|] eqn:Hso; simpl;
      [|reflexivity].
    destruct (decide _) as [Hbad | Hok]; simpl; [reflexivity|].
    save_subOrder id st so Hso. simpl.
    unfold order_findById. simpl.
    destruct (orders (committed w) !! parentOrderId so) as [parent|] eqn:Hp; simpl;
      [|reflexivity].
    unfold subOrder_find_by_parent, adopts. simpl.
    fold (siblings (parentOrderId so)
            (<[id := set_so_status st so]> (subOrderDocs (committed w)))).
    destruct (decide _); simpl.
    { save_order (parentOrderId so) st parent Hp. simpl. reflexivity. }
    destruct (decide _); simpl; [|reflexivity].
    destruct (forallb _ _); simpl; [|reflexivity].
    save_order (parentOrderId so) st parent Hp. simpl. reflexivity.
Qed.

Lemma reconciled_idempotent id st user d :
  reconciled id st user (reconciled id st user d) = reconciled id st user d.
Proof.
  destruct (orders d !! id) as [o|] eqn:Ho.
  - destruct (decide (role (fields user) = VENDOR)) as [Hv | Hv].
    + assert (Hin : reconciled id st user d = d)
        by (unfold reconciled; rewrite Ho, decide_True by exact Hv; reflexivity).
      rewrite !Hin. reflexivity.
    + assert (Hin : reconciled id st user d
                    = {| products := products d;
                         orders := <[id := set_status st o]> (orders d);
                         subOrderDocs := marked (subOrders o) st (subOrderDocs d) |})
        by (unfold reconciled; rewrite Ho, decide_False by exact Hv; reflexivity).
      rewrite Hin. unfold reconciled. simpl. rewrite lookup_insert_eq.
      rewrite decide_False by exact Hv. simpl.
      rewrite insert_insert_eq, marked_marked. reflexivity.
  - destruct (subOrderDocs d !! id) as [s|] eqn:Hs.
    + destruct (decide (role (fields user) = VENDOR ∧ so_vendorId s ≠ _id user))
        as [Hbad | Hok].
      * assert (Hin : reconciled id st user d = d)
          by (unfold reconciled; rewrite Ho, Hs, decide_True by exact Hbad;
              reflexivity).
        rewrite !Hin. reflexivity.
      * set (subs := <[id := set_so_status st s]> (subOrderDocs d)).
        set (os := match orders d !! parentOrderId s with
                   | Some p =>
                       if adopts (parentOrderId s) st subs
                       then <[parentOrderId s := set_status st p]> (orders d)
                       else orders d
                   | None => orders d
                   end).
        assert (Hin : reconciled id st user d
                      = {| products := products d; orders := os;
                           subOrderDocs := subs |})
          by (unfold reconciled; rewrite Ho, Hs, decide_False by exact Hok;
              reflexivity).
        rewrite Hin.
        assert (Hsubs : <[id := set_so_status st (set_so_status st s)]> subs = subs)
          by (unfold subs; apply insert_insert_eq).
        assert (Hos : os !! id = None).
        { unfold os. destruct (orders d !! parentOrderId s) as [p|] eqn:Hp;
            [|exact Ho].
          destruct (adopts _ _ _); [|exact Ho].
          rewrite lookup_insert_ne; [exact Ho|]. intros Heq. congruence. }
        unfold reconciled. simpl. rewrite Hos. unfold subs at 1.
        rewrite lookup_insert_eq. rewrite decide_False by exact Hok. simpl.
        fold subs. rewrite Hsubs. f_equal.
        unfold os. destruct (orders d !! parentOrderId s) as [p|] eqn:Hp.
        -- destruct (adopts (parentOrderId s) st subs) eqn:Had.
           ++ rewrite lookup_insert_eq. apply insert_insert_eq.
           ++ rewrite Hp. reflexivity.
        -- rewrite Hp. reflexivity.
    + assert (Hin : reconciled id st user d = d)
        by (unfold reconciled; rewrite Ho, Hs; reflexivity).
      rewrite !Hin. reflexivity.
Qed.

(** X11. [updateOrderStatus] is idempotent on the committed data: the
    same request run a second time, whatever the first one returned,
    leaves the data the first one left. *)
Theorem updateOrderStatus_idempotent (id : ObjectId) (st : OrderStatus)
    (user : Doc User) (w : World) :
  committed (updateOrderStatus id st user (updateOrderStatus id st user w).2).2
  = committed (updateOrderStatus id st user w).2.
Proof.
  rewrite !updateOrderStatus_committed. apply reconciled_idempotent.
Qed.

(** ** The catalog and the Ledger *)

(** X12. [ProductsService.update] refuses, and leaves the committed data
    unchanged: with [NotFound] a product that is not stored, with
    [Forbidden] a vendor who does not own the product, and with [Forbidden]
    a caller who is neither admin nor vendor. *)
Theorem update_refusals (id : ObjectId) (dto : UpdateProductDto) (user : Doc User)
    (w : World) :
  (products (committed w) !! id = None ->
   exists w',
     ProductsService.update id dto user w
       = (Throw (NotFoundException (ProductNotFound id)), w')
     /\ committed w' = committed w)
  /\ (forall p, products (committed w) !! id = Some p ->
        role (fields user) = VENDOR -> product_vendorId p <> _id user ->
        exists w',
          ProductsService.update id dto user w
            = (Throw (ForbiddenException OnlyOwnProducts), w')
          /\ committed w' = committed w)
  /\ (forall p, products (committed w) !! id = Some p ->
        role (fields user) = CUSTOMER ->
        exists w',
          ProductsService.update id dto user w
            = (Throw (ForbiddenException NoPermissionToUpdateProducts), w')
          /\ committed w' = committed w).
Proof.
  unfold ProductsService.update, ProductsService.findOne, bind, product_findById.
  split; [|split].
  - intros Hp. rewrite Hp. simpl. eexists. split; reflexivity.
  - intros p Hp Hv Hne. rewrite Hp. simpl. unfold _id, fields in *. simpl in *.
    rewrite decide_True by done. simpl. eexists. split; reflexivity.
  - intros p Hp Hc. rewrite Hp. simpl. unfold _id, fields in *. simpl in *.
    rewrite decide_False by (intros [Hv _]; congruence).
    rewrite decide_True by (split; congruence). simpl.
    eexists. split; reflexivity.
Qed.

(** X13. Whatever it returns, [ProductsService.update] touches the one
    product it is asked about and nothing else: every other product, every
    order and every sub-order is as before; the product keeps its vendor;
    and no product appears or disappears. *)
Theorem update_frame (id : ObjectId) (dto : UpdateProductDto) (user : Doc User)
    (w : World) :
  let w' := (ProductsService.update id dto user w).2 in
  (forall k, k <> id -> products (committed w') !! k = products (committed w) !! k)
  /\ product_vendorId <$> products (committed w') !! id
     = product_vendorId <$> products (committed w) !! id
  /\ orders (committed w') = orders (committed w)
  /\ subOrderDocs (committed w') = subOrderDocs (committed w).
Proof.
  unfold ProductsService.update, ProductsService.findOne, bind, product_findById.
  destruct (products (committed w) !! id) as [p|] eqn:Hp; simpl;
    [|repeat split; intros; rewrite ?Hp; reflexivity].
  destruct (decide _); simpl; [repeat split; intros; rewrite ?Hp; reflexivity|].
  destruct (decide _); simpl; [repeat split; intros; rewrite ?Hp; reflexivity|].
  unfold product_findByIdAndUpdate. simpl. rewrite Hp. simpl.
  split; [|split; [|split; reflexivity]].
  - intros k Hk. rewrite lookup_insert_ne by congruence. reflexivity.
  - rewrite lookup_insert_eq. reflexivity.
Qed.

(** X14. Taken one request at a time, [updateStock] (read, compare,
    save) and [decrementStock] without a session (one conditional update)
    do the same to the data and return the same document; they differ in
    the error they throw. *)
Theorem updateStock_as_decrementStock (id : ObjectId) (q : Z) (w : World) :
  committed (ProductsService.updateStock id q w).2
  = committed (ProductsService.decrementStock id q None w).2
  /\ (forall doc,
        (ProductsService.updateStock id q w).1 = Return doc
        <-> (ProductsService.decrementStock id q None w).1 = Return doc)
  /\ (forall e, (ProductsService.updateStock id q w).1 = Throw e ->
        (ProductsService.decrementStock id q None w).1
        = Throw (BadRequestException (ProductNotFoundOrInsufficientStock id))
        /\ (e = NotFoundException (ProductNotFound id)
            \/ exists n, e = ForbiddenException (NotEnoughStockFor n))).
Proof.
  unfold ProductsService.updateStock, ProductsService.decrementStock, bind,
    product_findById, product_findOneAndUpdate_dec, product_save.
  simpl. destruct (products (committed w) !! id) as [p|] eqn:Hp; simpl.
  - unfold _id, fields. simpl.
    destruct (decide (stock p < q)), (decide (q <= stock p)); try lia; simpl.
    + split; [reflexivity|]. split; [intros doc; split; discriminate|].
      intros e [= <-]. eauto.
    + destruct (decide (stock p - q = stock p)) as [Heq | Hne].
      * rewrite bool_decide_eq_false_2 by (intros H; apply H; exact Heq).
        simpl. split; [|split; [reflexivity | discriminate]].
        change (stock p + - q) with (stock p - q).
        rewrite (set_stock_same _ p Heq). symmetry.
        apply with_products_id. exact Hp.
      * rewrite bool_decide_eq_true_2 by exact Hne.
        split; [reflexivity|]. split; [reflexivity|]. discriminate.
  - split; [reflexivity|]. split; [intros doc; split; discriminate|].
    intros e [= <-]. eauto.
Qed.




(** ** Looking an order up *)

Lemma head_filter_Some {A} (P : A -> Prop) `{!forall x, Decision (P x)}
    (l : list A) (x : A) :
  head (filter P l) = Some x -> x ∈ l /\ P x.
Proof.
  intros Hh. assert (Hin : x ∈ filter P l).
  { destruct (filter P l) as [|y k]; [discriminate|]. injection Hh as ->. left. }
  apply list_elem_of_filter in Hin. tauto.
Qed.

Lemma head_filter_None {A} (P : A -> Prop) `{!forall x, Decision (P x)}
    (l : list A) :
  head (filter P l) = None <-> forall x, x ∈ l -> ~ P x.
Proof.
  split.
  - intros Hh x Hx HP.
    assert (Hin : x ∈ filter P l) by (apply list_elem_of_filter; done).
    destruct (filter P l); [inversion Hin | discriminate].
  - intros Hno. destruct (filter P l) as [|y k] eqn:E; [reflexivity|].
    exfalso. assert (Hin : y ∈ filter P l) by (rewrite E; left).
    apply list_elem_of_filter in Hin as [HP Hy]. exact (Hno y Hy HP).
Qed.

(** X17. What [findOne] hands out is in the caller's scope.  A customer
    gets the order of that id, and only an order placed by that customer.
    A vendor gets a sub-order, stored with that vendor as vendor, which
    either has the id asked for or belongs to the order of that id; never
    an order.  In each case what is returned is what is stored.  This
    holds in whatever order the storage goes through the sub-orders. *)
Theorem findOne_scope (users : gmap ObjectId User)
    (scan : gmap ObjectId SubOrder -> list (Doc SubOrder)) (id : ObjectId)
    (user : Doc User) (d : Database) (found : Found) :
  scans scan ->
  findOne users scan id user d = Some found ->
  (role (fields user) = CUSTOMER ->
   exists o populated,
     found = FoundOrder (id, o) populated None
     /\ orders d !! id = Some o /\ customerId o = _id user)
  /\ (role (fields user) = VENDOR ->
      exists sid s parent,
        found = FoundSubOrder (sid, s) parent
        /\ subOrderDocs d !! sid = Some s
        /\ so_vendorId s = _id user
        /\ (sid = id \/ parentOrderId s = id))
  /\ (role (fields user) = ADMIN ->
      (exists o populated customer,
         found = FoundOrder (id, o) populated customer /\ orders d !! id = Some o)
      \/ (exists s parent,
            found = FoundSubOrder (id, s) parent
            /\ orders d !! id = None /\ subOrderDocs d !! id = Some s)).
Proof.
  unfold findOne. intros Hscan Hfound.
  destruct (role (fields user)) eqn:Hrole;
    (split; [intros [=] | split; intros [=]]).
  - destruct (orders d !! id) as [o|] eqn:Ho; [|discriminate].
    destruct (decide (customerId o = _id user)); [|discriminate].
    injection Hfound as <-. eauto.
  - destruct (subOrderDocs d !! id) as [s|] eqn:Hs.
    + destruct (decide (so_vendorId s = _id user)) as [Hv | Hv].
      * injection Hfound as <-. unfold with_parent. eauto 10.
      * destruct (head _) as [[sid s']|] eqn:Hh; [|discriminate].
        injection Hfound as <-.
        apply head_filter_Some in Hh as [Hin [Hp Hv']].
        apply Hscan in Hin. unfold with_parent. eauto 10.
    + destruct (head _) as [[sid s']|] eqn:Hh; [|discriminate].
      injection Hfound as <-.
      apply head_filter_Some in Hh as [Hin [Hp Hv']].
      apply Hscan in Hin. unfold with_parent. eauto 10.
  - destruct (orders d !! id) as [o|] eqn:Ho.
    + injection Hfound as <-. left. eauto.
    + destruct (subOrderDocs d !! id) as [s|] eqn:Hs; [|discriminate].
      injection Hfound as <-. right. unfold with_parent. eauto.
Qed.

(** X18. [findOne] answers "not found" exactly when nothing of the
    caller's scope answers to the id: for a customer, no order of that id
    placed by the caller; for a vendor, no sub-order of the caller that
    has the id or belongs to the order of that id; for an admin, neither
    an order nor a sub-order of that id.  This holds in whatever order the
    storage goes through the sub-orders. *)
Theorem findOne_not_found (users : gmap ObjectId User)
    (scan : gmap ObjectId SubOrder -> list (Doc SubOrder)) (id : ObjectId)
    (user : Doc User) (d : Database) :
  scans scan ->
  findOne users scan id user d = None
  <-> match role (fields user) with
      | CUSTOMER =>
          forall o, orders d !! id = Some o -> customerId o <> _id user
      | VENDOR =>
          forall sid s, subOrderDocs d !! sid = Some s -> so_vendorId s = _id user ->
                        sid <> id /\ parentOrderId s <> id
      | ADMIN => orders d !! id = None /\ subOrderDocs d !! id = None
      end.
Proof.
  intros Hscan. unfold findOne. destruct (role (fields user)).
  - destruct (orders d !! id) as [o|] eqn:Ho.
    + destruct (decide (customerId o = _id user)) as [He | Hne].
      * split; [discriminate|]. intros H. exfalso. exact (H o eq_refl He).
      * split; [|reflexivity]. intros _ o' [= <-]. exact Hne.
    + split; [|reflexivity]. intros _ o' [=].
  - destruct (subOrderDocs d !! id) as [s|] eqn:Hs.
    + destruct (decide (so_vendorId s = _id user)) as [Hv | Hv].
      * split; [discriminate|]. intros H. exfalso.
        destruct (H id s Hs Hv) as [Hne _]. exact (Hne eq_refl).
      * rewrite fmap_None, head_filter_None. split.
        -- intros Hno sid s' Hs' Hv'. split.
           ++ intros ->. congruence.
           ++ intros Hp. apply (Hno (sid, s')); [apply Hscan; exact Hs'|].
              done.
        -- intros H [sid s'] Hin [Hp Hv']. apply Hscan in Hin.
           destruct (H sid s' Hin Hv') as [_ Hnp]. exact (Hnp Hp).
    + rewrite fmap_None, head_filter_None. split.
      * intros Hno sid s' Hs' Hv'. split.
        -- intros ->. congruence.
        -- intros Hp. apply (Hno (sid, s')); [apply Hscan; exact Hs'|].
           done.
      * intros H [sid s'] Hin [Hp Hv']. apply Hscan in Hin.
        destruct (H sid s' Hin Hv') as [_ Hnp]. exact (Hnp Hp).
  - destruct (orders d !! id) as [o|] eqn:Ho.
    + split; [discriminate | intros [[=] _]].
    + destruct (subOrderDocs d !! id) as [s|]; simpl.
      * split; [discriminate | intros [_ [=]]].
      * split; done.
Qed.

(** ** Adding and removing products *)

(** X19. [ProductsService.create]: a caller who is not a vendor is
    refused and nothing changes; for a vendor, a DTO with an empty name or
    category fails validation, the error names the name exactly when it is
    empty and the category exactly when it is empty, and the committed
    data is unchanged; with
    both present and the id drawn free, the product is stored under that
    id with the caller as its vendor and the fields of the DTO, no other
    product changes, and [findOne] of that id returns it. *)
Theorem product_create_owned (dto : ProductsService.CreateProductDto)
    (user : Doc User) (w : World) :
  (role (fields user) <> VENDOR ->
   ProductsService.create dto user w
   = (ProductsService.Failed ProductsService.OnlyVendorsCanCreateProducts, w))
  /\ (role (fields user) = VENDOR ->
      ProductsService.new_name dto = EmptyString
      \/ ProductsService.new_category dto = EmptyString ->
      exists paths w',
        ProductsService.create dto user w
        = (ProductsService.Failed
             (ProductsService.FailedToCreateProduct
                (ProductsService.ValidationFailed paths)), w')
        /\ committed w' = committed w
        /\ ("name"%string ∈ paths <-> ProductsService.new_name dto = EmptyString)
        /\ ("category"%string ∈ paths
            <-> ProductsService.new_category dto = EmptyString))
  /\ (role (fields user) = VENDOR ->
      ProductsService.new_name dto <> EmptyString ->
      ProductsService.new_category dto <> EmptyString ->
      products (committed w) !! oid_source w (oid_issued w) = None ->
      let id := oid_source w (oid_issued w) in
      let product :=
        {| product_name := ProductsService.new_name dto;
           price := ProductsService.new_price dto;
           stock := ProductsService.new_stock dto;
           category := ProductsService.new_category dto;
           product_vendorId := _id user |} in
      exists w',
        ProductsService.create dto user w = (ProductsService.Done (id, product), w')
        /\ products (committed w') = <[id := product]> (products (committed w))
        /\ orders (committed w') = orders (committed w)
        /\ subOrderDocs (committed w') = subOrderDocs (committed w)
        /\ (ProductsService.findOne id w').1 = Return (id, product)).
Proof.
  unfold ProductsService.create. split; [|split].
  - intros Hrole. rewrite decide_True by exact Hrole. reflexivity.
  - intros Hrole Hempty.
    rewrite decide_False by (intros H; apply H; exact Hrole).
    unfold new_ObjectId, ProductsService.missing_paths. cbn [product_name category].
    destruct (decide (ProductsService.new_name dto = EmptyString)) as [Hn|Hn];
      destruct (decide (ProductsService.new_category dto = EmptyString)) as [Hc|Hc];
      try (destruct Hempty; contradiction);
      simpl; eexists _, _; (split; [reflexivity|]); (split; [reflexivity|]);
      split; (split; [intros Hin | intros Heq]);
      first [ assumption | contradiction
            | apply (bool_decide_unpack _); vm_compute; exact I
            | exfalso; apply (bool_decide_pack _) in Hin; vm_compute in Hin;
              exact Hin ].
  - intros Hrole Hname Hcat Hfree.
    rewrite decide_False by (intros H; apply H; exact Hrole).
    unfold new_ObjectId, ProductsService.missing_paths. cbn [product_name category].
    rewrite (decide_False (P := ProductsService.new_name dto = EmptyString))
      by exact Hname.
    rewrite (decide_False (P := ProductsService.new_category dto = EmptyString))
      by exact Hcat.
    unfold ProductsService.product_insert. simpl.
    rewrite Hfree. simpl. eexists. split; [reflexivity|]. simpl.
    split; [reflexivity|]. split; [reflexivity|]. split; [reflexivity|].
    unfold ProductsService.findOne, bind, product_findById. simpl.
    rewrite lookup_insert_eq. reflexivity.
Qed.

(** X20. [ProductsService.remove].  It refuses, and leaves the committed
    data unchanged: a product that is not stored ([NotFound]), a vendor
    who does not own the product, and a caller who is neither admin nor
    vendor.  For the owning vendor or an admin it returns the stored
    product and deletes it: that id is gone, every other product and the
    order collections are as before, and [findOne] of that id then throws
    [NotFound]. *)
Theorem remove_deletes (id : ObjectId) (user : Doc User) (w : World) :
  (products (committed w) !! id = None ->
   exists w',
     ProductsService.remove id user w
     = (ProductsService.Failed
          (ProductsService.Http (NotFoundException (ProductNotFound id))), w')
     /\ committed w' = committed w)
  /\ (forall p, products (committed w) !! id = Some p ->
        (role (fields user) = VENDOR -> product_vendorId p <> _id user ->
         exists w',
           ProductsService.remove id user w
           = (ProductsService.Failed ProductsService.OnlyDeleteOwnProducts, w')
           /\ committed w' = committed w)
        /\ (role (fields user) = CUSTOMER ->
            exists w',
              ProductsService.remove id user w
              = (ProductsService.Failed ProductsService.NoPermissionToDeleteProducts, w')
              /\ committed w' = committed w)
        /\ (role (fields user) = ADMIN
            \/ (role (fields user) = VENDOR /\ product_vendorId p = _id user) ->
            exists w',
              ProductsService.remove id user w = (ProductsService.Done (id, p), w')
              /\ products (committed w') = delete id (products (committed w))
              /\ orders (committed w') = orders (committed w)
              /\ subOrderDocs (committed w') = subOrderDocs (committed w)
              /\ (ProductsService.findOne id w').1
                 = Throw (NotFoundException (ProductNotFound id)))).
Proof.
  unfold ProductsService.remove, ProductsService.findOne, bind, product_findById.
  split.
  - intros Hp. rewrite Hp. simpl. eexists. split; reflexivity.
  - intros p Hp. rewrite Hp. simpl. unfold _id, fields. simpl.
    split; [|split].
    + intros Hv Hne. rewrite decide_True by done. eexists. split; reflexivity.
    + intros Hc. rewrite decide_False by (intros [Hv _]; congruence).
      rewrite decide_True by (split; congruence). eexists. split; reflexivity.
    + intros Hmay.
      rewrite decide_False
        by (intros [Hv Hne]; destruct Hmay as [Ha | [_ Heq]];
            unfold _id in *; congruence).
      rewrite decide_False
        by (intros [Hna Hnv]; destruct Hmay as [Ha | [Hv _]]; congruence).
      unfold ProductsService.product_findByIdAndDelete. simpl. rewrite Hp. simpl.
      eexists. split; [reflexivity|]. simpl.
      split; [reflexivity|]. split; [reflexivity|]. split; [reflexivity|].
      rewrite lookup_delete_eq. reflexivity.
Qed.

(** ** Accounts *)

Lemma findByEmail_None (users : gmap ObjectId User) (e : string) :
  UsersService.findByEmail users e = None
  <-> forall i u, users !! i = Some u -> email u <> e.
Proof.
  unfold UsersService.findByEmail. rewrite head_filter_None. split.
  - intros H i u Hu. apply (H (i, u)). apply elem_of_map_to_list. exact Hu.
  - intros H [i u] Hin. apply elem_of_map_to_list in Hin. exact (H i u Hin).
Qed.

Lemma findByEmail_Some (users : gmap ObjectId User) (e : string) (d : Doc User) :
  UsersService.findByEmail users e = Some d ->
  users !! _id d = Some (fields d) /\ email (fields d) = e.
Proof.
  unfold UsersService.findByEmail. intros H.
  apply head_filter_Some in H as [Hin He]. destruct d as [i u].
  apply elem_of_map_to_list in Hin. done.
Qed.

(** With unique emails, looking a stored user up by its email finds that
    user. *)
Lemma findByEmail_stored (users : gmap ObjectId User) (i : ObjectId) (u : User) :
  emails_unique users -> users !! i = Some u ->
  UsersService.findByEmail users (email u) = Some (i, u).
Proof.
  intros Huniq Hu.
  destruct (UsersService.findByEmail users (email u)) as [[j v]|] eqn:E.
  - apply findByEmail_Some in E as [Hv He]. simpl in *.
    pose proof (Huniq j i v u Hv Hu He) as ->.
    rewrite Hu in Hv. injection Hv as ->. reflexivity.
  - exfalso. rewrite findByEmail_None in E. exact (E i u Hu eq_refl).
Qed.

(** [UsersService.create] keeps emails unique. *)
Lemma users_create_keeps_unique (hash : string -> string) (id : ObjectId)
    (dto : SignupDto) (users : gmap ObjectId User) :
  emails_unique users ->
  emails_unique (UsersService.create hash id dto users).2.
Proof.
  intros Huniq. unfold UsersService.create.
  destruct (UsersService.findByEmail users (signup_email dto)) as [d|] eqn:E;
    [exact Huniq|].
  pose proof (proj1 (findByEmail_None _ _) E) as Hno.
  destruct (UsersService.missing_paths _); [|exact Huniq].
  destruct (users !! id) eqn:Hid; [exact Huniq|]. simpl.
  intros i j u v Hu Hv Heq.
  apply lookup_insert_Some in Hu as [[<- <-] | [Hi Hu]];
    apply lookup_insert_Some in Hv as [[<- <-] | [Hj Hv]].
  - reflexivity.
  - exfalso. simpl in Heq. exact (Hno j v Hv (eq_sym Heq)).
  - exfalso. simpl in Heq. exact (Hno i u Hu Heq).
  - exact (Huniq i j u v Hu Hv Heq).
Qed.

(** X21. [UsersService.create] keeps emails unique, without help from
    the index of the collection: it refuses an email in use and leaves the
    users as they were; otherwise, with a name, an email and a hash that
    are not empty and the id free, the user is stored with the hash of
    the password and every other user is as before. *)
Theorem users_create_unique (hash : string -> string) (id : ObjectId)
    (dto : SignupDto) (users : gmap ObjectId User) :
  emails_unique users ->
  emails_unique (UsersService.create hash id dto users).2
  /\ ((exists i u, users !! i = Some u /\ email u = signup_email dto) ->
      UsersService.create hash id dto users = (inl UsersService.EmailAlreadyInUse, users))
  /\ ((forall i u, users !! i = Some u -> email u <> signup_email dto) ->
      signup_name dto <> EmptyString -> signup_email dto <> EmptyString ->
      hash (signup_password dto) <> EmptyString ->
      users !! id = None ->
      let newUser := {| user_name := signup_name dto; email := signup_email dto;
                        password := hash (signup_password dto);
                        role := signup_role dto |} in
      UsersService.create hash id dto users = (inr (id, newUser), <[id := newUser]> users)).
Proof.
  intros Huniq. unfold UsersService.create.
  destruct (UsersService.findByEmail users (signup_email dto)) as [d|] eqn:E.
  - split; [exact Huniq|]. split; [reflexivity|].
    intros Hno. exfalso. apply findByEmail_Some in E as [Hd He].
    exact (Hno _ _ Hd He).
  - pose proof (proj1 (findByEmail_None _ _) E) as Hno.
    split; [|split].
    + pose proof (users_create_keeps_unique hash id dto users Huniq) as H.
      unfold UsersService.create in H. rewrite E in H. exact H.
    + intros (i & u & Hu & He). exfalso. exact (Hno i u Hu He).
    + intros _ Hname Hemail Hhash Hid.
      unfold UsersService.missing_paths. cbn [user_name email password].
      rewrite (decide_False (P := signup_name dto = EmptyString)) by exact Hname.
      rewrite (decide_False (P := signup_email dto = EmptyString)) by exact Hemail.
      rewrite (decide_False (P := hash (signup_password dto) = EmptyString))
        by exact Hhash.
      simpl. rewrite Hid. reflexivity.
Qed.

(** X22. Signing up and then logging in.  When [bcrypt.compare] accepts
    a password against its own hash and emails are unique, a [signup]
    that succeeds has stored the user it answers with, and is followed by
    a [login] with the same email and password that succeeds, whenever it
    is made: it answers with the same user, and with a token signed at the
    time of the login for the payload ([id], [email], [role]) that the
    token of the signup was signed for at the time of the signup.  Every
    account that could log in before still can, with the same answer at
    the same time. *)
Theorem signup_then_login (hash : string -> string)
    (compare : string -> string -> bool) (sign : nat -> JwtPayload -> string)
    (now later : nat) (id : ObjectId) (dto : SignupDto)
    (users users' : gmap ObjectId User) (answer : string * UserResponse) :
  (forall pw, compare pw (hash pw) = true) ->
  emails_unique users ->
  AuthService.signup hash sign now id dto users = (inr answer, users') ->
  let user := (id, {| user_name := signup_name dto; email := signup_email dto;
                      password := hash (signup_password dto);
                      role := signup_role dto |}) in
  let payload := {| jwt_id := id; jwt_email := signup_email dto;
                    jwt_role := signup_role dto |} in
  let credentials := {| login_email := signup_email dto;
                        login_password := signup_password dto |} in
  users' !! id = Some (fields user)
  /\ answer.1 = sign now payload
  /\ answer.2 = {| resp_id := id; resp_name := signup_name dto;
                   resp_email := signup_email dto; resp_role := signup_role dto |}
  /\ AuthService.login compare sign later credentials users'
     = inr (sign later payload, answer.2)
  /\ forall other a time,
       AuthService.login compare sign time other users = inr a ->
       AuthService.login compare sign time other users' = inr a.
Proof.
  intros Hbcrypt Huniq. unfold AuthService.signup.
  pose proof (users_create_keeps_unique hash id dto users Huniq) as Huniq'.
  unfold UsersService.create in *.
  destruct (UsersService.findByEmail users (signup_email dto)) as [d|] eqn:E;
    [discriminate|].
  destruct (UsersService.missing_paths _); [|discriminate].
  destruct (users !! id) eqn:Hid; [discriminate|].
  simpl in Huniq'. intros [= <- <-].
  set (newUser := {| user_name := signup_name dto; email := signup_email dto;
                     password := hash (signup_password dto);
                     role := signup_role dto |}) in *.
  split; [apply lookup_insert_eq|]. split; [reflexivity|]. split; [reflexivity|].
  split.
  - unfold AuthService.login.
    pose proof (findByEmail_stored (<[id := newUser]> users) id newUser Huniq'
                  (lookup_insert_eq _ _ _)) as Hfound.
    change (email newUser) with (signup_email dto) in Hfound.
    cbn [login_email login_password]. rewrite Hfound.
    cbn [fields snd password newUser]. rewrite Hbcrypt. reflexivity.
  - intros other a time. unfold AuthService.login.
    destruct (UsersService.findByEmail users (login_email other)) as [[i u]|] eqn:Eo;
      [|discriminate].
    apply findByEmail_Some in Eo as [Hu He]. simpl in Hu, He.
    assert (Hne : id <> i) by (intros ->; congruence).
    assert (Hu' : <[id := newUser]> users !! i = Some u)
      by (rewrite lookup_insert_ne by exact Hne; exact Hu).
    rewrite <- He. rewrite (findByEmail_stored _ i u Huniq' Hu'). auto.
Qed.

(** * Further concrete runs *)

Ltac run := vm_compute; first [reflexivity | discriminate | exact I].
Ltac fits p := split; [run | exists p; split; [run | split; run]].

Lemma scans_map_to_list : scans map_to_list.
Proof. intros m [i s]. apply elem_of_map_to_list. Qed.

Lemma create_product_unavailable_witness :
  exists w',
    create cart_unknown customer (world_of shop)
      = (Throw (BadRequestException
                  (ProductsNotFoundOrOutOfStock ["00000000000000000000000d"%string])),
         w')
    /\ committed w' = shop
    /\ txn w' = None
    /\ accesses w' = [Read Products]
    /\ oid_issued w' = 0%nat.
Proof.
  destruct (create_product_unavailable cart_unknown customer (world_of shop) eq_refl)
    as (w' & Hrun & Hrest).
  - exists (line 13 1). split; [right; left|].
    intros [_ Hin]. vm_compute in Hin. exact Hin.
  - exists w'. split; [|exact Hrest].
    rewrite Hrun. vm_compute. reflexivity.
Defined.

(** A store is linked when each of its sub-orders passes the check. *)
Lemma linked_checked (d : Database) :
  map_Forall (fun sid s => match orders d !! parentOrderId s with
                           | Some o => bool_decide (sid ∈ subOrders o)
                           | None => false
                           end = true) (subOrderDocs d) ->
  linked d.
Proof.
  intros H sid s Hs. specialize (H sid s Hs). simpl in H.
  destruct (orders d !! parentOrderId s) as [o|]; [|discriminate].
  apply bool_decide_eq_true in H. eauto.
Qed.

Lemma linked_placed_abc : linked (committed placed_abc).
Proof. apply linked_checked. apply (bool_decide_unpack _). vm_compute. exact I. Qed.

Lemma stock_nonneg_shop : stock_nonneg (products shop).
Proof. apply (bool_decide_unpack _). vm_compute. exact I. Qed.

Lemma emails_unique_accounts : emails_unique accounts.
Proof.
  intros i j u v Hu Hv _. unfold accounts in *.
  apply lookup_insert_Some in Hu as [[<- _] | [_ Hu]];
    [|rewrite lookup_empty in Hu; discriminate].
  apply lookup_insert_Some in Hv as [[<- _] | [_ Hv]];
    [reflexivity | rewrite lookup_empty in Hv; discriminate].
Qed.

Lemma create_not_enough_stock_witness :
  exists w',
    create cart_short_b customer (world_of shop)
      = (Throw (BadRequestException (NotEnoughStock "B" 1 3)), w')
    /\ committed w' = shop
    /\ txn w' = None
    /\ accesses w' = [Read Products]
    /\ oid_issued w' = 0%nat.
Proof.
  apply (create_not_enough_stock cart_short_b customer (world_of shop)
           [line 10 2] [line 12 1] (line 11 3) productB).
  - reflexivity.
  - reflexivity.
  - apply (bool_decide_unpack _). run.
  - apply Forall_cons; split; [fits productA | constructor].
  - run.
  - run.
Defined.


Lemma create_stores_pending_witness :
  orders shop !! 100%N = None
  /\ orders (committed placed_abc) = <[100%N := fields order_abc]> (orders shop)
  /\ Forall (fun sid => exists s,
               subOrderDocs (committed placed_abc) !! sid = Some s
               /\ so_status s = PENDING /\ parentOrderId s = 100%N)
            [101%N; 102%N].
Proof.
  destruct (create_stores_pending cart_abc customer (world_of shop) placed_abc
              order_abc ltac:(run)) as (Hfree & Ho & _ & _ & Hsubs & _).
  split; [exact Hfree|]. split; [exact Ho | exact Hsubs].
Defined.

(** Prices 0.1, 0.2 and 9.99, one unit of each: the total is what the
    three additions give in this order. *)
Lemma create_total_over_lines_witness :
  exists order,
    (create cart_decimal customer (world_of pantry)).1 = Return order
    /\ totalAmount (fields order)
       = (0 + 0.1 * number 1 + 0.2 * number 1 + 9.99 * number 1)%float
    /\ totalAmount (fields order) = 10.290000000000001%float.
Proof.
  destruct (create cart_decimal customer (world_of pantry)) as [[order|e] w'] eqn:Hrun;
    [|vm_compute in Hrun; discriminate].
  exists order. split; [reflexivity|].
  destruct (create_total_over_lines cart_decimal customer (world_of pantry) w' order
              Hrun) as [Hfold _].
  split; rewrite Hfold; vm_compute; reflexivity.
Defined.

Lemma create_errors_witness :
  let e := BadRequestException (ProductsNotFoundOrOutOfStock [toString 13%N]) in
  e = ForbiddenException OnlyCustomersCanCreateOrders
  \/ (exists ids, e = BadRequestException (ProductsNotFoundOrOutOfStock ids))
  \/ (exists n a r, e = BadRequestException (NotEnoughStock n a r))
  \/ (exists id, e = BadRequestException (ProductNotFoundOrInsufficientStock id))
  \/ (exists c id,
        e = InternalServerErrorException (FailedToCreateOrder (DuplicateKey c id))).
Proof.
  exact (create_errors cart_unknown customer (world_of shop)
           (create cart_unknown customer (world_of shop)).2
           (BadRequestException (ProductsNotFoundOrOutOfStock [toString 13%N]))
           ltac:(run)).
Defined.

Lemma create_succeeds_witness :
  exists order w',
    create cart_abc customer (world_of shop) = (Return order, w')
    /\ _id order = 100%N.
Proof.
  apply (create_succeeds cart_abc customer (world_of shop)).
  - reflexivity.
  - apply (bool_decide_unpack _). run.
  - apply Forall_cons; split; [fits productA|].
    apply Forall_cons; split; [fits productB|].
    apply Forall_cons; split; [fits productC | constructor].
  - run.
  - intros k. apply lookup_empty.
  - intros i j Hij. simpl. lia.
Defined.

Lemma updateOrderStatus_foreign_subOrder_witness :
  exists w',
    updateOrderStatus 201%N SHIPPED vendor2 (world_of warehouse)
      = (Throw (ForbiddenException OnlyOwnSubOrders), w')
    /\ committed w' = warehouse.
Proof.
  apply (updateOrderStatus_foreign_subOrder 201%N SHIPPED vendor2 (world_of warehouse)
           (sub 200 1 SHIPPED)); run.
Defined.

Lemma updateOrderStatus_unknown_id_witness :
  exists w',
    updateOrderStatus 999%N SHIPPED admin (world_of warehouse)
      = (Throw (NotFoundException (SubOrderNotFound 999%N)), w')
    /\ committed w' = warehouse.
Proof.
  apply (updateOrderStatus_unknown_id 999%N SHIPPED admin (world_of warehouse)); run.
Defined.

(** An admin hands in, for an order, a status the enum does not
    declare. *)
Lemma updateOrderStatus_errors_witness :
  let e := InternalServerErrorException
             (FailedToUpdateOrderStatus (NotAValidEnumValue "refunded")) in
  (e = ForbiddenException VendorsOnlyOwnSubOrders
   /\ is_Some (orders warehouse !! 200%N) /\ role (fields admin) = VENDOR)
  \/ (e = NotFoundException (SubOrderNotFound 200%N)
      /\ orders warehouse !! 200%N = None
      /\ subOrderDocs warehouse !! 200%N = None)
  \/ (e = ForbiddenException OnlyOwnSubOrders
      /\ orders warehouse !! 200%N = None
      /\ exists so, subOrderDocs warehouse !! 200%N = Some so
                    /\ role (fields admin) = VENDOR /\ so_vendorId so <> _id admin)
  \/ (e = NotFoundException (ParentOrderNotFound 200%N)
      /\ orders warehouse !! 200%N = None
      /\ (exists so, subOrderDocs warehouse !! 200%N = Some so
                     /\ orders warehouse !! parentOrderId so = None)
      /\ exists st, validated (Undeclared "refunded") = ret st)
  \/ (exists value,
        e = InternalServerErrorException
              (FailedToUpdateOrderStatus (NotAValidEnumValue value))
        /\ Undeclared "refunded" = Undeclared value
        /\ status_of_string value = None
        /\ ((is_Some (orders warehouse !! 200%N) /\ role (fields admin) <> VENDOR)
            \/ (orders warehouse !! 200%N = None
                /\ exists so, subOrderDocs warehouse !! 200%N = Some so
                              /\ ~ (role (fields admin) = VENDOR
                                    /\ so_vendorId so <> _id admin)))).
Proof.
  exact (updateOrderStatus_errors 200%N (Undeclared "refunded") admin
           (world_of warehouse)
           (updateOrderStatus 200%N (Undeclared "refunded") admin
              (world_of warehouse)).2
           (InternalServerErrorException
              (FailedToUpdateOrderStatus (NotAValidEnumValue "refunded")))
           ltac:(run)).
Defined.

Lemma updateOrderStatus_undeclared_witness :
  exists w',
    updateOrderStatus 200%N (Undeclared "refunded") admin (world_of warehouse)
      = (Throw (InternalServerErrorException
                  (FailedToUpdateOrderStatus (NotAValidEnumValue "refunded"))), w')
    /\ committed w' = warehouse.
Proof.
  apply (updateOrderStatus_undeclared 200%N "refunded" admin (world_of warehouse)).
  - reflexivity.
  - left. split; [exists parent200; run | discriminate].
Defined.

Lemma update_refusals_witness :
  (exists w',
     ProductsService.update 13%N restock vendor1 (world_of shop)
       = (Throw (NotFoundException (ProductNotFound 13%N)), w')
     /\ committed w' = shop)
  /\ (exists w',
        ProductsService.update 10%N restock vendor2 (world_of shop)
          = (Throw (ForbiddenException OnlyOwnProducts), w')
        /\ committed w' = shop)
  /\ (exists w',
        ProductsService.update 10%N restock customer (world_of shop)
          = (Throw (ForbiddenException NoPermissionToUpdateProducts), w')
        /\ committed w' = shop).
Proof.
  split; [|split].
  - destruct (update_refusals 13%N restock vendor1 (world_of shop)) as (H & _ & _).
    apply H. run.
  - destruct (update_refusals 10%N restock vendor2 (world_of shop)) as (_ & H & _).
    apply (H productA); run.
  - destruct (update_refusals 10%N restock customer (world_of shop)) as (_ & _ & H).
    apply (H productA); run.
Defined.



(** Vendor 2 asks for the order placed in the shop and gets its own
    sub-order of it. *)
Lemma findOne_scope_witness :
  exists sid s parent,
    findOne directory map_to_list 100%N vendor2 (committed placed_abc)
    = Some (FoundSubOrder (sid, s) parent)
    /\ subOrderDocs (committed placed_abc) !! sid = Some s
    /\ so_vendorId s = 2%N
    /\ (sid = 100%N \/ parentOrderId s = 100%N).
Proof.
  destruct (findOne directory map_to_list 100%N vendor2 (committed placed_abc))
    as [found|] eqn:E; [|vm_compute in E; discriminate].
  destruct (findOne_scope directory map_to_list 100%N vendor2 (committed placed_abc)
              found scans_map_to_list E) as (_ & Hvendor & _).
  destruct (Hvendor eq_refl) as (sid & s & parent & -> & Hs & Hv & Hid).
  exists sid, s, parent. split; [reflexivity|]. split; [exact Hs|].
  split; [exact Hv | exact Hid].
Defined.

(** Vendor 2 has no sub-order of id 101 (that one is vendor 1's) and
    none in an order of id 101. *)
Lemma findOne_not_found_witness :
  findOne directory map_to_list 101%N vendor2 (committed placed_abc) = None.
Proof.
  refine (proj2 (findOne_not_found directory map_to_list 101%N vendor2
                   (committed placed_abc) scans_map_to_list) _).
  change (forall sid s,
            subOrderDocs (committed placed_abc) !! sid = Some s ->
            so_vendorId s = 2%N -> sid <> 101%N /\ parentOrderId s <> 101%N).
  intros sid s Hs Hv.
  assert (Hcheck : map_Forall (fun sid s => so_vendorId s = 2%N ->
                                 sid <> 101%N /\ parentOrderId s <> 101%N)
                     (subOrderDocs (committed placed_abc)))
    by (apply (bool_decide_unpack _); vm_compute; exact I).
  exact (Hcheck sid s Hs Hv).
Defined.

Lemma product_create_owned_witness :
  ProductsService.create hammer customer (world_of shop)
  = (ProductsService.Failed ProductsService.OnlyVendorsCanCreateProducts, world_of shop)
  /\ (exists paths w',
        ProductsService.create nameless vendor1 (world_of shop)
        = (ProductsService.Failed
             (ProductsService.FailedToCreateProduct
                (ProductsService.ValidationFailed paths)), w')
        /\ committed w' = shop)
  /\ (exists w',
        ProductsService.create hammer vendor1 (world_of shop)
        = (ProductsService.Done
             (100%N, {| product_name := "hammer"; price := 15; stock := 3;
                        category := "tools"; product_vendorId := 1%N |}), w')
        /\ products (committed w') !! 10%N = Some productA).
Proof.
  split; [|split].
  - destruct (product_create_owned hammer customer (world_of shop)) as (H & _ & _).
    apply H. discriminate.
  - destruct (product_create_owned nameless vendor1 (world_of shop)) as (_ & H & _).
    destruct H as (paths & w' & Hrun & Hc & _); [reflexivity | left; reflexivity |].
    exists paths, w'. split; [exact Hrun | exact Hc].
  - destruct (product_create_owned hammer vendor1 (world_of shop)) as (_ & _ & H).
    destruct H as (w' & Hrun & Hp & _); [reflexivity | discriminate | discriminate | run |].
    exists w'. split; [exact Hrun|]. rewrite Hp. run.
Defined.

Lemma remove_deletes_witness :
  (exists w',
     ProductsService.remove 10%N vendor2 (world_of shop)
     = (ProductsService.Failed ProductsService.OnlyDeleteOwnProducts, w')
     /\ committed w' = shop)
  /\ (exists w',
        ProductsService.remove 10%N vendor1 (world_of shop)
        = (ProductsService.Done (10%N, productA), w')
        /\ products (committed w') = delete 10%N (products shop)).
Proof.
  destruct (remove_deletes 10%N vendor2 (world_of shop)) as (_ & H2).
  destruct (H2 productA ltac:(run)) as (Hforeign & _ & _).
  destruct (remove_deletes 10%N vendor1 (world_of shop)) as (_ & H1).
  destruct (H1 productA ltac:(run)) as (_ & _ & Hown).
  split.
  - apply Hforeign; run.
  - destruct Hown as (w' & Hrun & Hp & _); [right; split; reflexivity|].
    exists w'. split; [exact Hrun | exact Hp].
Defined.

Lemma users_create_unique_witness :
  emails_unique (UsersService.create marked_hash 51%N signup_alice accounts).2
  /\ UsersService.create marked_hash 51%N signup_alice accounts
     = (inr (51%N, alice), <[51%N := alice]> accounts).
Proof.
  destruct (users_create_unique marked_hash 51%N signup_alice accounts
              emails_unique_accounts) as (Huniq & _ & Hnew).
  split; [exact Huniq|].
  apply Hnew; try discriminate; [|run].
  intros i u Hu. unfold accounts in Hu.
  apply lookup_insert_Some in Hu as [[_ <-] | [_ Hu]];
    [discriminate | rewrite lookup_empty in Hu; discriminate].
Defined.

(** Alice signs up at time 3 and logs in at time 7: the same user, and
    a token of time 7. *)
Lemma signup_then_login_witness :
  (AuthService.signup marked_hash token_of 3 51%N signup_alice accounts).1
  = inr ("alice@shop@3"%string,
         {| resp_id := 51%N; resp_name := "alice"; resp_email := "alice@shop";
            resp_role := VENDOR |})
  /\ AuthService.login marked_compare token_of 7
       {| login_email := "alice@shop"; login_password := "secret1" |}
       (<[51%N := alice]> accounts)
     = inr ("alice@shop@7"%string,
            {| resp_id := 51%N; resp_name := "alice"; resp_email := "alice@shop";
               resp_role := VENDOR |}).
Proof.
  split; [run|].
  destruct (signup_then_login marked_hash marked_compare token_of 3 7 51%N
              signup_alice accounts (<[51%N := alice]> accounts)
              ("alice@shop@3"%string,
               {| resp_id := 51%N; resp_name := "alice"; resp_email := "alice@shop";
                  resp_role := VENDOR |}))
    as (_ & _ & _ & Hlogin & _).
  - intros pw. unfold marked_compare. apply bool_decide_eq_true. reflexivity.
  - exact emails_unique_accounts.
  - run.
  - etrans; [exact Hlogin | run].
Defined.

Lemma create_keeps_linked_witness :
  linked (committed (create cart_abc customer (world_of shop)).2)
  /\ linked (committed (create cart_too_much_a customer (world_of shop)).2).
Proof.
  split.
  - apply (create_keeps_linked cart_abc customer (world_of shop)).
    intros sid s Hs. vm_compute in Hs. discriminate.
  - apply (create_keeps_linked cart_too_much_a customer (world_of shop)).
    intros sid s Hs. vm_compute in Hs. discriminate.
Defined.

Lemma updateOrderStatus_keeps_linked_witness :
  linked (committed (updateOrderStatus 101%N SHIPPED vendor1 placed_abc).2).
Proof.
  apply (updateOrderStatus_keeps_linked 101%N SHIPPED vendor1 placed_abc).
  exact linked_placed_abc.
Defined.

Lemma create_keeps_stock_nonneg_witness :
  stock_nonneg (products (committed (create cart_too_much_a customer (world_of shop)).2))
  /\ stock_nonneg (products (committed placed_abc)).
Proof.
  split.
  - apply (create_keeps_stock_nonneg cart_too_much_a customer (world_of shop)).
    exact stock_nonneg_shop.
  - apply (create_keeps_stock_nonneg cart_abc customer (world_of shop)).
    exact stock_nonneg_shop.
Defined.
